(** * testperanto hyper-parameter tuning: a shallow embedding of
      [hyperparam-tuning/src/experiment.py]

    The development follows the Python source function by function.

    - Python exceptions are values of [exn]; a call that may raise returns a
      [result].
    - Code that touches the file system or prints runs in the monad [M]:
      a function from a [world] (directories, files, standard output) to a
      result and the world it leaves behind.  Effects performed before an
      exception stay in the world, as in Python.
    - A Python [float] is represented by the rational it denotes.  The
      product in [int(100 * discount)], which numbers the files, is the
      rounded product of the two floats: the collaborator [float_mul].
      The complements of the pronoun proportions, the quotients of the
      curve and the score [mse] are computed on the rationals, without
      rounding; the ranking is stated for any scoring function as well
      ([get_top_k_by]).  Printing and parsing of floats, the JSON
      (de)serialiser, the treebank and the triple store are collaborators
      too, outside the two source files; all of them are the fields of
      [Env].
    - A Python [dict] is an association list in insertion order.
    - Writing to a file always succeeds: [Experiment.initialize] creates
      every directory the later writes go to. *)

From Stdlib Require Import ZArith QArith String Ascii List Lia DecimalString.
From Stdlib Require Import Sorted Permutation.
From stdpp Require Import base gmap strings list.

Set Warnings "-register-all,-clear-no-such-hyp".
Close Scope Q_scope.
Open Scope string_scope.
Open Scope list_scope.

(** ** Python primitives *)

Module Py.

Inductive exn : Type :=
| FileNotFoundError (path : string)
| IndexError
| KeyError (key : string)
| ValueError
| TypeError
| AttributeError
| Exception (msg : string).

Inductive result (A : Type) : Type :=
| Ok (a : A)
| Raise (e : exn).
Arguments Ok {A} a.
Arguments Raise {A} e.

Definition rbind {A B} (r : result A) (f : A -> result B) : result B :=
  match r with
  | Ok a => f a
  | Raise e => Raise e
  end.

Fixpoint rmap {A B} (f : A -> result B) (l : list A) : result (list B) :=
  match l with
  | [] => Ok []
  | x :: l' =>
      rbind (f x) (fun y => rbind (rmap f l') (fun ys => Ok (y :: ys)))
  end.

(** [lst[i]] for a non-negative index. *)
Definition index {A} (l : list A) (i : nat) : result A :=
  match nth_error l i with
  | Some x => Ok x
  | None => Raise IndexError
  end.

(** [lst[:k]]: a negative [k] counts from the end of the list. *)
Definition slice_to {A} (l : list A) (k : Z) : list A :=
  if (0 <=? k)%Z then firstn (Z.to_nat k) l
  else firstn (Z.to_nat (Z.of_nat (length l) + k)) l.

(** [int(x)] of a float: truncation towards zero. *)
Definition int_of_float (x : Q) : Z := Z.quot (Qnum x) (Zpos (Qden x)).

(** [str(n)] of an integer. *)
Definition str_of_int (n : Z) : string := NilZero.string_of_int (Z.to_int n).

(** *** Strings *)

(** [c.isspace()] on the ASCII range. *)
Definition isspace (c : ascii) : bool :=
  let n := nat_of_ascii c in
  (Nat.leb 9 n && Nat.leb n 13) || (Nat.leb 28 n && Nat.leb n 32).

Fixpoint lstrip (s : string) : string :=
  match s with
  | String c s' => if isspace c then lstrip s' else s
  | EmptyString => EmptyString
  end.

Definition rstrip (s : string) : string :=
  String.rev (lstrip (String.rev s)).

(** [s.strip()] *)
Definition strip (s : string) : string := rstrip (lstrip s).

(** Texts in which every character passes a test; and the texts that
    Python prints for a float: no comma and no white space in them. *)
Fixpoint all_chars (test : ascii -> bool) (s : string) : bool :=
  match s with
  | EmptyString => true
  | String c s' => test c && all_chars test s'
  end.

Definition plain_char (c : ascii) : bool :=
  negb (Ascii.eqb c ","%char) && negb (isspace c).

Definition plain (s : string) : bool := all_chars plain_char s.

(** [s.split(sep)] for a one-character separator: never empty. *)
Fixpoint split_on (sep : ascii) (s : string) : list string :=
  match s with
  | EmptyString => [EmptyString]
  | String c s' =>
      if Ascii.eqb c sep then EmptyString :: split_on sep s'
      else match split_on sep s' with
           | [] => [String c EmptyString]
           | w :: ws => String c w :: ws
           end
  end.

(** [s.split()]: the maximal runs of non-space characters. *)
Fixpoint split_ws_go (cur : string) (s : string) : list string :=
  match s with
  | EmptyString => match cur with EmptyString => [] | _ => [String.rev cur] end
  | String c s' =>
      if isspace c
      then match cur with
           | EmptyString => split_ws_go EmptyString s'
           | _ => String.rev cur :: split_ws_go EmptyString s'
           end
      else split_ws_go (String c cur) s'
  end.

Definition split_ws (s : string) : list string := split_ws_go EmptyString s.

(** [f.readlines()]: the lines of a text, each with its line feed.  (A
    text file also ends a line at a carriage return; the files here are
    written with line feeds only.) *)
Fixpoint readlines_go (cur : string) (s : string) : list string :=
  match s with
  | EmptyString => match cur with EmptyString => [] | _ => [String.rev cur] end
  | String c s' =>
      if Ascii.eqb c "010"%char
      then String.rev (String c cur) :: readlines_go EmptyString s'
      else readlines_go (String c cur) s'
  end.

Definition readlines (s : string) : list string := readlines_go EmptyString s.

(** [s.replace(c, "")] for a one-character [c]. *)
Fixpoint remove_char (c : ascii) (s : string) : string :=
  match s with
  | EmptyString => EmptyString
  | String a s' =>
      if Ascii.eqb a c then remove_char c s' else String a (remove_char c s')
  end.

Definition concat_str (l : list string) : string :=
  fold_right String.append EmptyString l.

(** *** Dictionaries *)

Section Dict.
Context {K V : Type} (eqb : K -> K -> bool).

Fixpoint dict_get (k : K) (d : list (K * V)) : option V :=
  match d with
  | [] => None
  | (k', v) :: d' => if eqb k k' then Some v else dict_get k d'
  end.

(** [d[k] = v]: in place when the key is there, else at the end. *)
Fixpoint dict_set (k : K) (v : V) (d : list (K * V)) : list (K * V) :=
  match d with
  | [] => [(k, v)]
  | (k', v') :: d' =>
      if eqb k k' then (k, v) :: d' else (k', v') :: dict_set k v d'
  end.
End Dict.

(** [sorted(items, key = ...)]: Python's sort is stable and compares the
    keys with [<] only.  On keys that [<] orders totally (no nan among
    them) the result is the one this insertion sort computes; with nan
    keys CPython's result depends on the runs it finds, which is not
    described here. *)
Section Sorted.
Context {A : Type} (lt : A -> A -> bool).

Fixpoint insert_sorted (x : A) (l : list A) : list A :=
  match l with
  | [] => [x]
  | y :: l' => if lt y x then y :: insert_sorted x l' else x :: l
  end.

Definition sorted (l : list A) : list A := fold_right insert_sorted [] l.
End Sorted.

(** *** The world and the effect monad *)

Record world : Type := World {
  dirs   : gset string;
  files  : gmap string string;
  stdout : list string
}.

Definition M (A : Type) : Type := world -> result A * world.

Definition ret {A} (a : A) : M A := fun w => (Ok a, w).
Definition raise {A} (e : exn) : M A := fun w => (Raise e, w).
Definition lift {A} (r : result A) : M A := fun w => (r, w).
Definition bind {A B} (m : M A) (f : A -> M B) : M B :=
  fun w =>
    match m w with
    | (Ok a, w') => f a w'
    | (Raise e, w') => (Raise e, w')
    end.

(** [try: m except Exception as e: h e] *)
Definition try_except {A} (m : M A) (h : exn -> M A) : M A :=
  fun w =>
    match m w with
    | (Ok a, w') => (Ok a, w')
    | (Raise e, w') => h e w'
    end.

(** [os.path.exists] *)
Definition path_exists (p : string) : M bool :=
  fun w => (Ok (bool_decide (p ∈ dirs w) || bool_decide (is_Some (files w !! p))), w).

(** The proper prefixes of a path that end before a slash. *)
Fixpoint ancestors_go (acc : string) (s : string) : list string :=
  match s with
  | EmptyString => []
  | String c s' =>
      (if Ascii.eqb c "/"%char
       then match acc with EmptyString => [] | _ => [String.rev acc] end
       else [])
      ++ ancestors_go (String c acc) s'
  end.

Definition ancestors (p : string) : list string := ancestors_go EmptyString p.

(** [os.makedirs]: the directory and the intermediate ones. *)
Definition makedirs (p : string) : M unit :=
  fun w => (Ok tt, World (list_to_set (p :: ancestors p) ∪ dirs w) (files w) (stdout w)).

(** [with open(p, "r") as f: f.read()] *)
Definition read_file (p : string) : M string :=
  fun w =>
    match files w !! p with
    | Some s => (Ok s, w)
    | None => (Raise (FileNotFoundError p), w)
    end.

(** [with open(p, "w") as f: f.write(s)] *)
Definition write_file (p : string) (s : string) : M unit :=
  fun w => (Ok tt, World (dirs w) (<[p := s]> (files w)) (stdout w)).

Definition print (s : string) : M unit :=
  fun w => (Ok tt, World (dirs w) (files w) (stdout w ++ [s])).

(** [for x in l: body x] *)
Fixpoint for_each {A} (l : list A) (body : A -> M unit) : M unit :=
  match l with
  | [] => ret tt
  | x :: l' => bind (body x) (fun _ => for_each l' body)
  end.

End Py.

Import Py.

Notation "x <~ m ;; k" := (bind m (fun x => k))
  (at level 100, m at next level, right associativity).
Notation "m ;;; k" := (bind m (fun _ => k))
  (at level 100, right associativity).

(** ** Data and collaborators *)

(** A JSON document as [json.load] returns it. *)
Inductive json : Type :=
| JNull
| JBool (b : bool)
| JNum (x : Q)
| JStr (s : string)
| JArr (items : list json)
| JObj (members : list (string * json)).

(** One generated sentence, and what the triple store projects it to: a
    tuple of one or two tokens. *)
Definition triple : Type := string * string * string.
Definition observation : Type := list string.

(** What the two source files import or inherit from their surroundings. *)
Class Env : Type := {
  MAIN_PATH    : string;                      (* dirname of os.getcwd() *)
  str_of_float : Q -> string;                 (* str(x), format(x) *)
  float_of_str : string -> option Q;          (* float(s); None: ValueError *)
  float_mul    : Q -> Q -> Q;                 (* x * y, rounded to binary64 *)
  json_load    : string -> option json;       (* None: JSONDecodeError *)
  json_dump    : json -> string;              (* json.dump(doc, f, indent=4) *)
  treebank_get : string -> list observation;  (* TripleStore().get(dist) *)
  peranto_get  : string -> list triple -> list observation
                                              (* PerantoTripleStore.get(dist) *)
}.

(** A value of [input_space]: a list of numbers, or something else. *)
Inductive pyval : Type :=
| PyList (l : list Q)
| PyOther (repr type_repr : string).

(** ** class Config *)

Module Config.

Record t : Type := Build {
  distribution : string;
  input_space  : list (string * pyval);
  base_file    : string;
  data_folder  : string;
  child_dists  : option (list string)   (* None: the attribute is not set *)
}.

(** [np.arange(0, 1050, 50)] and [np.arange(0, 1, .1)] *)
Definition default_input_space : list (string * pyval) :=
  [ ("Strength", PyList (map (fun i => inject_Z (50 * Z.of_nat i)) (seq 0 21)));
    ("Discount", PyList (map (fun i => Qmake (Z.of_nat i) 10) (seq 0 10))) ].

Definition init (distribution : string)
    (input_space : option (list (string * pyval)))
    (base_file data_folder : string)
    (child_dists : option (list string)) : t :=
  {| distribution := distribution;
     input_space  := match input_space with
                     | None => default_input_space
                     | Some sp => sp
                     end;
     base_file    := base_file;
     data_folder  := data_folder;
     child_dists  := match child_dists with
                     | None => Some [distribution]
                     | Some _ => None
                     end |}.

End Config.

(** ** class Experiment *)

Record Experiment : Type := {
  dist        : string;
  name        : string;
  input_space : list (string * pyval);
  child_dists : list string;
  num_pron    : Q * Q;
  data_path   : string;
  base_file   : string;
  param_path  : string;
  json_path   : string;
  sh_path     : string;
  output_path : string;
  mse_path    : string;
  plot_path   : string
}.

Definition distributions : list string :=
  ["nn"; "vb"; "nn.arg0"; "nn.arg1"; "nn.arg0.$y0"; "nn.arg1.$y0"].

Definition lvl1_dist : list string := ["vb"; "nn"].
Definition lvl2_dist : list string := ["nn.arg0"; "nn.arg1"].
Definition lvl3_dist : list string := ["nn.arg0.y0"; "nn.arg1.y0"].

Definition get_param_path (self : Experiment) (d : string) : string :=
  data_path self +:+ "/parameters/" +:+ d +:+ "_params.txt".

(** The body of the two gate loops: the first prerequisite without a
    parameter list raises. *)
Definition require_tuned (self : Experiment) (d : string) : M unit :=
  ex <~ path_exists (get_param_path self d) ;;
  if negb ex
  then raise (Exception ("Please tune " +:+ d +:+ " before " +:+ name self))
  else ret tt.

(** The list [paths] of [initialize] and the body of the loop over it. *)
Definition session_paths (self : Experiment) : list string :=
  [ data_path self;
    data_path self +:+ "/parameters";
    json_path self;
    sh_path self;
    output_path self +:+ "/" +:+ name self;
    output_path self +:+ "/" +:+ name self +:+ " modified";
    mse_path self;
    plot_path self ].

Definition ensure_dir (path : string) : M unit :=
  ex <~ path_exists path ;;
  if negb ex then makedirs path else ret tt.

(** The body of the loop over [input_space.values()]. *)
Definition check_is_list (val : pyval) : M unit :=
  match val with
  | PyList _ => ret tt
  | PyOther repr type_repr =>
      print repr ;;; print type_repr ;;;
      raise (Exception "config.input_space values must be lists")
  end.

Definition initialize (self : Experiment) : M unit :=
  (if negb (bool_decide (dist self ∈ distributions))
   then raise (Exception "config.distribution must be either 'vb', 'nn', 'nn.arg0', 'nn.arg1', 'nn.arg0.$y0', or 'nn.arg1.$y0'")
   else ret tt) ;;;
  (if negb (bool_decide (map fst (input_space self) = ["Strength"; "Discount"]))
   then raise (Exception "config.input_space but have keys Strength/Discount")
   else ret tt) ;;;
  for_each (map snd (input_space self)) check_is_list ;;;
  (ex <~ path_exists (base_file self) ;;
   if negb ex
   then raise (Exception (base_file self +:+ " path doesn't exist"))
   else ret tt) ;;;
  for_each (session_paths self) ensure_dir ;;;
  (if bool_decide (name self ∈ lvl3_dist)
   then for_each (lvl1_dist ++ lvl2_dist) (require_tuned self)
   else ret tt) ;;;
  (if bool_decide (name self ∈ lvl2_dist)
   then for_each lvl1_dist (require_tuned self)
   else ret tt).

Section SessionEnv.
Context `{Env}.

(** The attributes that [Experiment.__init__] sets before it calls
    [initialize]. *)
Definition Experiment_attrs (config : Config.t) (cds : list string) : Experiment :=
  let name := remove_char "$"%char (Config.distribution config) in
  let data_path := MAIN_PATH +:+ "/experiment_data/" +:+ Config.data_folder config in
  {| dist        := Config.distribution config;
     name        := name;
     input_space := Config.input_space config;
     child_dists := cds;
     num_pron    := (Qmake 6981516025097507 10000000000000000,
                     Qmake 2518229608275394 10000000000000000);
     data_path   := data_path;
     base_file   := MAIN_PATH +:+ "/experiment_data/" +:+ Config.base_file config;
     param_path  := data_path +:+ "/parameters/" +:+ name +:+ "_params.txt";
     json_path   := data_path +:+ "/json_data/" +:+ name;
     sh_path     := data_path +:+ "/sh_scripts";
     output_path := data_path +:+ "/peranto_output";
     mse_path    := data_path +:+ "/mse_results";
     plot_path   := data_path +:+ "/plots" |}.

(** [Experiment.__init__]: reading [config.child_dists] raises when
    [Config.__init__] did not set it.  The treebank store built here is
    the collaborator [treebank_get]. *)
Definition Experiment_init (config : Config.t) : M Experiment :=
  match Config.child_dists config with
  | None => raise AttributeError
  | Some cds =>
      let self := Experiment_attrs config cds in
      initialize self ;;; ret self
  end.

End SessionEnv.

(** ** Setup: the parameter list and the derived configurations *)

Definition LF : string := String "010"%char EmptyString.

Definition space_getitem (sp : list (string * pyval)) (k : string) : result pyval :=
  match dict_get String.eqb k sp with
  | Some v => Ok v
  | None => Raise (KeyError k)
  end.

(** Iterating a value of the input space.  Only lists pass [initialize];
    any other value is taken not to be iterable. *)
Definition space_iter (v : pyval) : result (list Q) :=
  match v with
  | PyList l => Ok l
  | PyOther _ _ => Raise TypeError
  end.

(** [[(strength, discount) for strength in S for discount in D]] *)
Definition param_pairs (S D : list Q) : list (Q * Q) :=
  flat_map (fun strength => map (fun discount => (strength, discount)) D) S.

(** The comprehension as Python runs it: the inner iterable is looked up
    once per strength. *)
Definition generate_pairs (inputs : list (string * pyval)) : result (list (Q * Q)) :=
  rbind (rbind (space_getitem inputs "Strength") space_iter) (fun S =>
  rbind (rmap (fun strength =>
                 rbind (rbind (space_getitem inputs "Discount") space_iter) (fun D =>
                 Ok (map (fun discount => (strength, discount)) D))) S) (fun rows =>
  Ok (concat rows))).

(** [json_content[key]] and [rule[key]] on whatever [json.load] gave. *)
Definition getitem (o : json) (k : string) : result json :=
  match o with
  | JObj ms =>
      match dict_get String.eqb k ms with
      | Some v => Ok v
      | None => Raise (KeyError k)
      end
  | _ => Raise TypeError
  end.

Definition setitem (o : json) (k : string) (v : json) : result json :=
  match o with
  | JObj ms => Ok (JObj (dict_set String.eqb k v ms))
  | _ => Raise TypeError
  end.

Fixpoint chars (s : string) : list string :=
  match s with
  | EmptyString => []
  | String c s' => String c EmptyString :: chars s'
  end.

(** [for x in j]: a list gives its items, a dict its keys, a string its
    characters. *)
Definition iter (j : json) : result (list json) :=
  match j with
  | JArr items => Ok items
  | JObj ms => Ok (map (fun kv => JStr (fst kv)) ms)
  | JStr s => Ok (map JStr (chars s))
  | _ => Raise TypeError
  end.

(** [j == s] for a string literal [s]. *)
Definition json_eq_str (j : json) (s : string) : bool :=
  match j with
  | JStr t => String.eqb t s
  | _ => false
  end.

Definition zdists : list (string * list string) :=
  [ ("nn",          ["nn"]);
    ("nn.arg0",     ["nn.$y1"]);
    ("nn.arg1",     ["nn.$y1"]);
    ("nn.arg0.$y0", ["nn.$y1.$y2"]);
    ("nn.arg1.$y0", ["nn.$y1.$y2"]) ].

Definition zdists_getitem (d : string) : result json :=
  match dict_get String.eqb d zdists with
  | Some l => Ok (JArr (map JStr l))
  | None => Raise (KeyError d)
  end.

Definition ENTITY_RULE : string :=
  "$qentity.$y1.$y2 -> (ENTITY $qnn.$y1.$z1 $qentitymods)".
Definition ARG0_NOUN_RULE : string := "$qnn.arg0.$y1 -> (inst nn.$y1)".
Definition ARG0_PRON_RULE : string := "$qnn.arg0.$y1 -> (inst pron.$z1)".
Definition ARG1_NOUN_RULE : string := "$qnn.arg1.$y1 -> (inst nn.$y1)".
Definition ARG1_PRON_RULE : string := "$qnn.arg1.$y1 -> (inst pron.$z1)".

(** [if rule["rule"] == pattern: rule["base_weight"] = w] *)
Definition set_weight_if (pattern : string) (w : Q) (rule : json) : result json :=
  rbind (getitem rule "rule") (fun p =>
  if json_eq_str p pattern then setitem rule "base_weight" (JNum w) else Ok rule).

(** The body of the loop over [json_content["distributions"]]. *)
Definition set_dist_params (self : Experiment) (strength discount : Q)
    (d : json) : result json :=
  rbind (getitem d "name") (fun n =>
  if existsb (json_eq_str n) (child_dists self)
  then rbind (setitem d "strength" (JNum strength)) (fun d1 =>
       setitem d1 "discount" (JNum discount))
  else Ok d).

(** The body of the loop over [json_content["rules"]]. *)
Definition set_rule (self : Experiment) (rule : json) : result json :=
  rbind (if negb (String.eqb (dist self) "vb")
         then rbind (getitem rule "rule") (fun p =>
              if json_eq_str p ENTITY_RULE
              then rbind (zdists_getitem (dist self)) (fun z =>
                   setitem rule "zdists" z)
              else Ok rule)
         else Ok rule) (fun r1 =>
  rbind (set_weight_if ARG0_NOUN_RULE (1 - fst (num_pron self))%Q r1) (fun r2 =>
  rbind (set_weight_if ARG0_PRON_RULE (fst (num_pron self)) r2) (fun r3 =>
  rbind (set_weight_if ARG1_NOUN_RULE (1 - snd (num_pron self))%Q r3) (fun r4 =>
  set_weight_if ARG1_PRON_RULE (snd (num_pron self)) r4)))).

(** A loop over the items of [doc[key]] that updates each item in place.
    Only the items of a list can be updated; the keys of a dict and the
    characters of a string are strings, on which [body] raises. *)
Definition update_items (key : string) (body : json -> result json)
    (doc : json) : result json :=
  rbind (getitem doc key) (fun v =>
  match v with
  | JArr items =>
      rbind (rmap body items) (fun items' => setitem doc key (JArr items'))
  | _ => rbind (iter v) (fun items =>
         rbind (rmap body items) (fun _ => Ok doc))
  end).

(** One turn of the loop over the parameters, up to the dump: what it does
    to [json_content]. *)
Definition derive (self : Experiment) (strength discount : Q)
    (json_content : json) : result json :=
  rbind (update_items "distributions" (set_dist_params self strength discount)
           json_content) (fun doc1 =>
  update_items "rules" (set_rule self) doc1).

(** The body of the loop over the rules, read off for a rule that is a
    dict [ms] with pattern [p]: first the [zdists] assignment, then the four
    [base_weight] assignments.  [set_rule_obj] below proves that this is
    what [set_rule] computes. *)
Definition assign_zdists (self : Experiment) (p : json)
    (ms : list (string * json)) : result (list (string * json)) :=
  if negb (String.eqb (dist self) "vb") && json_eq_str p ENTITY_RULE
  then rbind (zdists_getitem (dist self)) (fun z =>
       Ok (dict_set String.eqb "zdists" z ms))
  else Ok ms.

Definition assign_weight (p : json) (pattern : string) (w : Q)
    (ms : list (string * json)) : list (string * json) :=
  if json_eq_str p pattern
  then dict_set String.eqb "base_weight" (JNum w) ms
  else ms.

Definition assign_weights (self : Experiment) (p : json)
    (ms : list (string * json)) : list (string * json) :=
  assign_weight p ARG1_PRON_RULE (snd (num_pron self))
    (assign_weight p ARG1_NOUN_RULE (1 - snd (num_pron self))%Q
       (assign_weight p ARG0_PRON_RULE (fst (num_pron self))
          (assign_weight p ARG0_NOUN_RULE (1 - fst (num_pron self))%Q ms))).

(** [int(discount*100)] truncates the float product, not the exact one. *)
Definition new_file_name `{Env} (self : Experiment) (strength discount : Q) : string :=
  json_path self +:+ "/" +:+ name self +:+ "_amr_s"
  +:+ str_of_int (int_of_float strength)
  +:+ "_d" +:+ str_of_int (int_of_float (float_mul discount 100)) +:+ ".json".

Section SetupEnv.
Context `{Env}.

Definition param_line (pair : Q * Q) : string :=
  str_of_float (fst pair) +:+ ", " +:+ str_of_float (snd pair) +:+ LF.

Definition create_param_space (self : Experiment) : M unit :=
  pairs <~ lift (generate_pairs (input_space self)) ;;
  write_file (param_path self) (concat_str (map param_line pairs)).

Definition parse_float (s : string) : result Q :=
  match float_of_str s with
  | Some x => Ok x
  | None => Raise ValueError
  end.

(** [(float(line.split(",")[0].strip()), float(line.split(",")[1].strip()))] *)
Definition parse_param_line (line : string) : result (Q * Q) :=
  rbind (index (split_on ","%char line) 0) (fun a =>
  rbind (parse_float (strip a)) (fun strength =>
  rbind (index (split_on ","%char line) 1) (fun b =>
  rbind (parse_float (strip b)) (fun discount =>
  Ok (strength, discount))))).

(** A number whose text is as Python prints a float (no comma, no white
    space), and that Python reads back from its text. *)
Definition prints_and_reads (x : Q) : Prop :=
  plain (str_of_float x) = true /\ float_of_str (str_of_float x) = Some x.

(** The first three lines of [create_json_configs] and of
    [get_peranto_data]. *)
Definition read_parameters (self : Experiment) : M (list (Q * Q)) :=
  text <~ read_file (param_path self) ;;
  lift (rmap parse_param_line (readlines text)).

(** The loop over the parameters.  [json_content] is one object, loaded
    once: every turn edits it in place and dumps it.  The loop returns the
    object as the last turn left it. *)
Fixpoint create_json_configs_loop (self : Experiment)
    (parameters : list (Q * Q)) (json_content : json) : M json :=
  match parameters with
  | [] => ret json_content
  | (strength, discount) :: rest =>
      doc <~ lift (derive self strength discount json_content) ;;
      write_file (new_file_name self strength discount) (json_dump doc) ;;;
      create_json_configs_loop self rest doc
  end.

(** The loop over the parameters as the specification words it: every
    configuration is derived from a fresh deep copy of the base document,
    which itself is never touched.  The derivation section below compares
    it with [create_json_configs_loop]. *)
Fixpoint create_json_configs_copying_loop (self : Experiment)
    (parameters : list (Q * Q)) (base : json) : M unit :=
  match parameters with
  | [] => ret tt
  | (strength, discount) :: rest =>
      doc <~ lift (derive self strength discount base) ;;
      write_file (new_file_name self strength discount) (json_dump doc) ;;;
      create_json_configs_copying_loop self rest base
  end.

Definition load_base (self : Experiment) : M json :=
  text <~ read_file (base_file self) ;;
  match json_load text with
  | Some doc => ret doc
  | None => raise ValueError
  end.

Definition create_json_configs (self : Experiment) : M unit :=
  parameters <~ read_parameters self ;;
  json_content <~ load_base self ;;
  create_json_configs_loop self parameters json_content ;;; ret tt.

End SetupEnv.

(** ** Evaluation: observations, curves and ranking *)

(** [str(e)] for the exceptions that reach a handler here. *)
Definition str_of_exn (e : exn) : string :=
  match e with
  | FileNotFoundError p => "[Errno 2] No such file or directory: '" +:+ p +:+ "'"
  | IndexError => "list index out of range"
  | KeyError k => "'" +:+ k +:+ "'"
  | ValueError => "ValueError"
  | TypeError => "TypeError"
  | AttributeError => "AttributeError"
  | Exception msg => msg
  end.

(** [_s{int(strength)}_d{int(100* discount)}], with the float product. *)
Definition file_suffix `{Env} (strength discount : Q) : string :=
  "_s" +:+ str_of_int (int_of_float strength)
  +:+ "_d" +:+ str_of_int (int_of_float (float_mul 100 discount)).

Definition output_file `{Env} (self : Experiment) (strength discount : Q) : string :=
  output_path self +:+ "/" +:+ name self +:+ "/peranto_" +:+ name self
  +:+ file_suffix strength discount +:+ ".txt".

Definition modified_file `{Env} (self : Experiment) (strength discount : Q) : string :=
  output_path self +:+ "/" +:+ name self +:+ " modified/peranto_" +:+ name self
  +:+ file_suffix strength discount +:+ "_modified.txt".

(** The body of the loop over the lines of an output file. *)
Definition parse_triple (line : string) : result triple :=
  let line := split_ws line in
  rbind (index line 0) (fun subject =>
  rbind (index line 1) (fun verb =>
  rbind (index line 2) (fun obj =>
  Ok (subject, verb, obj)))).

(** The body of the first [try] of [get_peranto_data]: the triples added
    to the fresh store, in the order of the file. *)
Definition read_triples (file_path : string) : M (list triple) :=
  text <~ read_file file_path ;;
  lift (rmap parse_triple (readlines text)).

(** The text written to the [..._modified.txt] file. *)
Definition modified_text (stuff : list observation) : string :=
  concat_str (map (fun tup =>
    concat_str (map (fun item => item +:+ " ") tup) +:+ LF) stuff).

(** Keys of [peranto_data]: pairs of floats, compared as numbers. *)
Definition pair_eqb (p q : Q * Q) : bool :=
  Qeq_bool (fst p) (fst q) && Qeq_bool (snd p) (snd q).

(** What [get_prop] puts into [seen]: a token, or a whole tuple. *)
Inductive item : Type :=
| Tok (s : string)
| Tup (t : observation).

#[global] Instance item_eq_dec : EqDecision item.
Proof. solve_decision. Defined.

#[global] Instance item_countable : Countable item.
Proof.
  refine (inj_countable'
    (fun i => match i with Tok s => inl s | Tup t => inr t end)
    (fun x => match x with inl s => Tok s | inr t => Tup t end) _).
  intros []; reflexivity.
Defined.

(** The unpacking [for idx, (a, b) in enumerate(lst)], after the rewrite of
    one-token tuples [x] into [(x, x)]. *)
Definition unpack_pairs (lst : list observation) : result (list (item * item)) :=
  rbind (index lst 0) (fun first =>
  if Nat.eqb (length first) 1
  then Ok (map (fun x => (Tup x, Tup x)) lst)
  else rmap (fun x => match x with
                      | [a; b] => Ok (Tok a, Tok b)
                      | _ => Raise ValueError
                      end) lst).

(** The counting loop of [get_prop]: the lists [singletons] and [total]
    from position [idx] on. *)
Fixpoint count_singletons (lst : list (item * item)) (idx : nat)
    (singleton_count : nat) (seen : gset (item * item)) : list nat * list nat :=
  match lst with
  | [] => ([], [])
  | ab :: rest =>
      let singleton_count' :=
        if bool_decide (ab ∉ seen) then S singleton_count else singleton_count in
      let seen' := if bool_decide (ab ∉ seen) then {[ab]} ∪ seen else seen in
      let '(singletons, total) :=
        count_singletons rest (S idx) singleton_count' seen' in
      (singleton_count' :: singletons, (idx + 1) :: total)
  end.

Definition Qnat (n : nat) : Q := inject_Z (Z.of_nat n).

(** [np.array(singletons) / np.array(total)] *)
Definition array_div (singletons total : list nat) : list Q :=
  zip_with (fun s t => (Qnat s / Qnat t)%Q) singletons total.

Definition get_prop (lst : list observation) : result (list Q) :=
  rbind (unpack_pairs lst) (fun pairs =>
  let '(singletons, total) := count_singletons pairs 0 0 ∅ in
  Ok (array_div singletons total)).

(** A numpy float: a number or nan. *)
Inductive npfloat : Type :=
| Fin (x : Q)
| NaN.

Definition npfloat_lt (a b : npfloat) : bool :=
  match a, b with
  | Fin x, Fin y => negb (Qle_bool y x)
  | _, _ => false
  end.

(** numpy broadcasting of two one-dimensional arrays. *)
Definition broadcast (x y : list Q) : result (list Q * list Q) :=
  if Nat.eqb (length x) (length y) then Ok (x, y)
  else match x, y with
       | [a], _ => Ok (repeat a (length y), y)
       | _, [b] => Ok (x, repeat b (length x))
       | _, _ => Raise ValueError
       end.

Definition Qsum (l : list Q) : Q := fold_right Qplus 0%Q l.

(** [(x - y) ** 2] on arrays of one shape. *)
Definition squared_diffs (x y : list Q) : list Q :=
  zip_with (fun a b => ((a - b) * (a - b))%Q) x y.

Definition mean (l : list Q) : Q := (Qsum l / Qnat (length l))%Q.

(** [np.mean((x - y) ** 2)], computed on the rationals; the mean of an
    empty array is nan. *)
Definition mse (x y : list Q) : result npfloat :=
  rbind (broadcast x y) (fun xy =>
  let sq := squared_diffs (fst xy) (snd xy) in
  match sq with
  | [] => Ok NaN
  | _ => Ok (Fin (mean sq))
  end).

Section EvaluationEnv.
Context `{Env}.

(** The loop of [get_peranto_data].  [None] is Python's [None], returned
    from inside the loop as soon as a file cannot be read. *)
Fixpoint get_peranto_data_loop (self : Experiment) (parameters : list (Q * Q))
    (peranto_data : list (Q * Q * list observation))
    : M (option (list (Q * Q * list observation))) :=
  match parameters with
  | [] => ret (Some peranto_data)
  | (strength, discount) :: rest =>
      let file_path := output_file self strength discount in
      read <~ try_except
                (triples <~ read_triples file_path ;; ret (Some triples))
                (fun e =>
                   match e with
                   | FileNotFoundError _ =>
                       print ("The file at path " +:+ file_path +:+ " was not found.") ;;;
                       ret None
                   | _ =>
                       print ("An error occurred: " +:+ str_of_exn e) ;;;
                       ret None
                   end) ;;
      match read with
      | None => ret None
      | Some triples =>
          let stuff_to_write := peranto_get (dist self) triples in
          let peranto_data' :=
            dict_set pair_eqb (strength, discount) stuff_to_write peranto_data in
          try_except
            (write_file (modified_file self strength discount)
               (modified_text stuff_to_write))
            (fun e => print ("An error occurred: " +:+ str_of_exn e)) ;;;
          get_peranto_data_loop self rest peranto_data'
      end
  end.

Definition get_peranto_data (self : Experiment)
    : M (option (list (Q * Q * list observation))) :=
  parameters <~ read_parameters self ;;
  get_peranto_data_loop self parameters [].

(** [data.items()] raises on [None]. *)
Definition get_singleton_prop (self : Experiment)
    : M (list (Q * Q * list Q) * list Q) :=
  data <~ get_peranto_data self ;;
  match data with
  | None => raise AttributeError
  | Some items =>
      peranto_prop <~ lift (rmap (fun kv =>
                        rbind (get_prop (snd kv)) (fun c => Ok (fst kv, c))) items) ;;
      treebank_prop <~ lift (get_prop (treebank_get (dist self))) ;;
      ret (peranto_prop, treebank_prop)
  end.

Definition str_of_npfloat (x : npfloat) : string :=
  match x with
  | Fin q => str_of_float q
  | NaN => "nan"
  end.

Definition mse_report_line (r : Q * Q * npfloat) : string :=
  "S =" +:+ str_of_float (fst (fst r)) +:+ ", D=" +:+ str_of_float (snd (fst r))
  +:+ " MSE: " +:+ str_of_npfloat (snd r) +:+ LF.

(** The body of [get_top_k], with its local function [mse] as a parameter:
    the ranking, the report and the slice use the scores as they come, and
    do not depend on how a score is computed.  [singleton_prop] is a dict:
    the comprehension over its items keeps its keys and their order, and so
    does the dict built from the slice. *)
Definition get_top_k_by (mse : list Q -> list Q -> result npfloat)
    (self : Experiment) (singleton_prop : list (Q * Q * list Q))
    (treebank_prop : list Q) (k : Z) : M (list (Q * Q * npfloat)) :=
  mse_results <~ lift (rmap (fun kv =>
                   rbind (mse treebank_prop (snd kv)) (fun m => Ok (fst kv, m)))
                   singleton_prop) ;;
  let mse_results := sorted (fun a b => npfloat_lt (snd a) (snd b)) mse_results in
  try_except
    (write_file (mse_path self +:+ "/" +:+ name self +:+ "_mse_results.txt")
       (concat_str (map mse_report_line mse_results)))
    (fun e => print ("An error occurred: " +:+ str_of_exn e)) ;;;
  ret (slice_to mse_results k).

(** [get_top_k], with the score on the rationals: [mse] above. *)
Definition get_top_k : Experiment -> list (Q * Q * list Q) -> list Q -> Z ->
    M (list (Q * Q * npfloat)) :=
  get_top_k_by mse.

(** [run], up to the plot: the value returned here is [best_params], which
    [run] hands to [create_plot] (matplotlib) before it returns nothing. *)
Definition run (self : Experiment) (k : Z) : M (list (Q * Q * npfloat)) :=
  props <~ get_singleton_prop self ;;
  get_top_k self (fst props) (snd props) k.

End EvaluationEnv.

(** The order of [sorted] on scored pairs whose score is a number. *)
Definition score_lt {K : Type} (a b : K * Q) : bool :=
  negb (Qle_bool (snd b) (snd a)).

Definition score_le {K : Type} (a b : K * Q) : Prop := (snd a <= snd b)%Q.

Definition score_is {K : Type} (d : Q) (a : K * Q) : bool := Qeq_bool (snd a) d.

(** ** A small concrete environment, for the examples *)

Module Demo.

Definition digits (s : string) : option Z :=
  match s with
  | EmptyString => None
  | _ => option_map Z.of_uint (NilEmpty.uint_of_string s)
  end.

(** The integer nearest to the positive fraction [num / den], the even
    one of two that are equally near. *)
Definition round_half_even (num den : Z) : Z :=
  let q := (num / den)%Z in
  let r := (num mod den)%Z in
  match (2 * r ?= den)%Z with
  | Lt => q
  | Gt => (q + 1)%Z
  | Eq => if Z.even q then q else (q + 1)%Z
  end.

(** The binary64 number nearest to [x], ties to even: 53 bits of
    precision, exponents from -1074 on (subnormal numbers included); no
    overflow to infinity. *)
Definition round_binary64 (x : Q) : Q :=
  let n := Qnum x in
  let d := Zpos (Qden x) in
  if (n =? 0)%Z then 0%Q else
  let a := Z.abs n in
  let l := (Z.log2 a - Z.log2 d)%Z in
  (* floor (log2 (a / d)) is [l] or [l - 1] *)
  let ge := if (0 <=? l)%Z then (d * 2 ^ l <=? a)%Z else (d <=? a * 2 ^ (- l))%Z in
  let lg := if ge then l else (l - 1)%Z in
  let e := Z.max (lg - 52) (-1074) in
  let m := if (0 <=? e)%Z then round_half_even a (d * 2 ^ e)
           else round_half_even (a * 2 ^ (- e)) d in
  let s := Z.sgn n in
  Qred (if (0 <=? e)%Z then inject_Z (s * m * 2 ^ e)
        else Qmake (s * m) (Z.to_pos (2 ^ (- e)))).

(** Plain decimals, [12] and [12.5], read as [float] reads them: the
    binary64 number nearest to the decimal. *)
Definition parse_decimal (s : string) : option Q :=
  match split_on "."%char s with
  | [a] => option_map (fun x => round_binary64 (inject_Z x)) (digits a)
  | [a; b] =>
      match digits a, digits b with
      | Some x, Some y =>
          Some (round_binary64
                  (inject_Z x + Qmake y (Pos.pow 10 (Pos.of_nat (String.length b)))))%Q
      | _, _ => None
      end
  | _ => None
  end.

(** One digit after the point, as Python prints [0.0], [0.5] and [50.0]. *)
Definition print_decimal (x : Q) : string :=
  str_of_int (int_of_float x) +:+ "."
  +:+ str_of_int (int_of_float ((x - inject_Z (int_of_float x)) * 10)%Q).

Definition quoted (s : string) : string :=
  String "034"%char s +:+ String "034"%char EmptyString.

Fixpoint dump (j : json) : string :=
  match j with
  | JNull => "null"
  | JBool b => if b then "true" else "false"
  | JNum x => print_decimal x
  | JStr s => quoted s
  | JArr items =>
      "[" +:+ (fix go (l : list json) : string :=
                 match l with
                 | [] => EmptyString
                 | [x] => dump x
                 | x :: l' => dump x +:+ ", " +:+ go l'
                 end) items +:+ "]"
  | JObj ms =>
      "{" +:+ (fix go (l : list (string * json)) : string :=
                 match l with
                 | [] => EmptyString
                 | [(k, v)] => quoted k +:+ ": " +:+ dump v
                 | (k, v) :: l' =>
                     quoted k +:+ ": " +:+ dump v +:+ ", " +:+ go l'
                 end) ms +:+ "}"
  end.

(** A base template with one distribution and the five rules that
    [create_json_configs] looks for. *)
Definition base_rules : list json :=
  [ JObj [("rule", JStr ENTITY_RULE); ("zdists", JArr [JStr "nn.$y1"])];
    JObj [("rule", JStr ARG0_NOUN_RULE); ("base_weight", JNum (Qmake 1 2))];
    JObj [("rule", JStr ARG0_PRON_RULE); ("base_weight", JNum (Qmake 1 2))];
    JObj [("rule", JStr ARG1_NOUN_RULE)];
    JObj [("rule", JStr ARG1_PRON_RULE)];
    JObj [("rule", JStr "$qvb -> (inst vb)"); ("base_weight", JNum 1)] ].

Definition base : json :=
  JObj [ ("distributions",
          JArr [ JObj [("name", JStr "nn"); ("strength", JNum 1); ("discount", JNum 0)];
                 JObj [("name", JStr "vb"); ("strength", JNum 2); ("discount", JNum 0)] ]);
         ("rules", JArr base_rules) ].

Definition load (s : string) : option json :=
  if String.eqb s (dump base) then Some base else None.

Definition project (d : string) (triples : list triple) : list observation :=
  map (fun t => match t with
                | (subject, verb, obj) =>
                    if String.eqb d "vb" then [verb]
                    else if String.eqb d "nn.arg1" then [obj]
                    else if String.eqb d "nn.arg0.$y0" then [subject; verb]
                    else if String.eqb d "nn.arg1.$y0" then [verb; obj]
                    else [subject]
                end) triples.

Definition treebank : list triple :=
  [("he", "eat", "fish"); ("she", "eat", "rice"); ("he", "see", "fish")].

#[global] Instance env : Env := {|
  MAIN_PATH    := "/tp/hyperparam-tuning";
  str_of_float := print_decimal;
  float_of_str := parse_decimal;
  float_mul    := fun x y => round_binary64 (x * y)%Q;
  json_load    := load;
  json_dump    := dump;
  treebank_get := fun d => project d treebank;
  peranto_get  := project
|}.

(** A fresh checkout: only the base template is there. *)
Definition fresh : world :=
  World ∅ {[ "/tp/hyperparam-tuning/experiment_data/basefile.json" := dump base ]} [].

Definition grid : list (string * pyval) :=
  [ ("Strength", PyList [0; 50]%Q); ("Discount", PyList [0; Qmake 1 2]%Q) ].

Definition config (d : string) : Config.t :=
  Config.init d (Some grid) "basefile.json" "experiment" None.

(** The session object for distribution [d]. *)
Definition session (d : string) : Experiment := Experiment_attrs (config d) [d].

(** The base template after one turn of the derivation for the verb
    distribution. *)
Definition derived_vb : json :=
  match derive (session "vb") 50%Q (Qmake 1 2) base with
  | Ok doc => doc
  | Raise _ => JNull
  end.

(** What the generator wrote for one pair. *)
Definition generated : string :=
  "he eat fish" +:+ LF +:+ "she eat rice" +:+ LF +:+ "he see fish" +:+ LF.

(** The world when [run] is called: the session has been set up and the
    generator has written the output files of the pairs in [present]. *)
Definition evaluation_world (present : list (Q * Q)) : world :=
  let self := session "nn" in
  let w1 := snd (Experiment_init (config "nn") fresh) in
  let w2 := snd (create_param_space self w1) in
  snd (for_each present
         (fun p => write_file (output_file self (fst p) (snd p)) generated) w2).

End Demo.

(** ** Helpers for the statements about the whole session *)

(** The distributions whose parameter list the two gate loops of
    [initialize] ask for, in the order they ask. *)
Definition prerequisites (nm : string) : list string :=
  (if bool_decide (nm ∈ lvl3_dist) then lvl1_dist ++ lvl2_dist else [])
  ++ (if bool_decide (nm ∈ lvl2_dist) then lvl1_dist else []).

(** [os.path.exists] as a test on a world. *)
Definition exists_in (w : world) (p : string) : bool :=
  bool_decide (p ∈ dirs w) || bool_decide (is_Some (files w !! p)).

(** A world in which the distributions [ds] have a parameter list in the
    data folder of the examples. *)
Definition with_param_lists (ds : list string) (w : world) : world :=
  snd (for_each ds
         (fun d => write_file (get_param_path (Demo.session "nn") d)
                     ("0.0, 0.0" +:+ LF)) w).

(** The base template of the examples after one turn of the derivation
    for the noun distribution. *)
Definition derived_nn : json :=
  match derive (Demo.session "nn") 50%Q (Qmake 1 2) Demo.base with
  | Ok doc => doc
  | Raise _ => JNull
  end.

(** Pairs that are pairwise different as keys of [peranto_data]. *)
Fixpoint distinct_pairs (l : list (Q * Q)) : bool :=
  match l with
  | [] => true
  | p :: l' => forallb (fun q => negb (pair_eqb q p)) l' && distinct_pairs l'
  end.

(** A world in which the output file of the pair [p] holds [text]. *)
Definition with_output (p : Q * Q) (text : string) (w : world) : world :=
  snd (write_file (output_file (Demo.session "nn") (fst p) (snd p)) text w).


(** ** [experiment_pipeline/src/config.py]: the tree of generator files *)

(** [enumerate(l)] *)
Definition enumerate {A} (l : list A) : list (nat * A) :=
  combine (seq 0 (length l)) l.

(** [{k : v for k, v in items}] *)
Definition dict_of_items {V} (items : list (nat * V)) : list (nat * V) :=
  fold_left (fun d kv => dict_set Nat.eqb (fst kv) (snd kv) d) items [].

Module PerantoTree.

Record t : Type := Build {
  amr_paths    : list string;
  middle_paths : list string;
  lang_paths   : list string;
  data         : list (list string);
  names        : list string;
  dup_names    : list string;
  file_order   : list (nat * string);
  num_paths    : nat
}.

(** [PerantoTree.__init__].  [lang_paths += lang_paths] appends the list to
    itself, and [data] holds the list as it is after that. *)
Definition init (json_path : string)
    (amr_files middleman_files language_files names : list string) : t :=
  let amr_paths :=
    map (fun amr_file => json_path +:+ "/amr_files/" +:+ amr_file +:+ ".json")
      amr_files in
  let middle_paths :=
    map (fun mid_file => json_path +:+ "/middleman_files/" +:+ mid_file +:+ ".json")
      middleman_files in
  let lang_paths :=
    map (fun lang_file => json_path +:+ "/language_files/" +:+ lang_file +:+ ".json")
      language_files in
  let lang_paths := lang_paths ++ lang_paths in
  let dup_names := map (fun name => name +:+ "1") names in
  {| amr_paths    := amr_paths;
     middle_paths := middle_paths;
     lang_paths   := lang_paths;
     data         := [amr_paths; middle_paths; lang_paths];
     names        := names;
     dup_names    := dup_names;
     file_order   := dict_of_items (enumerate (names ++ dup_names));
     num_paths    := length amr_paths * length middle_paths * length lang_paths |}.

Definition get (self : t) : list (list string) := data self.

Definition get_names (self : t) : list string := names self.

End PerantoTree.

(** * Properties *)

(** ** The result type and the effect monad *)

Lemma rbind_Ok {A B} (r : result A) (f : A -> result B) (b : B) :
  rbind r f = Ok b -> exists a, r = Ok a /\ f a = Ok b.
Proof. destruct r as [a|e]; simpl; [eauto | discriminate]. Qed.

Lemma rmap_Ok_Forall2 {A B} (f : A -> result B) (l : list A) (l' : list B) :
  rmap f l = Ok l' -> Forall2 (fun x y => f x = Ok y) l l'.
Proof.
  revert l'; induction l as [|x l IH]; simpl; intros l' Hl.
  - injection Hl as <-. constructor.
  - apply rbind_Ok in Hl as (y & Hy & Hl).
    apply rbind_Ok in Hl as (ys & Hys & Hl).
    injection Hl as <-. constructor; auto.
Qed.

Lemma Forall2_rmap_Ok {A B} (f : A -> result B) (l : list A) (l' : list B) :
  Forall2 (fun x y => f x = Ok y) l l' -> rmap f l = Ok l'.
Proof.
  induction 1 as [|x y l l' Hxy _ IH]; simpl; [reflexivity|].
  rewrite Hxy; simpl. rewrite IH; reflexivity.
Qed.

Lemma rmap_ext_in {A B} (f g : A -> result B) (l : list A) :
  (forall x, In x l -> f x = g x) -> rmap f l = rmap g l.
Proof.
  induction l as [|x l IH]; simpl; intros Hfg; [reflexivity|].
  rewrite (Hfg x) by auto. rewrite IH by auto. reflexivity.
Qed.

(** ** Session construction: the checks of [initialize] *)

Lemma initialize_bad_keys (self : Experiment) (w : world) :
  map fst (input_space self) <> ["Strength"; "Discount"] ->
  exists msg, initialize self w = (Raise (Exception msg), w) /\
    (dist self ∈ distributions ->
     msg = "config.input_space but have keys Strength/Discount").
Proof.
  intros Hkeys. unfold initialize, bind.
  case_bool_decide as Hd; simpl.
  - rewrite bool_decide_eq_false_2 by assumption. simpl. eauto.
  - eexists; split; [reflexivity|]. intros; contradiction.
Qed.

(** C10: an input space whose keys are not exactly [Strength], [Discount]
    in this order is rejected when the session is built: the constructor
    raises and leaves the world as it found it (no directory, no file, no
    grid).  For a known distribution the exception is the one of the key
    check. *)
Theorem C10_bad_keys_rejected `{Env} (config : Config.t) (w : world) :
  map fst (Config.input_space config) <> ["Strength"; "Discount"] ->
  exists e, Experiment_init config w = (Raise e, w) /\
    (forall cds, Config.child_dists config = Some cds ->
       Config.distribution config ∈ distributions ->
       e = Exception "config.input_space but have keys Strength/Discount").
Proof.
  intros Hkeys. unfold Experiment_init.
  destruct (Config.child_dists config) as [cds|] eqn:Hcds.
  - match goal with |- context [initialize ?s] => set (self := s) end.
    destruct (initialize_bad_keys self w Hkeys) as (msg & Hinit & Hmsg).
    exists (Exception msg). unfold bind. rewrite Hinit. split; [reflexivity|].
    intros cds' _ Hd. f_equal. apply Hmsg. exact Hd.
  - exists AttributeError. split; [reflexivity|]. intros cds' [=].
Qed.

Lemma C10_bad_keys_rejected_witness :
  exists e,
    Experiment_init
      (Config.init "nn"
         (Some [("Discount", PyList [0%Q]); ("Strength", PyList [50%Q])])
         "basefile.json" "experiment" None) Demo.fresh
    = (Raise e, Demo.fresh) /\
    (forall cds, Some ["nn"] = Some cds -> "nn" ∈ distributions ->
       e = Exception "config.input_space but have keys Strength/Discount").
Proof.
  apply (C10_bad_keys_rejected
           (Config.init "nn"
              (Some [("Discount", PyList [0%Q]); ("Strength", PyList [50%Q])])
              "basefile.json" "experiment" None) Demo.fresh).
  simpl. discriminate.
Defined.

(** ** The parameter grid *)

Lemma param_pairs_length (S D : list Q) :
  length (param_pairs S D) = length S * length D.
Proof.
  unfold param_pairs. induction S as [|s S IH]; simpl; [reflexivity|].
  rewrite length_app, length_map, IH. reflexivity.
Qed.

Lemma param_pairs_lookup (S D : list Q) (i j : nat) (s d : Q) :
  S !! i = Some s -> D !! j = Some d ->
  param_pairs S D !! (i * length D + j) = Some (s, d).
Proof.
  unfold param_pairs. revert i; induction S as [|s0 S IH]; intros i Hs Hd.
  - destruct i; discriminate.
  - simpl. destruct i as [|i]; simpl in *.
    + injection Hs as ->. rewrite lookup_app_l.
      * rewrite list_lookup_fmap, Hd. reflexivity.
      * rewrite length_map. eapply lookup_lt_Some; eauto.
    + rewrite lookup_app_r by (rewrite length_map; lia).
      rewrite length_map.
      replace (length D + i * length D + j - length D) with (i * length D + j) by lia.
      auto.
Qed.

Lemma generate_pairs_lists (S D : list Q) :
  generate_pairs [("Strength", PyList S); ("Discount", PyList D)]
  = Ok (param_pairs S D).
Proof.
  unfold generate_pairs, param_pairs. simpl.
  assert (Hrows : rmap (fun strength : Q =>
             Ok (map (fun discount : Q => (strength, discount)) D)) S
           = Ok (map (fun strength => map (fun discount => (strength, discount)) D) S)).
  { induction S as [|s S IH]; simpl; [reflexivity|]. rewrite IH. reflexivity. }
  rewrite Hrows. simpl. f_equal.
  induction S as [|s S IH]; simpl; [reflexivity|]. f_equal. apply IH.
  clear. induction S; simpl; [reflexivity|]. rewrite IHS. reflexivity.
Qed.

(** C7: for strength list [S] and discount list [D] the grid has
    [|S| * |D|] pairs, the pair of the [i]-th strength and the [j]-th
    discount at position [i * |D| + j] (strength is the outer loop), and the
    parameter list written to disk is the lines of these pairs in this
    order. *)
Theorem C7_grid_strength_major `{Env} (self : Experiment) (S D : list Q) (w : world) :
  input_space self = [("Strength", PyList S); ("Discount", PyList D)] ->
  create_param_space self w
  = (Ok tt,
     World (dirs w)
       (<[param_path self := concat_str (map param_line (param_pairs S D))]> (files w))
       (stdout w))
  /\ length (param_pairs S D) = length S * length D
  /\ (forall i j s d, S !! i = Some s -> D !! j = Some d ->
        param_pairs S D !! (i * length D + j) = Some (s, d)).
Proof.
  intros Hsp. split; [|split].
  - unfold create_param_space, bind, lift. rewrite Hsp, generate_pairs_lists.
    reflexivity.
  - apply param_pairs_length.
  - intros i j s d. apply param_pairs_lookup.
Qed.

Lemma C7_grid_strength_major_witness :
  create_param_space (Demo.session "nn") Demo.fresh
  = (Ok tt,
     World (dirs Demo.fresh)
       (<[param_path (Demo.session "nn") :=
            concat_str (map param_line (param_pairs [0; 50]%Q [0; Qmake 1 2]%Q))]>
          (files Demo.fresh))
       (stdout Demo.fresh))
  /\ length (param_pairs [0; 50]%Q [0; Qmake 1 2]%Q) = 2 * 2
  /\ (forall i j s d, [0; 50]%Q !! i = Some s -> [0; Qmake 1 2]%Q !! j = Some d ->
        param_pairs [0; 50]%Q [0; Qmake 1 2]%Q !! (i * 2 + j) = Some (s, d)).
Proof.
  apply (C7_grid_strength_major (Demo.session "nn") [0; 50]%Q [0; Qmake 1 2]%Q Demo.fresh).
  reflexivity.
Defined.

(** ** The singleton-proportion curve *)

(** C5: on the empty observation sequence [get_prop] does not return an
    empty curve: probing the arity of the first observation, [lst[0]],
    raises IndexError.  The counting loop and the division that follow the
    probe would give the empty curve. *)
Theorem C5_get_prop_empty_raises :
  get_prop [] = Raise IndexError /\
  array_div (count_singletons [] 0 0 ∅).1 (count_singletons [] 0 0 ∅).2 = [].
Proof. split; reflexivity. Qed.

(** Quotients of counters, compared by cross-multiplication. *)
Lemma Qnat_div_Qmake (a b : nat) :
  (Qnat a / Qnat (S b) == Qmake (Z.of_nat a) (Pos.of_succ_nat b))%Q.
Proof.
  unfold Qnat. change (Z.of_nat (S b)) with (Zpos (Pos.of_succ_nat b)).
  symmetry. apply Qmake_Qdiv.
Qed.

Lemma Qnat_div_lt (a b c d : nat) :
  0 < b -> 0 < d -> a * d < c * b -> (Qnat a / Qnat b < Qnat c / Qnat d)%Q.
Proof.
  intros Hb Hd Hlt. destruct b as [|b]; [lia|]. destruct d as [|d]; [lia|].
  rewrite !Qnat_div_Qmake. unfold Qlt; simpl.
  rewrite !Zpos_P_of_succ_nat. nia.
Qed.

Lemma Qnat_div_le (a b c d : nat) :
  0 < b -> 0 < d -> a * d <= c * b -> (Qnat a / Qnat b <= Qnat c / Qnat d)%Q.
Proof.
  intros Hb Hd Hle. destruct b as [|b]; [lia|]. destruct d as [|d]; [lia|].
  rewrite !Qnat_div_Qmake. unfold Qle; simpl.
  rewrite !Zpos_P_of_succ_nat. nia.
Qed.

Lemma Qnat_div_unit (s t : nat) :
  1 <= s <= t -> (0 < Qnat s / Qnat t /\ Qnat s / Qnat t <= 1)%Q.
Proof.
  intros [Hs Ht]. destruct t as [|t]; [lia|].
  rewrite Qnat_div_Qmake. unfold Qlt, Qle; simpl.
  rewrite Zpos_P_of_succ_nat. lia.
Qed.

(** The two lists that the counting loop builds: at position [j] the
    number of distinct pairs among the first [j + 1], and [j + 1]. *)
Lemma count_singletons_spec (pairs : list (item * item)) (idx c : nat)
    (seen : gset (item * item)) :
  count_singletons pairs idx c seen
  = (map (fun j => c + size (list_to_set (take (S j) pairs) ∖ seen))
         (seq 0 (length pairs)),
     map (fun j => idx + j + 1) (seq 0 (length pairs))).
Proof.
  revert idx c seen; induction pairs as [|ab rest IH]; intros idx c seen.
  - reflexivity.
  - cbn [count_singletons]. rewrite IH. cbn [length seq map].
    rewrite <- seq_shift, !map_map. f_equal; [f_equal|f_equal].
    + change (take 1 (ab :: rest)) with [ab]. cbn [list_to_set].
      case_bool_decide as Hnew.
      * replace (({[ab]} ∪ ∅) ∖ seen) with ({[ab]} : gset (item * item)) by set_solver.
        rewrite size_singleton. lia.
      * replace (({[ab]} ∪ ∅) ∖ seen) with (∅ : gset (item * item)) by set_solver.
        rewrite size_empty. lia.
    + apply map_ext. intros j.
      change (take (S (S j)) (ab :: rest)) with (ab :: take (S j) rest).
      cbn [list_to_set].
      generalize (list_to_set (take (S j) rest) : gset (item * item)); intros T.
      case_bool_decide as Hnew.
      * replace (({[ab]} ∪ T) ∖ seen) with ({[ab]} ∪ T ∖ ({[ab]} ∪ seen)).
        2:{ apply set_eq; intros x. destruct (decide (x = ab)); set_solver. }
        assert (Hdisj : ({[ab]} : gset (item * item)) ## T ∖ ({[ab]} ∪ seen)) by set_solver.
        rewrite (size_union _ _ Hdisj), size_singleton. lia.
      * replace (({[ab]} ∪ T) ∖ seen) with (T ∖ seen) by set_solver.
        reflexivity.
    + rewrite Nat.add_0_r. reflexivity.
    + apply map_ext. intros j. lia.
Qed.

Lemma size_list_to_set_bounds (x : item * item) (l : list (item * item)) :
  1 <= size (list_to_set (x :: l) : gset (item * item)) <= length (x :: l).
Proof.
  split.
  - cbn [list_to_set]. rewrite <- (size_singleton (C := gset (item * item)) x).
    apply subseteq_size. set_solver.
  - generalize (x :: l). clear. intros l.
    induction l as [|y l IH]; cbn [list_to_set length].
    + rewrite size_empty. lia.
    + rewrite size_union_alt, size_singleton.
      assert (size (list_to_set l ∖ {[y]} : gset (item * item))
              <= size (list_to_set l : gset (item * item)))
        by (apply subseteq_size; set_solver).
      lia.
Qed.

Lemma distinct_step (pairs : list (item * item)) (i : nat) (p : item * item) :
  pairs !! (S i) = Some p ->
  size (list_to_set (take (S (S i)) pairs) : gset (item * item))
  = if decide (p ∈ take (S i) pairs)
    then size (list_to_set (take (S i) pairs) : gset (item * item))
    else S (size (list_to_set (take (S i) pairs) : gset (item * item))).
Proof.
  intros Hp. rewrite (take_S_r pairs (S i) p Hp), list_to_set_app_L.
  cbn [list_to_set]. destruct (decide (p ∈ take (S i) pairs)) as [Hin|Hnin].
  - f_equal. apply set_eq. intros x. rewrite <- (elem_of_list_to_set (C := gset _)) in Hin.
    set_solver.
  - rewrite size_union.
    + rewrite union_empty_r_L, size_singleton. lia.
    + rewrite <- (elem_of_list_to_set (C := gset _)) in Hnin. set_solver.
Qed.

(** On observations of one fixed arity the unpacking is an injective
    relabelling. *)
Lemma unpack_pairs_arity (lst : list observation) (n : nat) :
  lst <> [] -> n = 1 \/ n = 2 -> Forall (fun x => length x = n) lst ->
  exists g : observation -> item * item,
    unpack_pairs lst = Ok (map g lst) /\
    (forall x y, x ∈ lst -> y ∈ lst -> g x = g y -> x = y).
Proof.
  intros Hne Hn Hall. destruct lst as [|first rest]; [contradiction|].
  unfold unpack_pairs. cbn [index nth_error rbind].
  assert (Hfirst : length first = n) by (inversion Hall; assumption).
  rewrite Hfirst. destruct Hn as [-> | ->]; cbn [Nat.eqb].
  - exists (fun x => (Tup x, Tup x)). split; [reflexivity|].
    intros x y _ _ [= ->]. reflexivity.
  - exists (fun x => match x with
                     | [a; b] => (Tok a, Tok b)
                     | _ => (Tok EmptyString, Tok EmptyString)
                     end).
    split.
    + apply Forall2_rmap_Ok. generalize (first :: rest), Hall. clear.
      induction 1 as [|x l Hx _ IH]; cbn [map]; constructor; [|exact IH].
      destruct x as [|a [|b [|c x]]]; try discriminate. reflexivity.
    + intros x y Hx Hy. rewrite Forall_forall in Hall.
      pose proof (Hall x Hx) as Lx. pose proof (Hall y Hy) as Ly.
      destruct x as [|a [|b [|c x]]]; try discriminate.
      destruct y as [|a' [|b' [|c' y]]]; try discriminate.
      intros [= -> ->]. reflexivity.
Qed.

(** The curve of [get_prop]: at position [i] the number of distinct
    observations among the first [i + 1], over [i + 1]. *)
Lemma get_prop_curve (lst : list observation) (n : nat) :
  lst <> [] -> n = 1 \/ n = 2 -> Forall (fun x => length x = n) lst ->
  exists (g : observation -> item * item) (curve : list Q),
    (forall x y, x ∈ lst -> y ∈ lst -> g x = g y -> x = y) /\
    get_prop lst = Ok curve /\
    length curve = length lst /\
    (forall i, i < length lst ->
       curve !! i
       = Some (Qnat (size (list_to_set (take (S i) (map g lst)) : gset (item * item)))
               / Qnat (S i))%Q).
Proof.
  intros Hne Hn Hall.
  destruct (unpack_pairs_arity lst n Hne Hn Hall) as (g & Hg & Hinj).
  exists g. unfold get_prop. rewrite Hg. cbn [rbind].
  rewrite count_singletons_spec. rewrite length_map.
  eexists; split; [exact Hinj|split; [reflexivity|split]].
  - unfold array_div. rewrite length_zip_with, !length_map, length_seq. lia.
  - intros i Hi. unfold array_div.
    rewrite lookup_zip_with, !list_lookup_fmap, lookup_seq_lt by exact Hi.
    cbn. rewrite difference_empty_L. do 3 f_equal. lia.
Qed.

Lemma distinct_prefix_bounds (g : observation -> item * item)
    (lst : list observation) (i : nat) :
  i < length lst ->
  1 <= size (list_to_set (take (S i) (map g lst)) : gset (item * item)) <= S i.
Proof.
  intros Hi. destruct lst as [|first rest]; [simpl in Hi; lia|].
  change (take (S i) (map g (first :: rest))) with (g first :: take i (map g rest)).
  pose proof (size_list_to_set_bounds (g first) (take i (map g rest))) as Hb.
  cbn [length] in Hb. rewrite length_take in Hb. lia.
Qed.

(** The claim of C2 fails as stated: the curve of a sequence that repeats
    an observation goes down. *)
Lemma C2_counterexample :
  exists curve v0 v1,
    get_prop [["a"]; ["a"]] = Ok curve /\
    curve !! 0 = Some v0 /\ curve !! 1 = Some v1 /\ ~ (v0 <= v1)%Q.
Proof.
  exists [1%Q; Qmake 1 2], 1%Q, (Qmake 1 2).
  split; [vm_compute; reflexivity|].
  split; [reflexivity|]. split; [reflexivity|].
  unfold Qle; simpl. lia.
Qed.

(** C2, amended: for a non-empty sequence of observations of one arity
    (one or two tokens) [get_prop] returns a curve with one value per
    observation, each in (0, 1].  The curve is not monotone: from one
    index to the next it strictly falls when the next observation repeats
    an earlier one, and it does not fall when the next observation is new. *)
Theorem C2_curve_values_and_steps (lst : list observation) (n : nat) :
  lst <> [] -> n = 1 \/ n = 2 -> Forall (fun x => length x = n) lst ->
  exists curve,
    get_prop lst = Ok curve /\
    length curve = length lst /\
    (forall i v, curve !! i = Some v -> (0 < v /\ v <= 1)%Q) /\
    (forall i x v v',
       lst !! (S i) = Some x -> curve !! i = Some v -> curve !! (S i) = Some v' ->
       (x ∈ take (S i) lst -> (v' < v)%Q) /\
       (x ∉ take (S i) lst -> (v <= v')%Q)).
Proof.
  intros Hne Hn Hall.
  destruct (get_prop_curve lst n Hne Hn Hall) as (g & curve & Hinj & Hget & Hlen & Hat).
  exists curve. split; [exact Hget|]. split; [exact Hlen|]. split.
  - intros i v Hv.
    assert (Hi : i < length lst) by (rewrite <- Hlen; eapply lookup_lt_Some; eauto).
    rewrite (Hat i Hi) in Hv. injection Hv as <-.
    apply Qnat_div_unit. apply distinct_prefix_bounds. exact Hi.
  - intros i x v v' Hx Hv Hv'.
    assert (HSi : S i < length lst) by (eapply lookup_lt_Some; eauto).
    rewrite (Hat i) in Hv by lia. rewrite (Hat (S i) HSi) in Hv'.
    injection Hv as <-. injection Hv' as <-.
    assert (Hgx : map g lst !! (S i) = Some (g x))
      by (rewrite list_lookup_fmap, Hx; reflexivity).
    rewrite (distinct_step _ _ _ Hgx).
    pose proof (distinct_prefix_bounds g lst i ltac:(lia)) as Hb.
    assert (Hmem : g x ∈ take (S i) (map g lst) <-> x ∈ take (S i) lst).
    { rewrite <- fmap_take. split.
      - intros Hin. apply list_elem_of_fmap in Hin as (y & Hgy & Hy).
        assert (x = y) as ->; [|exact Hy].
        apply Hinj; [eapply list_elem_of_lookup_2; eauto| |exact Hgy].
        eapply (subseteq_take (S i)); exact Hy.
      - intros Hin. apply list_elem_of_fmap. eauto. }
    destruct (decide (g x ∈ take (S i) (map g lst))) as [Hin|Hnin]; split.
    + intros _. apply Qnat_div_lt; nia.
    + intros Hnew. exfalso. apply Hnew, Hmem, Hin.
    + intros Hold. exfalso. apply Hnin, Hmem, Hold.
    + intros _. apply Qnat_div_le; nia.
Qed.

Lemma C2_curve_values_and_steps_witness :
  exists curve,
    get_prop [["a"]; ["a"]; ["b"]] = Ok curve /\
    length curve = 3 /\
    (forall i v, curve !! i = Some v -> (0 < v /\ v <= 1)%Q) /\
    (forall i x v v',
       [["a"]; ["a"]; ["b"]] !! (S i) = Some x ->
       curve !! i = Some v -> curve !! (S i) = Some v' ->
       (x ∈ take (S i) [["a"]; ["a"]; ["b"]] -> (v' < v)%Q) /\
       (x ∉ take (S i) [["a"]; ["a"]; ["b"]] -> (v <= v')%Q)).
Proof.
  apply (C2_curve_values_and_steps [["a"]; ["a"]; ["b"]] 1).
  - discriminate.
  - left; reflexivity.
  - repeat constructor.
Defined.

(** ** The stage gate *)

Lemma app_String (c : ascii) (s t : string) :
  String c s +:+ t = String c (s +:+ t).
Proof. reflexivity. Qed.

Lemma app_Empty (t : string) : EmptyString +:+ t = t.
Proof. reflexivity. Qed.

Lemma str_app_assoc (a b c : string) : (a +:+ b) +:+ c = a +:+ (b +:+ c).
Proof. induction a as [|x a IH]; [reflexivity|]. rewrite !app_String, IH. reflexivity. Qed.

Lemma str_app_nil_r (a : string) : a +:+ EmptyString = a.
Proof. induction a as [|x a IH]; [reflexivity|]. rewrite app_String, IH. reflexivity. Qed.

Lemma str_app_cancel (a x y : string) : a +:+ x = a +:+ y -> x = y.
Proof. apply (inj (String.app a)). Qed.

Lemma rev_app_app (s t : string) :
  String.rev_app s t = String.rev_app s EmptyString +:+ t.
Proof.
  revert t; induction s as [|c s IH]; intros t; [reflexivity|].
  cbn [String.rev_app]. rewrite (IH (String c t)), (IH (String c EmptyString)).
  rewrite str_app_assoc. reflexivity.
Qed.

(** An ancestor of a path is a proper prefix of it that a slash follows. *)
Lemma ancestors_go_prefix (s acc p : string) :
  p ∈ ancestors_go acc s ->
  exists pre rest, s = pre +:+ String "/"%char rest /\ p = String.rev acc +:+ pre.
Proof.
  revert acc; induction s as [|c s IH]; intros acc Hp; cbn [ancestors_go] in Hp.
  - inversion Hp.
  - apply elem_of_app in Hp as [Hp|Hp].
    + destruct (Ascii.eqb_spec c "/"%char) as [->|]; [|inversion Hp].
      destruct acc as [|a acc]; [inversion Hp|].
      apply list_elem_of_singleton in Hp as ->.
      exists EmptyString, s. rewrite str_app_nil_r. split; reflexivity.
    + apply IH in Hp as (pre & rest & -> & ->).
      exists (String c pre), rest. split; [reflexivity|].
      unfold String.rev. cbn [String.rev_app].
      rewrite (rev_app_app acc), str_app_assoc. reflexivity.
Qed.

Lemma ancestors_prefix (q p : string) :
  p ∈ ancestors q -> exists rest, q = p +:+ String "/"%char rest.
Proof.
  intros Hp. apply ancestors_go_prefix in Hp as (pre & rest & -> & ->).
  exists rest. reflexivity.
Qed.

Lemma ensure_dir_effect (q : string) (w : world) :
  exists w1,
    ensure_dir q w = (Ok tt, w1) /\
    files w1 = files w /\ stdout w1 = stdout w /\
    (forall p, p ∈ dirs w1 -> p ∈ dirs w \/ p = q \/ p ∈ ancestors q).
Proof.
  unfold ensure_dir, bind, path_exists. destruct (negb _).
  - eexists. split; [reflexivity|]. cbn [dirs files stdout]. repeat split; auto.
    intros p Hp. apply elem_of_union in Hp as [Hp|Hp]; [|auto].
    apply elem_of_list_to_set in Hp.
    apply elem_of_cons in Hp as [->|Hp]; auto.
  - exists w. cbn. repeat split; auto.
Qed.

(** The directory loop only adds directories: the listed paths and their
    ancestors. *)
Lemma ensure_dirs_effect (paths : list string) (w : world) :
  exists w1,
    for_each paths ensure_dir w = (Ok tt, w1) /\
    files w1 = files w /\ stdout w1 = stdout w /\
    (forall p, p ∈ dirs w1 ->
       p ∈ dirs w \/ exists q, q ∈ paths /\ (p = q \/ p ∈ ancestors q)).
Proof.
  revert w; induction paths as [|q paths IH]; intros w.
  - exists w. cbn. repeat split; auto.
  - cbn [for_each]. unfold bind.
    destruct (ensure_dir_effect q w) as (w0 & Hrun0 & Hf0 & Ho0 & Hd0).
    destruct (IH w0) as (w1 & Hrun & Hf & Ho & Hd).
    exists w1. rewrite Hrun0, Hrun. repeat split; [congruence..|].
    intros p Hp. apply Hd in Hp as [Hp|(q' & Hq' & Hp)].
    + apply Hd0 in Hp as [Hp|Hp]; [auto|].
      right. exists q. split; [left|exact Hp].
    + right. exists q'. split; [right; exact Hq'|exact Hp].
Qed.

(** A parameter list is no directory of the session: its path extends none
    of the paths that [initialize] creates. *)
Lemma param_path_not_prefix (DP nm d tail X : string) :
  X ∈ [ EmptyString; "/parameters"; "/json_data/" +:+ nm; "/sh_scripts";
        "/peranto_output" +:+ "/" +:+ nm;
        "/peranto_output" +:+ "/" +:+ nm +:+ " modified";
        "/mse_results"; "/plots" ] ->
  DP +:+ X <> (DP +:+ "/parameters/" +:+ d +:+ "_params.txt") +:+ tail.
Proof.
  intros HX Heq. rewrite str_app_assoc in Heq. apply str_app_cancel in Heq.
  rewrite !app_String, ?app_Empty in Heq.
  repeat (apply elem_of_cons in HX as [->|HX]);
    [rewrite ?app_String, ?app_Empty in Heq; discriminate..|inversion HX].
Qed.

Section Gate.
Context `{Env}.

Lemma session_paths_attrs (config : Config.t) (cds : list string) :
  let self := Experiment_attrs config cds in
  session_paths self
  = map (String.app (data_path self))
      [ EmptyString; "/parameters"; "/json_data/" +:+ name self; "/sh_scripts";
        "/peranto_output" +:+ "/" +:+ name self;
        "/peranto_output" +:+ "/" +:+ name self +:+ " modified";
        "/mse_results"; "/plots" ].
Proof.
  unfold session_paths, Experiment_attrs.
  cbn [data_path json_path sh_path output_path mse_path plot_path name map].
  set (DP := MAIN_PATH +:+ _).
  rewrite !(str_app_assoc DP), str_app_nil_r. reflexivity.
Qed.

Lemma param_path_not_created (config : Config.t) (cds : list string)
    (d p q : string) :
  let self := Experiment_attrs config cds in
  q ∈ session_paths self -> p = q \/ p ∈ ancestors q ->
  p <> get_param_path self d.
Proof.
  intros self Hq Hp ->.
  assert (exists tail, q = get_param_path self d +:+ tail) as (tail & Htail).
  { destruct Hp as [<-|Hp].
    - exists EmptyString. rewrite str_app_nil_r. reflexivity.
    - apply ancestors_prefix in Hp as (rest & ->). eauto. }
  unfold self in Hq. rewrite session_paths_attrs in Hq.
  apply list_elem_of_fmap in Hq as (X & -> & HX).
  unfold get_param_path in Htail.
  exact (param_path_not_prefix _ _ _ _ _ HX Htail).
Qed.

Lemma check_is_list_lists (vals : list pyval) (w : world) :
  Forall (fun v => exists l, v = PyList l) vals ->
  for_each vals check_is_list w = (Ok tt, w).
Proof.
  induction 1 as [|v vals (l & ->) _ IH]; [reflexivity|].
  cbn [for_each check_is_list]. unfold bind, ret. exact IH.
Qed.

End Gate.

(** What the directory loop of [initialize] leaves behind. *)

Lemma path_exists_run (p : string) (w : world) :
  path_exists p w = (Ok (exists_in w p), w).
Proof. reflexivity. Qed.

Lemma ensure_dir_exists (q : string) (w w1 : world) :
  ensure_dir q w = (Ok tt, w1) ->
  exists_in w1 q = true /\ (forall p, exists_in w p = true -> exists_in w1 p = true).
Proof.
  unfold ensure_dir, bind. rewrite path_exists_run.
  destruct (exists_in w q) eqn:Hq; cbn [negb].
  - intros [= <-]. auto.
  - unfold makedirs. intros [= <-]. unfold exists_in. cbn [dirs files]. split.
    + apply orb_true_iff. left. apply bool_decide_eq_true_2. set_solver.
    + intros p Hp. apply orb_true_iff in Hp as [Hp|Hp]; apply orb_true_iff.
      * left. apply bool_decide_eq_true_1 in Hp. apply bool_decide_eq_true_2.
        set_solver.
      * right. exact Hp.
Qed.

(** After the directory loop every listed path exists, and so does
    whatever existed before. *)
Lemma ensure_dirs_exist (paths : list string) (w w1 : world) :
  for_each paths ensure_dir w = (Ok tt, w1) ->
  Forall (fun q => exists_in w1 q = true) paths /\
  (forall p, exists_in w p = true -> exists_in w1 p = true).
Proof.
  revert w; induction paths as [|q paths IH]; intros w.
  - intros [= <-]. split; [constructor|auto].
  - cbn [for_each]. unfold bind.
    destruct (ensure_dir q w) as [[[]|e] w0] eqn:Hq; [|discriminate].
    intros Hrest. destruct (ensure_dir_exists _ _ _ Hq) as [Hq0 Hmono0].
    destruct (IH _ Hrest) as [Hall Hmono]. split; [constructor|]; auto.
Qed.

Section GateTheorem.
Context `{Env}.

(** C4, amended: when a level-3 distribution is requested and no level-1
    parameter list is present, building the session raises, and the
    exception names one prerequisite only, the first of the list ([vb]).
    No file is written and nothing is printed; the directories of the
    session have been created by then. *)
Theorem C4_gate_names_first_missing (config : Config.t) (cds : list string) (w : world) :
  let self := Experiment_attrs config cds in
  Config.child_dists config = Some cds ->
  Config.distribution config = "nn.arg0.$y0" \/
  Config.distribution config = "nn.arg1.$y0" ->
  map fst (Config.input_space config) = ["Strength"; "Discount"] ->
  Forall (fun v => exists l, v = PyList l) (map snd (Config.input_space config)) ->
  fst (path_exists (base_file self) w) = Ok true ->
  (forall d, d ∈ lvl1_dist -> fst (path_exists (get_param_path self d) w) = Ok false) ->
  exists w',
    Experiment_init config w
    = (Raise (Exception ("Please tune vb before " +:+ name self)), w') /\
    files w' = files w /\ stdout w' = stdout w /\
    Forall (fun q => fst (path_exists q w') = Ok true) (session_paths self).
Proof.
  intros self Hcds Hdist Hkeys Hvals Hbase Hmissing.
  unfold Experiment_init. rewrite Hcds. cbv zeta. fold self.
  destruct (ensure_dirs_effect (session_paths self) w) as (w1 & Hdirs & Hf & Ho & Hd).
  assert (Hmade : Forall (fun q => fst (path_exists q w1) = Ok true) (session_paths self)).
  { eapply Forall_impl; [exact (proj1 (ensure_dirs_exist _ _ _ Hdirs))|].
    intros q Hq. cbv beta in Hq |- *. rewrite path_exists_run, Hq. reflexivity. }
  assert (Hvb : path_exists (get_param_path self "vb") w1 = (Ok false, w1)).
  { unfold path_exists. f_equal. f_equal.
    specialize (Hmissing "vb" ltac:(unfold lvl1_dist; set_solver)).
    unfold path_exists in Hmissing. cbn [fst] in Hmissing. injection Hmissing as Hm.
    apply orb_false_iff in Hm as [Hm1 Hm2]. rewrite Hf, Hm2, orb_false_r.
    apply bool_decide_eq_false_2. intros Hin. apply Hd in Hin as [Hin|(q & Hq & Hp)].
    - apply bool_decide_eq_false_1 in Hm1. contradiction.
    - exact (param_path_not_created config cds "vb" _ q Hq Hp eq_refl). }
  assert (Hname : name self ∈ lvl3_dist).
  { unfold self, Experiment_attrs. cbn [name].
    destruct Hdist as [-> | ->]; vm_compute; set_solver. }
  exists w1. split; [|auto].
  assert (Hin : bool_decide (dist self ∈ distributions) = true).
  { apply bool_decide_eq_true_2. unfold self, Experiment_attrs. cbn [dist].
    destruct Hdist as [-> | ->]; unfold distributions; set_solver. }
  assert (Hk : bool_decide (map fst (input_space self) = ["Strength"; "Discount"]) = true).
  { apply bool_decide_eq_true_2. exact Hkeys. }
  assert (Hb : path_exists (base_file self) w = (Ok true, w)).
  { pose proof Hbase as Hb. unfold path_exists in Hb |- *. cbn [fst] in Hb.
    injection Hb as Hb. f_equal. f_equal. exact Hb. }
  assert (Hv : for_each (map snd (input_space self)) check_is_list w = (Ok tt, w)).
  { apply check_is_list_lists. exact Hvals. }
  unfold initialize, bind. rewrite Hin, Hk. cbn [negb]. unfold ret at 1 2.
  rewrite Hv, Hb. cbn [negb]. unfold ret at 1.
  rewrite Hdirs. rewrite (bool_decide_eq_true_2 _ Hname).
  cbn [lvl1_dist app for_each]. unfold bind, require_tuned at 1, bind.
  rewrite Hvb. reflexivity.
Qed.
End GateTheorem.

Lemma C4_gate_names_first_missing_witness :
  exists w',
    Experiment_init (Demo.config "nn.arg0.$y0") Demo.fresh
    = (Raise (Exception ("Please tune vb before " +:+ name (Demo.session "nn.arg0.$y0"))), w') /\
    files w' = files Demo.fresh /\ stdout w' = stdout Demo.fresh /\
    Forall (fun q => fst (path_exists q w') = Ok true)
      (session_paths (Experiment_attrs (Demo.config "nn.arg0.$y0") ["nn.arg0.$y0"])).
Proof.
  apply (C4_gate_names_first_missing (Demo.config "nn.arg0.$y0") ["nn.arg0.$y0"] Demo.fresh).
  - reflexivity.
  - left; reflexivity.
  - reflexivity.
  - repeat constructor; eexists; reflexivity.
  - vm_compute; reflexivity.
  - intros d Hd. unfold lvl1_dist in Hd.
    repeat (apply elem_of_cons in Hd as [->|Hd]); [vm_compute; reflexivity..|inversion Hd].
Defined.

(** The claim of C4 fails as stated: with no parameter list at all, the
    exception for a level-3 distribution names [vb] alone, although the
    list of [nn] is missing as well, and the directory for the derived
    configurations of the requested distribution has been created. *)
Lemma C4_counterexample :
  exists w',
    Experiment_init (Demo.config "nn.arg0.$y0") Demo.fresh
    = (Raise (Exception "Please tune vb before nn.arg0.y0"), w') /\
    (path_exists (get_param_path (Demo.session "nn.arg0.$y0") "nn") w').1 = Ok false /\
    (path_exists (json_path (Demo.session "nn.arg0.$y0")) Demo.fresh).1 = Ok false /\
    (path_exists (json_path (Demo.session "nn.arg0.$y0")) w').1 = Ok true.
Proof.
  eexists. split; [vm_compute; reflexivity|].
  split; [vm_compute; reflexivity|].
  split; vm_compute; reflexivity.
Qed.


(** ** Ranking *)

Section InsertionSort.
Context {K : Type}.
Implicit Types (x y : K * Q) (l : list (K * Q)).

Lemma score_lt_true x y : score_lt x y = true -> (snd x < snd y)%Q.
Proof.
  unfold score_lt. intros Hlt. apply negb_true_iff in Hlt.
  apply Qnot_le_lt. intros Hle. apply Qle_bool_iff in Hle. congruence.
Qed.

Lemma score_lt_false x y : score_lt x y = false -> (snd y <= snd x)%Q.
Proof.
  unfold score_lt. intros Hlt. apply negb_false_iff in Hlt.
  apply Qle_bool_iff. exact Hlt.
Qed.

Lemma insert_sorted_perm x l : Permutation (insert_sorted score_lt x l) (x :: l).
Proof.
  induction l as [|y l IH]; cbn [insert_sorted]; [reflexivity|].
  destruct (score_lt y x); [|reflexivity].
  rewrite IH. apply perm_swap.
Qed.

Lemma sorted_perm l : Permutation (sorted score_lt l) l.
Proof.
  induction l as [|x l IH]; cbn [sorted fold_right]; [reflexivity|].
  fold (sorted (@score_lt K) l). rewrite insert_sorted_perm, IH. reflexivity.
Qed.

Lemma insert_sorted_ordered x l :
  StronglySorted score_le l -> StronglySorted score_le (insert_sorted score_lt x l).
Proof.
  induction 1 as [|y l Hl IH Hy]; cbn [insert_sorted].
  - repeat constructor.
  - destruct (score_lt y x) eqn:Hyx.
    + constructor; [exact IH|].
      eapply Permutation_Forall; [symmetry; apply insert_sorted_perm|].
      constructor; [|exact Hy].
      apply Qlt_le_weak, score_lt_true, Hyx.
    + apply score_lt_false in Hyx.
      constructor; [constructor; assumption|].
      constructor; [exact Hyx|].
      eapply Forall_impl; [exact Hy|].
      intros z Hz. unfold score_le in *. eapply Qle_trans; eassumption.
Qed.

Lemma sorted_ordered l : StronglySorted score_le (sorted score_lt l).
Proof.
  induction l as [|x l IH]; cbn [sorted fold_right]; [constructor|].
  apply insert_sorted_ordered. exact IH.
Qed.

(** Stability: among the pairs of one score, the order of the input. *)
Lemma insert_sorted_stable d x l :
  List.filter (score_is d) (insert_sorted score_lt x l)
  = List.filter (score_is d) (x :: l).
Proof.
  induction l as [|y l IH]; [reflexivity|]. cbn [insert_sorted].
  destruct (score_lt y x) eqn:Hyx; [|reflexivity].
  cbn [List.filter] in *. rewrite IH.
  destruct (score_is d y) eqn:Hy, (score_is d x) eqn:Hx; try reflexivity.
  exfalso. apply score_lt_true in Hyx.
  unfold score_is in *. apply Qeq_bool_iff in Hy, Hx.
  rewrite Hy, Hx in Hyx. exact (Qlt_irrefl _ Hyx).
Qed.

Lemma sorted_stable d l :
  List.filter (score_is d) (sorted score_lt l) = List.filter (score_is d) l.
Proof.
  induction l as [|x l IH]; [reflexivity|]. cbn [sorted fold_right].
  fold (sorted (@score_lt K) l). rewrite insert_sorted_stable.
  cbn [List.filter]. rewrite IH. reflexivity.
Qed.

(** Sorting scored pairs as numpy floats is sorting them as numbers. *)
Lemma sorted_Fin l :
  sorted (fun a b : K * npfloat => npfloat_lt (snd a) (snd b))
    (map (fun r => (fst r, Fin (snd r))) l)
  = map (fun r => (fst r, Fin (snd r))) (sorted score_lt l).
Proof.
  induction l as [|x l IH]; [reflexivity|]. cbn [map sorted fold_right].
  fold (sorted (@score_lt K) l).
  fold (sorted (fun a b : K * npfloat => npfloat_lt (snd a) (snd b))
          (map (fun r => (fst r, Fin (snd r))) l)).
  rewrite IH. generalize (sorted score_lt l). clear. intros l.
  induction l as [|y l IH]; [reflexivity|]. cbn [map insert_sorted].
  change (npfloat_lt (snd (fst y, Fin (snd y))) (snd (fst x, Fin (snd x))))
    with (score_lt y x).
  destruct (score_lt y x); cbn [map]; [rewrite IH|]; reflexivity.
Qed.

End InsertionSort.

Lemma mse_same_length (tp c : list Q) :
  tp <> [] -> length c = length tp ->
  mse tp c = Ok (Fin (mean (squared_diffs tp c))).
Proof.
  intros Hne Hlen. unfold mse, broadcast.
  rewrite <- Hlen, Nat.eqb_refl. cbn [rbind fst snd].
  destruct tp as [|a tp]; [contradiction|]. destruct c as [|b c]; [discriminate|].
  reflexivity.
Qed.


(** The claim of C6 fails as stated: [k] is any integer, and for a
    negative [k] the slice [[:k]] drops the last [-k] results instead of
    returning [min(k, n)] of them; and curves whose length differs from
    the reference's are not ranked at all. *)
Lemma C6_counterexample :
  (exists res w',
     get_top_k (Demo.session "nn")
       [ (0%Q, 0%Q, [1%Q]); (50%Q, 0%Q, [1%Q]) ] [1%Q] (-1) Demo.fresh
     = (Ok res, w') /\
     Z.of_nat (length res) <> Z.min (-1) 2) /\
  (get_top_k (Demo.session "nn")
     [ (0%Q, 0%Q, [1%Q; 1%Q]) ] [1%Q; 1%Q; 1%Q] 1 Demo.fresh).1
  = Raise ValueError.
Proof.
  split.
  - eexists _, _. split; [vm_compute; reflexivity|]. cbn. lia.
  - vm_compute. reflexivity.
Qed.

(** The scores of the comprehension of [get_top_k], when every score is
    a number. *)
Lemma scored_results (score : list Q -> list Q -> result npfloat)
    (tp : list Q) (sp : list (Q * Q * list Q)) (scores : list Q) :
  Forall2 (fun kv s => score tp (snd kv) = Ok (Fin s)) sp scores ->
  rmap (fun kv => rbind (score tp (snd kv)) (fun m => Ok (fst kv, m))) sp
  = Ok (map (fun r => (fst r, Fin (snd r)))
          (zip_with (fun kv s => (fst kv, s)) sp scores)).
Proof.
  induction 1 as [|kv s sp scores Hs _ IH]; [reflexivity|].
  cbn [rmap zip_with map fst snd]. rewrite Hs. cbn [rbind]. rewrite IH. reflexivity.
Qed.

(** C6, amended: for a non-negative [k], and whatever arithmetic the
    scoring function uses (the program's is numpy's, in binary64), when
    every curve gets a number as its score [get_top_k] returns the first
    [min(k, n)] entries of a ranking of all [n] pairs: the ranking is a
    permutation of the pairs with their scores as computed, sorted by
    non-decreasing score, and the pairs whose computed scores are equal
    are in the order of the input map.  Nothing is said of pairs whose
    mean squared differences are equal as real numbers: rounding may give
    them different scores, and then the scores decide. *)
Theorem C6_top_k_ranking `{Env} (score : list Q -> list Q -> result npfloat)
    (self : Experiment) (singleton_prop : list (Q * Q * list Q))
    (treebank_prop : list Q) (scores : list Q) (k : Z) (w : world) :
  (0 <= k)%Z ->
  Forall2 (fun kv s => score treebank_prop (snd kv) = Ok (Fin s))
    singleton_prop scores ->
  let scored := zip_with (fun kv s => (fst kv, s)) singleton_prop scores in
  exists ranked w',
    get_top_k_by score self singleton_prop treebank_prop k w
    = (Ok (map (fun r => (fst r, Fin (snd r))) (take (Z.to_nat k) ranked)), w') /\
    length (take (Z.to_nat k) ranked) = Nat.min (Z.to_nat k) (length singleton_prop) /\
    Permutation ranked scored /\
    StronglySorted score_le ranked /\
    (forall d, List.filter (score_is d) ranked = List.filter (score_is d) scored).
Proof.
  intros Hk Hscores scored. exists (sorted score_lt scored). eexists.
  split; [|split; [|split; [|split]]].
  - unfold get_top_k_by, bind, lift.
    rewrite (scored_results _ _ _ _ Hscores). fold scored.
    rewrite sorted_Fin. unfold try_except, write_file, ret, slice_to.
    rewrite (proj2 (Z.leb_le 0 k) Hk), <- firstn_map. reflexivity.
  - rewrite length_take, (Permutation_length (sorted_perm scored)).
    unfold scored. rewrite length_zip_with.
    rewrite <- (Forall2_length _ _ _ Hscores), Nat.min_id. reflexivity.
  - apply sorted_perm.
  - apply sorted_ordered.
  - intros d. apply sorted_stable.
Qed.

Lemma C6_top_k_ranking_witness :
  let scored :=
    zip_with (fun (kv : Q * Q * list Q) (s : Q) => (fst kv, s))
      [ (0%Q, 0%Q, [1%Q; 1%Q]); (50%Q, 0%Q, [1%Q; Qmake 1 2]); (0%Q, Qmake 1 2, [1%Q; 1%Q]) ]
      [ mean (squared_diffs [1%Q; Qmake 1 2] [1%Q; 1%Q]);
        mean (squared_diffs [1%Q; Qmake 1 2] [1%Q; Qmake 1 2]);
        mean (squared_diffs [1%Q; Qmake 1 2] [1%Q; 1%Q]) ] in
  exists ranked w',
    get_top_k_by mse (Demo.session "nn")
      [ (0%Q, 0%Q, [1%Q; 1%Q]); (50%Q, 0%Q, [1%Q; Qmake 1 2]); (0%Q, Qmake 1 2, [1%Q; 1%Q]) ]
      [1%Q; Qmake 1 2] 2 Demo.fresh
    = (Ok (map (fun r => (fst r, Fin (snd r))) (take (Z.to_nat 2) ranked)), w') /\
    length (take (Z.to_nat 2) ranked) = Nat.min (Z.to_nat 2) 3 /\
    Permutation ranked scored /\
    StronglySorted score_le ranked /\
    (forall d, List.filter (score_is d) ranked = List.filter (score_is d) scored).
Proof.
  apply (C6_top_k_ranking mse (Demo.session "nn")
           [ (0%Q, 0%Q, [1%Q; 1%Q]); (50%Q, 0%Q, [1%Q; Qmake 1 2]); (0%Q, Qmake 1 2, [1%Q; 1%Q]) ]
           [1%Q; Qmake 1 2]
           [ mean (squared_diffs [1%Q; Qmake 1 2] [1%Q; 1%Q]);
             mean (squared_diffs [1%Q; Qmake 1 2] [1%Q; Qmake 1 2]);
             mean (squared_diffs [1%Q; Qmake 1 2] [1%Q; 1%Q]) ]
           2 Demo.fresh).
  - lia.
  - repeat constructor.
Defined.

(** ** Derived configurations *)

Section DictLemmas.
Context {V : Type}.
Implicit Types (m : list (string * V)) (k : string).

Lemma dict_get_set_same k (v : V) m :
  dict_get String.eqb k (dict_set String.eqb k v m) = Some v.
Proof.
  induction m as [|[k' v'] m IH]; cbn [dict_set dict_get].
  - rewrite String.eqb_refl. reflexivity.
  - destruct (String.eqb k k') eqn:E; cbn [dict_get]; rewrite ?String.eqb_refl, ?E; auto.
Qed.

Lemma dict_get_set_other k k' (v : V) m :
  k <> k' ->
  dict_get String.eqb k (dict_set String.eqb k' v m) = dict_get String.eqb k m.
Proof.
  intros Hne. apply String.eqb_neq in Hne.
  induction m as [|[k0 v0] m IH]; cbn [dict_set dict_get].
  - rewrite Hne. reflexivity.
  - destruct (String.eqb k' k0) eqn:E; cbn [dict_get].
    + apply String.eqb_eq in E as <-. rewrite Hne. reflexivity.
    + rewrite IH. reflexivity.
Qed.

Lemma dict_set_set_same k (v v' : V) m :
  dict_set String.eqb k v (dict_set String.eqb k v' m) = dict_set String.eqb k v m.
Proof.
  induction m as [|[k0 v0] m IH]; cbn [dict_set].
  - rewrite String.eqb_refl. reflexivity.
  - destruct (String.eqb k k0) eqn:E; cbn [dict_set].
    + rewrite String.eqb_refl. reflexivity.
    + rewrite E, IH. reflexivity.
Qed.

(** Two keys that are both there are updated in place, in any order. *)
Lemma dict_set_comm k1 k2 (v1 v2 : V) m :
  k1 <> k2 ->
  dict_get String.eqb k1 m <> None -> dict_get String.eqb k2 m <> None ->
  dict_set String.eqb k1 v1 (dict_set String.eqb k2 v2 m)
  = dict_set String.eqb k2 v2 (dict_set String.eqb k1 v1 m).
Proof.
  intros Hne. pose proof Hne as Hne'. apply String.eqb_neq in Hne'.
  assert (Hne2 : String.eqb k2 k1 = false) by (rewrite String.eqb_sym; exact Hne').
  induction m as [|[k0 v0] m IH]; cbn [dict_get]; [contradiction|].
  intros H1 H2. cbn [dict_set].
  destruct (String.eqb k1 k0) eqn:E1, (String.eqb k2 k0) eqn:E2; cbn [dict_set].
  - apply String.eqb_eq in E1, E2. congruence.
  - rewrite E1, Hne2. reflexivity.
  - rewrite E2, Hne'. reflexivity.
  - rewrite E1, E2, IH by assumption. reflexivity.
Qed.

(** Writing two keys again overwrites what the first writes left. *)
Lemma dict_set_overwrite2 k1 k2 (x1 x2 y1 y2 : V) m :
  k1 <> k2 ->
  dict_set String.eqb k2 y2 (dict_set String.eqb k1 x2
    (dict_set String.eqb k2 y1 (dict_set String.eqb k1 x1 m)))
  = dict_set String.eqb k2 y2 (dict_set String.eqb k1 x2 m).
Proof.
  intros Hne. pose proof Hne as Hne'. apply String.eqb_neq in Hne'.
  assert (Hne2 : String.eqb k2 k1 = false) by (rewrite String.eqb_sym; exact Hne').
  induction m as [|[k0 v0] m IH].
  - repeat (cbn [dict_set]; rewrite ?String.eqb_refl, ?Hne2, ?Hne'). reflexivity.
  - destruct (String.eqb k1 k0) eqn:E1; [|destruct (String.eqb k2 k0) eqn:E2].
    + apply String.eqb_eq in E1 as <-.
      repeat (cbn [dict_set]; rewrite ?String.eqb_refl, ?Hne2, ?Hne').
      rewrite dict_set_set_same. reflexivity.
    + apply String.eqb_eq in E2 as <-.
      repeat (cbn [dict_set]; rewrite ?String.eqb_refl, ?Hne2, ?Hne').
      rewrite dict_set_set_same. reflexivity.
    + repeat (cbn [dict_set]; rewrite ?E1, ?E2). rewrite IH. reflexivity.
Qed.

End DictLemmas.

Lemma update_items_obj (key : string) (body : json -> result json)
    (ms : list (string * json)) (v : json) :
  dict_get String.eqb key ms = Some v ->
  update_items key body (JObj ms)
  = match v with
    | JArr items =>
        rbind (rmap body items) (fun items' =>
        Ok (JObj (dict_set String.eqb key (JArr items') ms)))
    | _ => rbind (iter v) (fun items =>
           rbind (rmap body items) (fun _ => Ok (JObj ms)))
    end.
Proof.
  intros Hv. unfold update_items, getitem. rewrite Hv. cbn [rbind].
  destruct v; reflexivity.
Qed.

Lemma update_items_inv (key : string) (body : json -> result json)
    (doc doc' : json) :
  update_items key body doc = Ok doc' ->
  exists ms v, doc = JObj ms /\ dict_get String.eqb key ms = Some v.
Proof.
  unfold update_items, getitem. destruct doc; try discriminate.
  destruct (dict_get String.eqb key members) eqn:Hv; [eauto|discriminate].
Qed.

Lemma rmap_overwrite (b1 b2 : json -> result json) (l l1 : list json) :
  (forall x x', b1 x = Ok x' -> b2 x' = b2 x) ->
  rmap b1 l = Ok l1 -> rmap b2 l1 = rmap b2 l.
Proof.
  intros Hb Hl. apply rmap_Ok_Forall2 in Hl.
  induction Hl as [|x x' l l1 Hx _ IH]; [reflexivity|].
  cbn [rmap]. rewrite (Hb x x' Hx), IH. reflexivity.
Qed.

Lemma rmap_fixed (b : json -> result json) (l l1 : list json) :
  (forall x x', b x = Ok x' -> b x' = Ok x') ->
  rmap b l = Ok l1 -> rmap b l1 = Ok l1.
Proof.
  intros Hb Hl. apply rmap_Ok_Forall2 in Hl. apply Forall2_rmap_Ok.
  induction Hl as [|x x' l l1 Hx _ IH]; constructor; eauto.
Qed.

(** A second pass over the same key overwrites the first. *)
Lemma update_items_overwrite (key : string) (b1 b2 : json -> result json)
    (doc doc1 : json) :
  (forall x x', b1 x = Ok x' -> b2 x' = b2 x) ->
  update_items key b1 doc = Ok doc1 ->
  update_items key b2 doc1 = update_items key b2 doc.
Proof.
  intros Hb H1.
  destruct (update_items_inv _ _ _ _ H1) as (ms & v & -> & Hv).
  rewrite (update_items_obj _ _ _ _ Hv) in H1.
  rewrite (update_items_obj key b2 ms v Hv).
  destruct v; cbv beta iota in H1 |- *; try (apply rbind_Ok in H1 as (its & _ & H1);
                   apply rbind_Ok in H1 as (r & _ & [= Hd]); subst doc1;
                   rewrite (update_items_obj key b2 ms _ Hv); reflexivity).
  apply rbind_Ok in H1 as (items1 & Hitems & [= Hd]); subst doc1.
  rewrite (update_items_obj key b2 _ (JArr items1)) by apply dict_get_set_same.
  rewrite (rmap_overwrite b1 b2 _ _ Hb Hitems).
  destruct (rmap b2 items) as [items2|e]; cbn [rbind]; [|reflexivity].
  rewrite dict_set_set_same. reflexivity.
Qed.

(** A pass that has been made changes nothing when made again. *)
Lemma update_items_fixed (key : string) (b : json -> result json)
    (doc doc1 : json) :
  (forall x x', b x = Ok x' -> b x' = Ok x') ->
  update_items key b doc = Ok doc1 ->
  update_items key b doc1 = Ok doc1.
Proof.
  intros Hb H1.
  destruct (update_items_inv _ _ _ _ H1) as (ms & v & -> & Hv).
  pose proof H1 as H1'. rewrite (update_items_obj _ _ _ _ Hv) in H1.
  destruct v; cbv beta iota in H1 |- *; try (apply rbind_Ok in H1 as (its & _ & H1);
                   apply rbind_Ok in H1 as (r & _ & [= Hd]); subst doc1;
                   exact H1').
  apply rbind_Ok in H1 as (items1 & Hitems & [= Hd]); subst doc1.
  rewrite (update_items_obj key b _ (JArr items1)) by apply dict_get_set_same.
  rewrite (rmap_fixed b _ _ Hb Hitems). cbn [rbind].
  rewrite dict_set_set_same. reflexivity.
Qed.

(** Passes over two different keys can be made in either order. *)
Lemma update_items_comm (k1 k2 : string) (b1 b2 : json -> result json)
    (doc doc1 : json) :
  k1 <> k2 ->
  update_items k1 b1 doc = Ok doc1 ->
  update_items k2 b2 doc1 = rbind (update_items k2 b2 doc) (update_items k1 b1).
Proof.
  intros Hne H1.
  destruct (update_items_inv _ _ _ _ H1) as (ms & v1 & -> & Hv1).
  pose proof H1 as H1'. rewrite (update_items_obj _ _ _ _ Hv1) in H1.
  assert (Hdoc1 : exists ms1, doc1 = JObj ms1 /\
            dict_get String.eqb k2 ms1 = dict_get String.eqb k2 ms).
  { destruct v1; cbv beta iota in H1; try (apply rbind_Ok in H1 as (its & _ & H1);
                      apply rbind_Ok in H1 as (r & _ & [= Hd]); subst doc1;
                      eauto).
    apply rbind_Ok in H1 as (items1 & _ & [= Hd]); subst doc1.
    eexists; split; [reflexivity|]. apply dict_get_set_other. congruence. }
  destruct Hdoc1 as (ms1 & -> & Hk2).
  destruct (dict_get String.eqb k2 ms) as [v2|] eqn:Hv2.
  2:{ unfold update_items, getitem. rewrite Hk2, Hv2. reflexivity. }
  rewrite (update_items_obj k2 b2 ms1 v2 Hk2), (update_items_obj k2 b2 ms v2 Hv2).
  assert (Hsame : forall X, rbind (Ok X) (update_items k1 b1) = update_items k1 b1 X)
    by reflexivity.
  destruct v2 as [| | | |its2|]; cbv beta iota;
    try (match goal with |- context [iter ?v] => destruct (iter v) as [its|e] end;
         cbn [rbind]; [|reflexivity];
         destruct (rmap b2 its) as [r|e]; cbn [rbind]; [|reflexivity];
         symmetry; exact H1').
  destruct (rmap b2 its2) as [items2|e]; cbn [rbind]; [|reflexivity].
  assert (Hk1 : dict_get String.eqb k1 (dict_set String.eqb k2 (JArr items2) ms)
                = Some v1) by (rewrite dict_get_set_other by exact Hne; exact Hv1).
  rewrite (update_items_obj k1 b1 _ v1 Hk1).
  destruct v1; cbv beta iota in H1 |- *; try (apply rbind_Ok in H1 as (its & Hits & H1);
                    apply rbind_Ok in H1 as (r & Hr & [= Hd]);
                    rewrite Hits; cbn [rbind]; rewrite Hr; cbn [rbind];
                    congruence).
  apply rbind_Ok in H1 as (items1 & Hitems & [= Hd]); subst ms1.
  rewrite Hitems. cbn [rbind]. f_equal. f_equal.
  symmetry. apply dict_set_comm; [exact Hne|congruence..].
Qed.

Lemma set_dist_params_overwrite (self : Experiment) (s1 d1 s2 d2 : Q)
    (x x' : json) :
  set_dist_params self s1 d1 x = Ok x' ->
  set_dist_params self s2 d2 x' = set_dist_params self s2 d2 x.
Proof.
  unfold set_dist_params, getitem. destruct x as [| | | | |ms]; try discriminate.
  destruct (dict_get String.eqb "name" ms) as [n|] eqn:Hn; [|discriminate].
  cbn [rbind]. destruct (existsb (json_eq_str n) (child_dists self)) eqn:Hin.
  - cbn [setitem rbind]. intros [= <-].
    rewrite !dict_get_set_other, Hn by discriminate. cbn [rbind]. rewrite Hin.
    cbn [setitem rbind]. do 2 f_equal. apply dict_set_overwrite2. discriminate.
  - intros [= <-]. rewrite Hn. cbn [rbind]. rewrite Hin. reflexivity.
Qed.

Lemma json_eq_str_excl (p : json) (a b : string) :
  a <> b -> json_eq_str p a = true -> json_eq_str p b = false.
Proof.
  intros Hne. destruct p; try discriminate. cbn [json_eq_str].
  intros Ha. apply String.eqb_eq in Ha as ->. apply String.eqb_neq. exact Hne.
Qed.

Lemma assign_weight_rule (p : json) (pattern : string) (w : Q)
    (ms : list (string * json)) :
  dict_get String.eqb "rule" (assign_weight p pattern w ms)
  = dict_get String.eqb "rule" ms.
Proof.
  unfold assign_weight. destruct (json_eq_str p pattern); [|reflexivity].
  apply dict_get_set_other. discriminate.
Qed.

Lemma set_weight_if_obj (pattern : string) (w : Q) (p : json)
    (ms : list (string * json)) :
  dict_get String.eqb "rule" ms = Some p ->
  set_weight_if pattern w (JObj ms) = Ok (JObj (assign_weight p pattern w ms)).
Proof.
  intros Hp. unfold set_weight_if, getitem, assign_weight. rewrite Hp. cbn [rbind].
  destruct (json_eq_str p pattern); reflexivity.
Qed.

Lemma assign_zdists_rule (self : Experiment) (p : json)
    (ms ms1 : list (string * json)) :
  assign_zdists self p ms = Ok ms1 ->
  dict_get String.eqb "rule" ms1 = dict_get String.eqb "rule" ms.
Proof.
  unfold assign_zdists. destruct (_ && _).
  - intros Hz. apply rbind_Ok in Hz as (z & _ & [= <-]).
    apply dict_get_set_other. discriminate.
  - intros [= <-]. reflexivity.
Qed.

(** What [set_rule] computes on a rule that is a dict with a pattern. *)
Lemma set_rule_obj (self : Experiment) (p : json) (ms : list (string * json)) :
  dict_get String.eqb "rule" ms = Some p ->
  set_rule self (JObj ms)
  = rbind (assign_zdists self p ms) (fun ms1 =>
    Ok (JObj (assign_weights self p ms1))).
Proof.
  intros Hp.
  assert (Hstage : forall ms1,
            dict_get String.eqb "rule" ms1 = Some p ->
            rbind (set_weight_if ARG0_NOUN_RULE (1 - fst (num_pron self))%Q (JObj ms1)) (fun r2 =>
            rbind (set_weight_if ARG0_PRON_RULE (fst (num_pron self)) r2) (fun r3 =>
            rbind (set_weight_if ARG1_NOUN_RULE (1 - snd (num_pron self))%Q r3) (fun r4 =>
            set_weight_if ARG1_PRON_RULE (snd (num_pron self)) r4)))
            = Ok (JObj (assign_weights self p ms1))).
  { intros ms1 Hp1. unfold assign_weights.
    rewrite (set_weight_if_obj _ _ p) by exact Hp1. cbn [rbind].
    rewrite (set_weight_if_obj _ _ p) by (rewrite assign_weight_rule; exact Hp1).
    cbn [rbind].
    rewrite (set_weight_if_obj _ _ p) by (rewrite !assign_weight_rule; exact Hp1).
    cbn [rbind].
    rewrite (set_weight_if_obj _ _ p) by (rewrite !assign_weight_rule; exact Hp1).
    reflexivity. }
  unfold set_rule, assign_zdists.
  destruct (negb (String.eqb (dist self) "vb")); cbn [andb].
  - unfold getitem at 1. rewrite Hp. cbn [rbind].
    destruct (json_eq_str p ENTITY_RULE).
    + destruct (zdists_getitem (dist self)) as [z|e]; cbn [rbind setitem]; [|reflexivity].
      apply Hstage. rewrite dict_get_set_other by discriminate. exact Hp.
    + cbn [rbind]. apply Hstage. exact Hp.
  - cbn [rbind]. apply Hstage. exact Hp.
Qed.

Lemma set_rule_inv (self : Experiment) (r r' : json) :
  set_rule self r = Ok r' ->
  exists ms p, r = JObj ms /\ dict_get String.eqb "rule" ms = Some p.
Proof.
  intros Hr. destruct r as [| | | | |ms];
    try (unfold set_rule, set_weight_if, getitem in Hr;
         destruct (negb _); cbn [rbind] in Hr; discriminate).
  destruct (dict_get String.eqb "rule" ms) as [p|] eqn:Hp; [eauto|].
  unfold set_rule, set_weight_if in Hr.
  destruct (negb _); cbn [rbind getitem] in Hr; rewrite Hp in Hr;
    cbn [rbind] in Hr; discriminate.
Qed.

Ltac distinct_patterns p :=
  match goal with
  | Ha : json_eq_str p ?a = true, Hb : json_eq_str p ?b = true |- _ =>
      let N := fresh in
      assert (N : a <> b)
        by (let E := fresh in intros E; vm_compute in E; discriminate E);
      pose proof (json_eq_str_excl p a b N Ha); congruence
  end.

Lemma assign_weights_idem (self : Experiment) (p : json)
    (ms : list (string * json)) :
  assign_weights self p (assign_weights self p ms) = assign_weights self p ms.
Proof.
  unfold assign_weights, assign_weight.
  destruct (json_eq_str p ARG0_NOUN_RULE) eqn:E1;
  destruct (json_eq_str p ARG0_PRON_RULE) eqn:E2;
  destruct (json_eq_str p ARG1_NOUN_RULE) eqn:E3;
  destruct (json_eq_str p ARG1_PRON_RULE) eqn:E4;
  try reflexivity; try (rewrite dict_set_set_same; reflexivity);
  distinct_patterns p.
Qed.

Lemma assign_weights_entity (self : Experiment) (p : json)
    (ms : list (string * json)) :
  json_eq_str p ENTITY_RULE = true -> assign_weights self p ms = ms.
Proof.
  intros E0. unfold assign_weights, assign_weight.
  destruct (json_eq_str p ARG0_NOUN_RULE) eqn:E1; [distinct_patterns p|].
  destruct (json_eq_str p ARG0_PRON_RULE) eqn:E2; [distinct_patterns p|].
  destruct (json_eq_str p ARG1_NOUN_RULE) eqn:E3; [distinct_patterns p|].
  destruct (json_eq_str p ARG1_PRON_RULE) eqn:E4; [distinct_patterns p|].
  reflexivity.
Qed.

Lemma assign_weights_rule (self : Experiment) (p : json)
    (ms : list (string * json)) :
  dict_get String.eqb "rule" (assign_weights self p ms)
  = dict_get String.eqb "rule" ms.
Proof. unfold assign_weights. rewrite !assign_weight_rule. reflexivity. Qed.

(** The weight that a rule with one of the four patterns ends up with. *)
Lemma assign_weights_lookup (self : Experiment) (p : json)
    (ms : list (string * json)) :
  (json_eq_str p ARG0_NOUN_RULE = true ->
   dict_get String.eqb "base_weight" (assign_weights self p ms)
   = Some (JNum (1 - fst (num_pron self))%Q)) /\
  (json_eq_str p ARG0_PRON_RULE = true ->
   dict_get String.eqb "base_weight" (assign_weights self p ms)
   = Some (JNum (fst (num_pron self)))) /\
  (json_eq_str p ARG1_NOUN_RULE = true ->
   dict_get String.eqb "base_weight" (assign_weights self p ms)
   = Some (JNum (1 - snd (num_pron self))%Q)) /\
  (json_eq_str p ARG1_PRON_RULE = true ->
   dict_get String.eqb "base_weight" (assign_weights self p ms)
   = Some (JNum (snd (num_pron self)))).
Proof.
  unfold assign_weights, assign_weight.
  repeat split; intros E;
    destruct (json_eq_str p ARG0_NOUN_RULE) eqn:E1;
    destruct (json_eq_str p ARG0_PRON_RULE) eqn:E2;
    destruct (json_eq_str p ARG1_NOUN_RULE) eqn:E3;
    destruct (json_eq_str p ARG1_PRON_RULE) eqn:E4;
    try discriminate E; try (apply dict_get_set_same); distinct_patterns p.
Qed.

(** A rule that has been through the loop body is left as it is by a
    second turn. *)
Lemma set_rule_fixed (self : Experiment) (r r' : json) :
  set_rule self r = Ok r' -> set_rule self r' = Ok r'.
Proof.
  intros Hr. destruct (set_rule_inv _ _ _ Hr) as (ms & p & -> & Hp).
  rewrite (set_rule_obj self p ms Hp) in Hr.
  apply rbind_Ok in Hr as (ms1 & Hz & [= <-]).
  assert (Hp1 : dict_get String.eqb "rule" (assign_weights self p ms1) = Some p).
  { rewrite assign_weights_rule, (assign_zdists_rule _ _ _ _ Hz). exact Hp. }
  rewrite (set_rule_obj self p _ Hp1).
  unfold assign_zdists in Hz |- *.
  destruct (negb (String.eqb (dist self) "vb") && json_eq_str p ENTITY_RULE) eqn:T.
  - apply andb_true_iff in T as [_ T].
    apply rbind_Ok in Hz as (z & Hzd & [= <-]). rewrite Hzd. cbn [rbind].
    rewrite !assign_weights_entity by exact T.
    rewrite dict_set_set_same. reflexivity.
  - cbn [rbind]. rewrite assign_weights_idem. reflexivity.
Qed.

(** Deriving from a document that an earlier turn has edited gives what
    deriving from the document before that turn gives. *)
Lemma derive_overwrite (self : Experiment) (s1 d1 s2 d2 : Q) (doc doc1 : json) :
  derive self s1 d1 doc = Ok doc1 ->
  derive self s2 d2 doc1 = derive self s2 d2 doc.
Proof.
  unfold derive. intros H1. apply rbind_Ok in H1 as (docA & HA & HB).
  rewrite (update_items_comm "rules" "distributions" _
             (set_dist_params self s2 d2) docA doc1 ltac:(discriminate) HB).
  rewrite (update_items_overwrite "distributions" _ (set_dist_params self s2 d2)
             doc docA (set_dist_params_overwrite self s1 d1 s2 d2) HA).
  destruct (update_items "distributions" (set_dist_params self s2 d2) doc)
    as [X|e]; cbn [rbind]; [|reflexivity].
  destruct (update_items "rules" (set_rule self) X) as [Y|e] eqn:HX;
    cbn [rbind]; [|reflexivity].
  exact (update_items_fixed "rules" (set_rule self) X Y (set_rule_fixed self) HX).
Qed.

Lemma update_items_other (k k2 : string) (b : json -> result json)
    (doc doc1 : json) :
  k2 <> k -> update_items k b doc = Ok doc1 ->
  getitem doc1 k2 = getitem doc k2.
Proof.
  intros Hne H1. destruct (update_items_inv _ _ _ _ H1) as (ms & v & -> & Hv).
  rewrite (update_items_obj _ _ _ _ Hv) in H1.
  destruct v; cbv beta iota in H1;
    try (apply rbind_Ok in H1 as (its & _ & H1);
         apply rbind_Ok in H1 as (r & _ & [= Hd]); subst doc1; reflexivity).
  apply rbind_Ok in H1 as (items1 & _ & [= Hd]); subst doc1.
  unfold getitem. rewrite dict_get_set_other by exact Hne. reflexivity.
Qed.

(** On a template of the expected shape the derivation returns: a dict
    whose [distributions] are dicts with a [name] and whose [rules] are
    dicts with a [rule], for any of the six distributions. *)
Lemma derive_total (self : Experiment) (strength discount : Q)
    (ms : list (string * json)) (ds rs : list json) :
  dist self ∈ distributions ->
  dict_get String.eqb "distributions" ms = Some (JArr ds) ->
  dict_get String.eqb "rules" ms = Some (JArr rs) ->
  Forall (fun x => exists m n, x = JObj m /\ dict_get String.eqb "name" m = Some n) ds ->
  Forall (fun r => exists m p, r = JObj m /\ dict_get String.eqb "rule" m = Some p) rs ->
  exists doc', derive self strength discount (JObj ms) = Ok doc'.
Proof.
  intros Hdist Hds Hrs Hnames Hrules. unfold derive.
  assert (Hd : exists ds', rmap (set_dist_params self strength discount) ds = Ok ds').
  { clear Hds. induction Hnames as [|x ds Hx _ IH]; [eexists; reflexivity|].
    destruct Hx as (m & n & -> & Hn). destruct IH as [ds' IH].
    assert (Hx : exists x', set_dist_params self strength discount (JObj m) = Ok x').
    { unfold set_dist_params, getitem. rewrite Hn. cbn [rbind].
      destruct (existsb _ _); eexists; reflexivity. }
    destruct Hx as [x' Hx]. exists (x' :: ds'). cbn [rmap].
    rewrite Hx, IH. reflexivity. }
  destruct Hd as [ds' Hd].
  rewrite (update_items_obj _ _ _ _ Hds), Hd. cbn [rbind].
  assert (Hr : exists rs', rmap (set_rule self) rs = Ok rs').
  { clear Hrs. induction Hrules as [|r rs Hx _ IH]; [eexists; reflexivity|].
    destruct Hx as (m & p & -> & Hp). destruct IH as [rs' IH].
    assert (Hz : exists m1, assign_zdists self p m = Ok m1).
    { unfold assign_zdists. destruct (String.eqb (dist self) "vb") eqn:Hvb;
        cbn [negb andb]; [eexists; reflexivity|].
      destruct (json_eq_str p ENTITY_RULE); [|eexists; reflexivity].
      unfold distributions in Hdist.
      repeat (apply elem_of_cons in Hdist as [Hdist|Hdist]);
        try (rewrite Hdist in *; first [discriminate Hvb | eexists; reflexivity]).
      inversion Hdist. }
    destruct Hz as [m1 Hz]. exists (JObj (assign_weights self p m1) :: rs').
    cbn [rmap]. rewrite (set_rule_obj self p m Hp), Hz, IH. reflexivity. }
  destruct Hr as [rs' Hr].
  assert (Hrs' : dict_get String.eqb "rules"
                   (dict_set String.eqb "distributions" (JArr ds') ms)
                 = Some (JArr rs))
    by (rewrite dict_get_set_other by discriminate; exact Hrs).
  rewrite (update_items_obj _ _ _ _ Hrs'), Hr. eexists; reflexivity.
Qed.

Section Derivation.
Context `{Env}.

(** C9: whatever distribution is being tuned (the verb distribution
    included) and whatever the parameter pair, one turn of the derivation
    leaves every rule with its pattern, and gives each rule that has one of
    the four pronoun/noun patterns the fixed weight: the subject pronoun
    proportion 0.6981516025097507 or its complement for the two subject
    rules, the object pronoun proportion 0.2518229608275394 or its
    complement for the two object rules. *)
Theorem C9_pronoun_weights (config : Config.t) (cds : list string)
    (strength discount : Q) (doc doc' : json) (rules : list json) :
  derive (Experiment_attrs config cds) strength discount doc = Ok doc' ->
  getitem doc "rules" = Ok (JArr rules) ->
  exists rules',
    getitem doc' "rules" = Ok (JArr rules') /\
    Forall2 (fun rule rule' =>
      exists p,
        getitem rule "rule" = Ok p /\ getitem rule' "rule" = Ok p /\
        (json_eq_str p ARG0_NOUN_RULE = true ->
         getitem rule' "base_weight"
         = Ok (JNum (1 - Qmake 6981516025097507 10000000000000000)%Q)) /\
        (json_eq_str p ARG0_PRON_RULE = true ->
         getitem rule' "base_weight"
         = Ok (JNum (Qmake 6981516025097507 10000000000000000))) /\
        (json_eq_str p ARG1_NOUN_RULE = true ->
         getitem rule' "base_weight"
         = Ok (JNum (1 - Qmake 2518229608275394 10000000000000000)%Q)) /\
        (json_eq_str p ARG1_PRON_RULE = true ->
         getitem rule' "base_weight"
         = Ok (JNum (Qmake 2518229608275394 10000000000000000))))
      rules rules'.
Proof.
  set (self := Experiment_attrs config cds).
  unfold derive. intros Hd Hrules.
  apply rbind_Ok in Hd as (docA & HA & HB).
  rewrite <- (update_items_other "distributions" "rules" _ doc docA
                ltac:(discriminate) HA) in Hrules.
  destruct (update_items_inv _ _ _ _ HB) as (msA & v & -> & Hv).
  unfold getitem in Hrules. rewrite Hv in Hrules. injection Hrules as ->.
  rewrite (update_items_obj _ _ _ _ Hv) in HB.
  apply rbind_Ok in HB as (rules' & Hmap & [= <-]).
  exists rules'. split.
  - unfold getitem. rewrite dict_get_set_same. reflexivity.
  - apply rmap_Ok_Forall2 in Hmap.
    eapply Forall2_impl; [exact Hmap|].
    intros rule rule' Hr. cbv beta in Hr.
    destruct (set_rule_inv _ _ _ Hr) as (ms & p & -> & Hp).
    rewrite (set_rule_obj self p ms Hp) in Hr.
    apply rbind_Ok in Hr as (ms1 & Hz & [= <-]).
    exists p. unfold getitem.
    rewrite Hp, assign_weights_rule, (assign_zdists_rule _ _ _ _ Hz), Hp.
    split; [reflexivity|]. split; [reflexivity|].
    destruct (assign_weights_lookup self p ms1) as (W1 & W2 & W3 & W4).
    repeat split; intros E;
      [rewrite (W1 E)|rewrite (W2 E)|rewrite (W3 E)|rewrite (W4 E)]; reflexivity.
Qed.

(** C3, amended: the loop edits the loaded base document in place, and yet
    it writes, for any list of parameter pairs, exactly the files that
    deriving every configuration from an untouched copy of the base writes:
    a turn overwrites what the turns before it changed. *)
Theorem C3_inplace_derivation_equals_copying (self : Experiment)
    (parameters : list (Q * Q)) (base : json) (w : world) :
  (create_json_configs_loop self parameters base ;;; ret tt) w
  = create_json_configs_copying_loop self parameters base w.
Proof.
  assert (Hgen : forall doc w,
            (forall s d, derive self s d doc = derive self s d base) ->
            (create_json_configs_loop self parameters doc ;;; ret tt) w
            = create_json_configs_copying_loop self parameters base w).
  { induction parameters as [|[s d] rest IH]; intros doc w0 Hdoc; [reflexivity|].
    cbn [create_json_configs_loop create_json_configs_copying_loop].
    unfold bind, lift, write_file in IH |- *. rewrite (Hdoc s d).
    destruct (derive self s d base) as [doc1|e] eqn:Hd; [|reflexivity].
    apply (IH doc1). intros s' d'.
    rewrite <- (Hdoc s' d'). apply (derive_overwrite self s d).
    rewrite (Hdoc s d). exact Hd. }
  apply Hgen. reflexivity.
Qed.

End Derivation.

(** The claim of C3 fails as stated: after one turn of the loop the loaded
    base document is no longer the document that was loaded. *)
Lemma C3_counterexample :
  exists doc',
    (create_json_configs_loop (Demo.session "nn") [(50%Q, Qmake 1 2)]
       Demo.base Demo.fresh).1 = Ok doc' /\
    doc' <> Demo.base.
Proof.
  eexists. split; [vm_compute; reflexivity|]. discriminate.
Qed.

Lemma C9_pronoun_weights_witness :
  exists rules',
    getitem Demo.derived_vb "rules" = Ok (JArr rules') /\
    Forall2 (fun rule rule' =>
      exists p,
        getitem rule "rule" = Ok p /\ getitem rule' "rule" = Ok p /\
        (json_eq_str p ARG0_NOUN_RULE = true ->
         getitem rule' "base_weight"
         = Ok (JNum (1 - Qmake 6981516025097507 10000000000000000)%Q)) /\
        (json_eq_str p ARG0_PRON_RULE = true ->
         getitem rule' "base_weight"
         = Ok (JNum (Qmake 6981516025097507 10000000000000000))) /\
        (json_eq_str p ARG1_NOUN_RULE = true ->
         getitem rule' "base_weight"
         = Ok (JNum (1 - Qmake 2518229608275394 10000000000000000)%Q)) /\
        (json_eq_str p ARG1_PRON_RULE = true ->
         getitem rule' "base_weight"
         = Ok (JNum (Qmake 2518229608275394 10000000000000000))))
      Demo.base_rules rules'.
Proof.
  apply (C9_pronoun_weights (Demo.config "vb") ["vb"] 50%Q (Qmake 1 2)
           Demo.base Demo.derived_vb Demo.base_rules).
  - vm_compute. reflexivity.
  - reflexivity.
Defined.

(** ** Reading the generated output *)

Lemma output_modified_distinct `{Env} (self : Experiment) (s d s' d' : Q) :
  modified_file self s d <> output_file self s' d'.
Proof.
  unfold modified_file, output_file. intros Heq.
  apply str_app_cancel in Heq. rewrite !app_String, !app_Empty in Heq.
  injection Heq as Heq. apply str_app_cancel in Heq.
  discriminate.
Qed.

(** The file names follow the float product.  The float [0.29] is a
    little below 29/100 and its product with 100 is rounded to a float
    below 29: the files of the pair (50, 0.29) are numbered 28. *)
Lemma file_names_of_float_product :
  Demo.parse_decimal "0.29" = Some (Qmake 5224175567749775 18014398509481984) /\
  new_file_name (Demo.session "nn") 50 (Qmake 5224175567749775 18014398509481984)
  = "/tp/hyperparam-tuning/experiment_data/experiment/json_data/nn/nn_amr_s50_d28.json" /\
  output_file (Demo.session "nn") 50 (Qmake 5224175567749775 18014398509481984)
  = "/tp/hyperparam-tuning/experiment_data/experiment/peranto_output/nn/peranto_nn_s50_d28.txt".
Proof. repeat split; vm_compute; reflexivity. Qed.

Section Evaluation.
Context `{Env}.

Lemma read_parameters_world (self : Experiment) (w : world) :
  (read_parameters self w).2 = w.
Proof.
  unfold read_parameters, bind, read_file, lift.
  destruct (files w !! param_path self); reflexivity.
Qed.

(** The loop returns [None] as soon as it meets a pair without output
    file, whatever it has collected so far. *)
Lemma get_peranto_data_loop_missing (self : Experiment)
    (parameters : list (Q * Q)) (data : list (Q * Q * list observation))
    (w : world) (strength discount : Q) :
  (strength, discount) ∈ parameters ->
  files w !! output_file self strength discount = None ->
  (get_peranto_data_loop self parameters data w).1 = Ok None.
Proof.
  revert data w; induction parameters as [|[s0 d0] rest IH]; intros data w Hin Hnone.
  - inversion Hin.
  - cbn [get_peranto_data_loop].
    unfold bind at 1. unfold try_except at 1. unfold bind at 1.
    unfold read_triples, bind, read_file, lift.
    destruct (files w !! output_file self s0 d0) as [text|] eqn:Hfile.
    + destruct (rmap parse_triple (readlines text)) as [triples|e].
      * unfold ret at 1. unfold try_except, write_file.
        apply elem_of_cons in Hin as [[= -> ->]|Hin]; [congruence|].
        apply IH; [exact Hin|]. cbn [files].
        rewrite lookup_insert_ne by apply output_modified_distinct. exact Hnone.
      * destruct e; reflexivity.
    + reflexivity.
Qed.

(** C1, amended: when the output file of some parameter pair is absent,
    [get_peranto_data] gives up on the whole grid: it returns [None], not
    the data of the remaining pairs, and [run] then produces no ranking
    (the lookup of [items] on [None] raises).  This is so whether one file
    or every file is missing. *)
Theorem C1_missing_output_aborts (self : Experiment) (w : world)
    (parameters : list (Q * Q)) (strength discount : Q) (k : Z) :
  (read_parameters self w).1 = Ok parameters ->
  (strength, discount) ∈ parameters ->
  files w !! output_file self strength discount = None ->
  (get_peranto_data self w).1 = Ok None /\
  (run self k w).1 = Raise AttributeError.
Proof.
  intros Hread Hin Hnone.
  assert (Hdata : (get_peranto_data self w).1 = Ok None).
  { unfold get_peranto_data, bind.
    pose proof (read_parameters_world self w) as Hw.
    destruct (read_parameters self w) as [r w0]. cbn [fst snd] in Hread, Hw.
    subst r w0. eapply get_peranto_data_loop_missing; eassumption. }
  split; [exact Hdata|].
  unfold run, get_singleton_prop, bind.
  destruct (get_peranto_data self w) as [r w0]. cbn [fst] in Hdata. subst r.
  reflexivity.
Qed.

End Evaluation.

Lemma C1_missing_output_aborts_witness :
  (get_peranto_data (Demo.session "nn")
     (Demo.evaluation_world [(0, 0); (0, Qmake 1 2); (50, Qmake 1 2)]%Q)).1
  = Ok None /\
  (run (Demo.session "nn") 3
     (Demo.evaluation_world [(0, 0); (0, Qmake 1 2); (50, Qmake 1 2)]%Q)).1
  = Raise AttributeError.
Proof.
  apply (C1_missing_output_aborts (Demo.session "nn")
           (Demo.evaluation_world [(0, 0); (0, Qmake 1 2); (50, Qmake 1 2)]%Q)
           [(0, 0); (0, Qmake 1 2); (50, 0); (50, Qmake 1 2)]%Q 50%Q 0%Q 3).
  - vm_compute. reflexivity.
  - apply list_elem_of_further, list_elem_of_further, list_elem_of_here.
  - vm_compute. reflexivity.
Defined.

(** The claim of C1 fails as stated: with the output of one pair out of
    four absent, [run] does not rank the three other pairs; it raises.  With
    all four files there it returns a ranking. *)
Lemma C1_counterexample :
  let self := Demo.session "nn" in
  let w := Demo.evaluation_world [(0, 0); (0, Qmake 1 2); (50, Qmake 1 2)]%Q in
  (read_parameters self w).1
  = Ok [(0, 0); (0, Qmake 1 2); (50, 0); (50, Qmake 1 2)]%Q /\
  files w !! output_file self 50 0 = None /\
  is_Some (files w !! output_file self 0 0) /\
  is_Some (files w !! output_file self 0 (Qmake 1 2)) /\
  is_Some (files w !! output_file self 50 (Qmake 1 2)) /\
  (run self 3 w).1 = Raise AttributeError /\
  (exists res,
     (run self 3
        (Demo.evaluation_world [(0, 0); (0, Qmake 1 2); (50, 0); (50, Qmake 1 2)]%Q)).1
     = Ok res /\ length res = 3).
Proof.
  cbv zeta. split; [vm_compute; reflexivity|].
  split; [vm_compute; reflexivity|].
  split; [vm_compute; eexists; reflexivity|].
  split; [vm_compute; eexists; reflexivity|].
  split; [vm_compute; eexists; reflexivity|].
  split; [vm_compute; reflexivity|].
  eexists. split; [vm_compute; reflexivity|reflexivity].
Qed.

(** ** The parameter list, read back *)

Lemma all_chars_app (test : ascii -> bool) (a b : string) :
  all_chars test (a +:+ b) = all_chars test a && all_chars test b.
Proof.
  induction a as [|c a IH]; [reflexivity|].
  rewrite app_String. cbn [all_chars]. rewrite IH, andb_assoc. reflexivity.
Qed.

Lemma all_chars_impl (t1 t2 : ascii -> bool) (s : string) :
  (forall c, t1 c = true -> t2 c = true) ->
  all_chars t1 s = true -> all_chars t2 s = true.
Proof.
  intros Himpl. induction s as [|c s IH]; [reflexivity|]. cbn [all_chars].
  intros Hs. apply andb_true_iff in Hs as [Hc Hs].
  rewrite (Himpl c Hc), (IH Hs). reflexivity.
Qed.

Lemma rev_app_rev_app (s t u : string) :
  String.rev_app (String.rev_app s t) u = String.rev_app t (s +:+ u).
Proof.
  revert t; induction s as [|c s IH]; intros t; [reflexivity|].
  cbn [String.rev_app]. rewrite IH. reflexivity.
Qed.

Lemma rev_rev (s : string) : String.rev (String.rev s) = s.
Proof. unfold String.rev. rewrite rev_app_rev_app. apply str_app_nil_r. Qed.

Lemma rev_app_append (a b t : string) :
  String.rev_app (a +:+ b) t = String.rev_app b (String.rev_app a t).
Proof.
  revert t; induction a as [|c a IH]; intros t; [reflexivity|].
  rewrite app_String. cbn [String.rev_app]. apply IH.
Qed.

Lemma all_chars_rev_app (test : ascii -> bool) (s t : string) :
  all_chars test (String.rev_app s t) = all_chars test s && all_chars test t.
Proof.
  revert t; induction s as [|c s IH]; intros t; [reflexivity|].
  cbn [String.rev_app all_chars]. rewrite IH. cbn [all_chars].
  rewrite !andb_assoc. f_equal. apply andb_comm.
Qed.

Lemma lstrip_no_space (s : string) :
  all_chars (fun c => negb (isspace c)) s = true -> lstrip s = s.
Proof.
  destruct s as [|c s]; [reflexivity|]. cbn [all_chars lstrip].
  intros Hs. apply andb_true_iff in Hs as [Hc _].
  apply negb_true_iff in Hc. rewrite Hc. reflexivity.
Qed.

Lemma rstrip_no_space (s : string) :
  all_chars (fun c => negb (isspace c)) s = true -> rstrip s = s.
Proof.
  intros Hs. unfold rstrip. rewrite lstrip_no_space; [apply rev_rev|].
  unfold String.rev. rewrite all_chars_rev_app, Hs. reflexivity.
Qed.

Lemma plain_no_space (s : string) :
  plain s = true -> all_chars (fun c => negb (isspace c)) s = true.
Proof.
  apply all_chars_impl. intros c Hc. apply andb_true_iff in Hc as [_ Hc]. exact Hc.
Qed.

Lemma plain_no_comma (s : string) :
  plain s = true -> all_chars (fun c => negb (Ascii.eqb c ","%char)) s = true.
Proof.
  apply all_chars_impl. intros c Hc. apply andb_true_iff in Hc as [Hc _]. exact Hc.
Qed.

Lemma plain_no_LF (s : string) :
  plain s = true -> all_chars (fun c => negb (Ascii.eqb c "010"%char)) s = true.
Proof.
  apply all_chars_impl. intros c Hc. apply andb_true_iff in Hc as [_ Hc].
  destruct (Ascii.eqb_spec c "010"%char) as [->|]; [discriminate Hc|reflexivity].
Qed.

Lemma strip_plain (s : string) : plain s = true -> strip s = s.
Proof.
  intros Hs. apply plain_no_space in Hs. unfold strip.
  rewrite (lstrip_no_space s Hs). apply rstrip_no_space. exact Hs.
Qed.

Lemma rstrip_LF (s : string) :
  all_chars (fun c => negb (isspace c)) s = true -> rstrip (s +:+ LF) = s.
Proof.
  intros Hs. unfold rstrip.
  assert (Hrev : String.rev (s +:+ LF) = String "010"%char (String.rev s)).
  { unfold String.rev. rewrite rev_app_append. reflexivity. }
  rewrite Hrev.
  assert (Hl : lstrip (String "010"%char (String.rev s)) = lstrip (String.rev s))
    by reflexivity.
  rewrite Hl, lstrip_no_space; [apply rev_rev|].
  unfold String.rev. rewrite all_chars_rev_app, Hs. reflexivity.
Qed.

(** The second field of a line: a blank, the number, the line feed. *)
Lemma strip_field (s : string) :
  plain s = true -> strip (" " +:+ s +:+ LF) = s.
Proof.
  intros Hs. apply plain_no_space in Hs. unfold strip.
  assert (Hl : lstrip (" " +:+ s +:+ LF) = lstrip (s +:+ LF)) by reflexivity.
  rewrite Hl. clear Hl. destruct s as [|c s]; [reflexivity|].
  assert (Hl : lstrip (String c s +:+ LF) = String c s +:+ LF).
  { rewrite app_String. pose proof Hs as Hs'. cbn [lstrip all_chars] in Hs' |- *.
    apply andb_true_iff in Hs' as [Hc _]. apply negb_true_iff in Hc.
    rewrite Hc. reflexivity. }
  rewrite Hl. apply rstrip_LF. exact Hs.
Qed.

Lemma split_on_absent (sep : ascii) (s : string) :
  all_chars (fun c => negb (Ascii.eqb c sep)) s = true -> split_on sep s = [s].
Proof.
  induction s as [|c s IH]; [reflexivity|]. cbn [all_chars split_on].
  intros Hs. apply andb_true_iff in Hs as [Hc Hs].
  apply negb_true_iff in Hc. rewrite Hc, (IH Hs). reflexivity.
Qed.

Lemma split_on_first (sep : ascii) (a rest : string) :
  all_chars (fun c => negb (Ascii.eqb c sep)) a = true ->
  split_on sep (a +:+ String sep rest) = a :: split_on sep rest.
Proof.
  induction a as [|c a IH]; intros Ha.
  - rewrite app_Empty. cbn [split_on]. rewrite Ascii.eqb_refl. reflexivity.
  - rewrite app_String. cbn [all_chars split_on] in Ha |- *.
    apply andb_true_iff in Ha as [Hc Ha]. apply negb_true_iff in Hc.
    rewrite Hc, (IH Ha). reflexivity.
Qed.

Lemma readlines_go_line (cur body rest : string) :
  all_chars (fun c => negb (Ascii.eqb c "010"%char)) body = true ->
  readlines_go cur (body +:+ LF +:+ rest)
  = (String.rev cur +:+ body +:+ LF) :: readlines_go EmptyString rest.
Proof.
  revert cur; induction body as [|c body IH]; intros cur Hb.
  - rewrite app_Empty. unfold LF. rewrite app_String, app_Empty.
    cbn [readlines_go]. change (Ascii.eqb "010"%char "010"%char) with true.
    cbv iota. f_equal. unfold String.rev. cbn [String.rev_app].
    apply rev_app_app.
  - rewrite app_String. cbn [all_chars readlines_go] in Hb |- *.
    apply andb_true_iff in Hb as [Hc Hb]. apply negb_true_iff in Hc.
    rewrite Hc, (IH _ Hb). f_equal.
    unfold String.rev. cbn [String.rev_app].
    rewrite (rev_app_app cur), str_app_assoc. reflexivity.
Qed.

Lemma param_pairs_elem (S D : list Q) (s d : Q) :
  (s, d) ∈ param_pairs S D -> s ∈ S /\ d ∈ D.
Proof.
  unfold param_pairs. intros Hin. apply list_elem_of_In in Hin.
  apply in_flat_map in Hin as (s' & Hs & Hin).
  apply in_map_iff in Hin as (d' & [= <- <-] & Hd).
  split; apply list_elem_of_In; assumption.
Qed.

Section ParameterList.
Context `{Env}.

Lemma parse_param_line_line (pair : Q * Q) :
  prints_and_reads (fst pair) -> prints_and_reads (snd pair) ->
  parse_param_line (param_line pair) = Ok pair.
Proof.
  intros [Pa Ra] [Pb Rb]. unfold parse_param_line, param_line.
  assert (Hsplit : split_on ","%char
            (str_of_float (fst pair) +:+ ", " +:+ str_of_float (snd pair) +:+ LF)
          = [str_of_float (fst pair); " " +:+ str_of_float (snd pair) +:+ LF]).
  { change (", " +:+ str_of_float (snd pair) +:+ LF)
      with (String ","%char (" " +:+ str_of_float (snd pair) +:+ LF)).
    rewrite split_on_first by (apply plain_no_comma; exact Pa).
    rewrite split_on_absent; [reflexivity|].
    rewrite app_String, app_Empty. cbn [all_chars].
    rewrite all_chars_app, (plain_no_comma _ Pb). reflexivity. }
  rewrite Hsplit. cbn [index nth_error rbind].
  rewrite (strip_plain _ Pa). unfold parse_float. rewrite Ra. cbn [rbind].
  rewrite (strip_field _ Pb), Rb. cbn [rbind]. destruct pair; reflexivity.
Qed.

Lemma readlines_param_lines (pairs : list (Q * Q)) :
  Forall (fun pair => prints_and_reads (fst pair) /\ prints_and_reads (snd pair)) pairs ->
  readlines (concat_str (map param_line pairs)) = map param_line pairs.
Proof.
  unfold readlines.
  induction 1 as [|pair pairs [[Pa _] [Pb _]] _ IH]; [reflexivity|].
  cbn [map concat_str fold_right]. fold (concat_str (map param_line pairs)).
  unfold param_line at 1.
  rewrite <- !str_app_assoc.
  rewrite (str_app_assoc _ LF), readlines_go_line.
  - rewrite IH. f_equal. unfold param_line, String.rev. cbn [String.rev_app].
    rewrite app_Empty, !str_app_assoc. reflexivity.
  - rewrite !all_chars_app, (plain_no_LF _ Pa), (plain_no_LF _ Pb). reflexivity.
Qed.

End ParameterList.

Section RoundTrip.
Context `{Env}.

(** Reading the text of a grid gives the grid. *)
Lemma param_text_round_trip (grid : list (Q * Q)) :
  Forall (fun pair => prints_and_reads (fst pair) /\ prints_and_reads (snd pair)) grid ->
  rmap parse_param_line (readlines (concat_str (map param_line grid))) = Ok grid.
Proof.
  intros Hgrid. rewrite (readlines_param_lines grid Hgrid).
  apply Forall2_rmap_Ok.
  induction Hgrid as [|pair grid [Ha Hb] _ IH]; cbn [map]; constructor; [|exact IH].
  apply parse_param_line_line; assumption.
Qed.

(** C8: the parameter list that [create_param_space] writes for the lists
    [S] and [D] is read back by [create_json_configs] and
    [get_peranto_data] as the grid itself, pair by pair and in order.
    The numbers enter through their text only: Python prints a float
    without comma or white space and reads the float back from what it
    printed; this is what [prints_and_reads] asks of every number of the
    grid. *)
Theorem C8_parameter_list_round_trip (self : Experiment) (S D : list Q) (w : world) :
  input_space self = [("Strength", PyList S); ("Discount", PyList D)] ->
  (forall x, x ∈ S ++ D -> prints_and_reads x) ->
  (create_param_space self ;;; read_parameters self) w
  = (Ok (param_pairs S D), (create_param_space self w).2).
Proof.
  intros Hsp Hnum.
  assert (Hgrid : Forall (fun pair => prints_and_reads (fst pair) /\
                                      prints_and_reads (snd pair)) (param_pairs S D)).
  { apply Forall_forall. intros [s d] Hin.
    apply param_pairs_elem in Hin as [Hs Hd].
    split; apply Hnum; apply elem_of_app; [left|right]; assumption. }
  unfold bind at 1. unfold create_param_space, bind, lift.
  rewrite Hsp, generate_pairs_lists. unfold write_file. cbn [snd].
  unfold read_parameters, bind, read_file. cbn [files].
  rewrite lookup_insert_eq. unfold lift.
  rewrite (param_text_round_trip _ Hgrid). reflexivity.
Qed.

End RoundTrip.

Lemma C8_parameter_list_round_trip_witness :
  (create_param_space (Demo.session "nn") ;;; read_parameters (Demo.session "nn"))
    Demo.fresh
  = (Ok (param_pairs [0; 50]%Q [0; Qmake 1 2]%Q),
     (create_param_space (Demo.session "nn") Demo.fresh).2).
Proof.
  apply (C8_parameter_list_round_trip (Demo.session "nn")
           [0; 50]%Q [0; Qmake 1 2]%Q Demo.fresh).
  - reflexivity.
  - intros x Hx.
    repeat (apply elem_of_cons in Hx as [->|Hx]);
      [split; vm_compute; reflexivity..|inversion Hx].
Defined.

(** * Further properties *)

(** ** More on [initialize] *)

Lemma for_each_app {A} (l1 l2 : list A) (body : A -> M unit) (w : world) :
  for_each (l1 ++ l2) body w = (for_each l1 body ;;; for_each l2 body) w.
Proof.
  revert w; induction l1 as [|x l1 IH]; intros w; [reflexivity|].
  cbn [app for_each]. unfold bind in IH |- *.
  destruct (body x w) as [[[]|e] w0]; [|reflexivity].
  apply IH.
Qed.

Lemma require_tuned_all (self : Experiment) (ds : list string) (w : world) :
  Forall (fun d => exists_in w (get_param_path self d) = true) ds ->
  for_each ds (require_tuned self) w = (Ok tt, w).
Proof.
  induction 1 as [|d ds Hd _ IH]; [reflexivity|].
  cbn [for_each]. unfold bind at 1. unfold require_tuned, bind.
  rewrite path_exists_run, Hd. exact IH.
Qed.

Lemma require_tuned_first_missing (self : Experiment) (pre post : list string)
    (d : string) (w : world) :
  Forall (fun d => exists_in w (get_param_path self d) = true) pre ->
  exists_in w (get_param_path self d) = false ->
  for_each (pre ++ d :: post) (require_tuned self) w
  = (Raise (Exception ("Please tune " +:+ d +:+ " before " +:+ name self)), w).
Proof.
  intros Hpre Hd. rewrite for_each_app. unfold bind.
  rewrite (require_tuned_all self pre w Hpre). cbn [for_each].
  unfold bind, require_tuned at 1, bind. rewrite path_exists_run, Hd. reflexivity.
Qed.

(** The two gate loops of [initialize] are one loop over [prerequisites]. *)
Lemma gate_loops (self : Experiment) (w : world) :
  ((if bool_decide (name self ∈ lvl3_dist)
    then for_each (lvl1_dist ++ lvl2_dist) (require_tuned self)
    else ret tt) ;;;
   (if bool_decide (name self ∈ lvl2_dist)
    then for_each lvl1_dist (require_tuned self)
    else ret tt)) w
  = for_each (prerequisites (name self)) (require_tuned self) w.
Proof.
  unfold prerequisites. rewrite for_each_app. unfold bind.
  destruct (bool_decide (name self ∈ lvl3_dist));
    destruct (bool_decide (name self ∈ lvl2_dist)); reflexivity.
Qed.

(** [initialize] once the three checks of the configuration have passed. *)
Lemma initialize_valid (self : Experiment) (w : world) :
  dist self ∈ distributions ->
  map fst (input_space self) = ["Strength"; "Discount"] ->
  Forall (fun v => exists l, v = PyList l) (map snd (input_space self)) ->
  initialize self w
  = if exists_in w (base_file self)
    then (for_each (session_paths self) ensure_dir ;;;
          for_each (prerequisites (name self)) (require_tuned self)) w
    else (Raise (Exception (base_file self +:+ " path doesn't exist")), w).
Proof.
  intros Hdist Hkeys Hvals. unfold initialize. unfold bind at 1 2 3.
  rewrite (bool_decide_eq_true_2 _ Hdist), (bool_decide_eq_true_2 _ Hkeys).
  cbn [negb]. unfold ret at 1 2. rewrite (check_is_list_lists _ w Hvals).
  unfold bind at 1 2. rewrite path_exists_run.
  destruct (exists_in w (base_file self)); cbn [negb]; [|reflexivity].
  unfold ret at 1. unfold bind at 1 3.
  destruct (for_each (session_paths self) ensure_dir w) as [[[]|e] w1]; [|reflexivity].
  apply gate_loops.
Qed.

(** The directory loop does nothing where every path is there. *)
Lemma ensure_dirs_noop (paths : list string) (w : world) :
  Forall (fun q => exists_in w q = true) paths ->
  for_each paths ensure_dir w = (Ok tt, w).
Proof.
  induction 1 as [|q paths Hq _ IH]; [reflexivity|].
  cbn [for_each]. unfold bind at 1. unfold ensure_dir, bind.
  rewrite path_exists_run, Hq. exact IH.
Qed.

Lemma check_is_list_inv (vals : list pyval) (w w1 : world) :
  for_each vals check_is_list w = (Ok tt, w1) ->
  Forall (fun v => exists l, v = PyList l) vals.
Proof.
  revert w; induction vals as [|v vals IH]; intros w; [constructor|].
  cbn [for_each]. unfold bind at 1. destruct v as [l|r t].
  - cbn [check_is_list]. unfold ret at 1. intros Hrest.
    constructor; [eauto|]. exact (IH _ Hrest).
  - cbn [check_is_list]. unfold bind, print, raise. discriminate.
Qed.

Lemma require_tuned_world (self : Experiment) (ds : list string) (w w1 : world)
    (r : result unit) :
  for_each ds (require_tuned self) w = (r, w1) -> w1 = w.
Proof.
  induction ds as [|d ds IH]; cbn [for_each].
  - intros [= _ <-]. reflexivity.
  - unfold bind at 1. unfold require_tuned, bind. rewrite path_exists_run.
    destruct (exists_in w (get_param_path self d)); cbn [negb].
    + exact IH.
    + intros [= _ <-]. reflexivity.
Qed.

(** What a successful [initialize] has checked. *)
Lemma initialize_Ok_inv (self : Experiment) (w w1 : world) :
  initialize self w = (Ok tt, w1) ->
  dist self ∈ distributions /\
  map fst (input_space self) = ["Strength"; "Discount"] /\
  Forall (fun v => exists l, v = PyList l) (map snd (input_space self)) /\
  exists_in w (base_file self) = true.
Proof.
  intros Hinit.
  assert (Hdist : dist self ∈ distributions).
  { destruct (decide (dist self ∈ distributions)) as [Hd|Hd]; [exact Hd|].
    unfold initialize in Hinit. unfold bind at 1 in Hinit.
    rewrite (bool_decide_eq_false_2 _ Hd) in Hinit. discriminate Hinit. }
  assert (Hkeys : map fst (input_space self) = ["Strength"; "Discount"]).
  { destruct (decide (map fst (input_space self) = ["Strength"; "Discount"]))
      as [Hk|Hk]; [exact Hk|].
    destruct (initialize_bad_keys self w Hk) as (msg & Hbad & _).
    rewrite Hbad in Hinit. discriminate Hinit. }
  assert (Hvals : Forall (fun v => exists l, v = PyList l) (map snd (input_space self))).
  { unfold initialize in Hinit. unfold bind at 1 2 3 in Hinit.
    rewrite (bool_decide_eq_true_2 _ Hdist), (bool_decide_eq_true_2 _ Hkeys) in Hinit.
    cbn [negb] in Hinit. unfold ret at 1 2 in Hinit.
    destruct (for_each (map snd (input_space self)) check_is_list w)
      as [[[]|e] w0] eqn:Hv; [|discriminate Hinit].
    exact (check_is_list_inv _ _ _ Hv). }
  repeat split; try assumption.
  rewrite (initialize_valid self w Hdist Hkeys Hvals) in Hinit.
  destruct (exists_in w (base_file self)); [reflexivity|discriminate Hinit].
Qed.

Section Construction.
Context `{Env}.

(** An unknown distribution is rejected first, whatever else is wrong with
    the configuration, and nothing is created or printed. *)
Theorem init_unknown_distribution (config : Config.t) (cds : list string) (w : world) :
  Config.child_dists config = Some cds ->
  Config.distribution config ∉ distributions ->
  Experiment_init config w
  = (Raise (Exception "config.distribution must be either 'vb', 'nn', 'nn.arg0', 'nn.arg1', 'nn.arg0.$y0', or 'nn.arg1.$y0'"), w).
Proof.
  intros Hcds Hd. unfold Experiment_init. rewrite Hcds. cbv zeta.
  unfold bind at 1. unfold initialize. unfold bind at 1.
  rewrite bool_decide_eq_false_2 by exact Hd. reflexivity.
Qed.

(** A value of the input space that is no list is rejected at the first
    such value: the value and its type are printed, then the constructor
    raises; no directory and no file is created. *)
Theorem init_non_list_value (config : Config.t) (cds : list string) (w : world)
    (pre post : list pyval) (repr type_repr : string) :
  Config.child_dists config = Some cds ->
  Config.distribution config ∈ distributions ->
  map fst (Config.input_space config) = ["Strength"; "Discount"] ->
  map snd (Config.input_space config) = pre ++ PyOther repr type_repr :: post ->
  Forall (fun v => exists l, v = PyList l) pre ->
  Experiment_init config w
  = (Raise (Exception "config.input_space values must be lists"),
     World (dirs w) (files w) (stdout w ++ [repr; type_repr])).
Proof.
  intros Hcds Hdist Hkeys Hvals Hpre. unfold Experiment_init. rewrite Hcds. cbv zeta.
  set (self := Experiment_attrs config cds).
  unfold bind at 1. unfold initialize. unfold bind at 1 2 3.
  change (dist self) with (Config.distribution config).
  change (input_space self) with (Config.input_space config).
  rewrite (bool_decide_eq_true_2 _ Hdist), (bool_decide_eq_true_2 _ Hkeys).
  cbn [negb]. unfold ret at 1 2. rewrite Hvals, for_each_app. unfold bind at 1.
  rewrite (check_is_list_lists pre w Hpre). cbn [for_each check_is_list].
  unfold bind, print, raise. cbn [dirs files stdout].
  rewrite <- app_assoc. reflexivity.
Qed.

(** Without the base template nothing is created: the constructor raises
    with the path it looked for. *)
Theorem init_missing_base (config : Config.t) (cds : list string) (w : world) :
  Config.child_dists config = Some cds ->
  Config.distribution config ∈ distributions ->
  map fst (Config.input_space config) = ["Strength"; "Discount"] ->
  Forall (fun v => exists l, v = PyList l) (map snd (Config.input_space config)) ->
  exists_in w (base_file (Experiment_attrs config cds)) = false ->
  Experiment_init config w
  = (Raise (Exception (base_file (Experiment_attrs config cds) +:+ " path doesn't exist")), w).
Proof.
  intros Hcds Hdist Hkeys Hvals Hbase. unfold Experiment_init. rewrite Hcds. cbv zeta.
  unfold bind at 1.
  rewrite (initialize_valid (Experiment_attrs config cds) w Hdist Hkeys Hvals), Hbase.
  reflexivity.
Qed.

(** A parameter list exists after the directory loop exactly when it
    existed before. *)
Lemma param_list_after_dirs (config : Config.t) (cds : list string) (d : string)
    (w w1 : world) :
  let self := Experiment_attrs config cds in
  for_each (session_paths self) ensure_dir w = (Ok tt, w1) ->
  exists_in w1 (get_param_path self d) = exists_in w (get_param_path self d).
Proof.
  intros self Hrun.
  destruct (ensure_dirs_effect (session_paths self) w) as (w1' & Hrun' & Hf & _ & Hd).
  rewrite Hrun in Hrun'. injection Hrun' as <-.
  destruct (ensure_dirs_exist _ _ _ Hrun) as [_ Hmono].
  destruct (exists_in w (get_param_path self d)) eqn:Hbefore; [auto|].
  unfold exists_in in Hbefore |- *. apply orb_false_iff in Hbefore as [Hb1 Hb2].
  rewrite Hf, Hb2, orb_false_r. apply bool_decide_eq_false_2. intros Hin.
  apply Hd in Hin as [Hin|(q & Hq & Hp)].
  - apply bool_decide_eq_false_1 in Hb1. contradiction.
  - exact (param_path_not_created config cds d _ q Hq Hp eq_refl).
Qed.

(** A valid configuration whose prerequisites are tuned builds a session:
    no file is written, nothing is printed, and every directory of the
    session exists afterwards.  A level-1 distribution has no
    prerequisite. *)
Theorem init_succeeds (config : Config.t) (cds : list string) (w : world) :
  let self := Experiment_attrs config cds in
  Config.child_dists config = Some cds ->
  Config.distribution config ∈ distributions ->
  map fst (Config.input_space config) = ["Strength"; "Discount"] ->
  Forall (fun v => exists l, v = PyList l) (map snd (Config.input_space config)) ->
  exists_in w (base_file self) = true ->
  Forall (fun d => exists_in w (get_param_path self d) = true)
    (prerequisites (name self)) ->
  exists w1,
    Experiment_init config w = (Ok self, w1) /\
    files w1 = files w /\ stdout w1 = stdout w /\
    Forall (fun q => exists_in w1 q = true) (session_paths self).
Proof.
  intros self Hcds Hdist Hkeys Hvals Hbase Hpre.
  destruct (ensure_dirs_effect (session_paths self) w) as (w1 & Hrun & Hf & Ho & _).
  exists w1. unfold Experiment_init. rewrite Hcds. cbv zeta. fold self.
  unfold bind at 1. rewrite (initialize_valid self w Hdist Hkeys Hvals), Hbase.
  unfold bind at 1. rewrite Hrun.
  rewrite require_tuned_all.
  - repeat split; auto. exact (proj1 (ensure_dirs_exist _ _ _ Hrun)).
  - eapply Forall_impl; [exact Hpre|]. intros d Hd. cbv beta in Hd |- *.
    unfold self. rewrite (param_list_after_dirs config cds d w w1 Hrun). exact Hd.
Qed.

(** The gate, for a distribution of any level: the exception names the
    first prerequisite, in the order of the gate, that has no parameter
    list, also when later ones are missing too.  The gate comes after the
    directory loop: every directory of the session exists by then, though
    no file has been written and nothing printed. *)
Theorem init_gate_first_missing (config : Config.t) (cds : list string) (w : world)
    (pre post : list string) (d : string) :
  let self := Experiment_attrs config cds in
  Config.child_dists config = Some cds ->
  Config.distribution config ∈ distributions ->
  map fst (Config.input_space config) = ["Strength"; "Discount"] ->
  Forall (fun v => exists l, v = PyList l) (map snd (Config.input_space config)) ->
  exists_in w (base_file self) = true ->
  prerequisites (name self) = pre ++ d :: post ->
  Forall (fun d' => exists_in w (get_param_path self d') = true) pre ->
  exists_in w (get_param_path self d) = false ->
  exists w1,
    Experiment_init config w
    = (Raise (Exception ("Please tune " +:+ d +:+ " before " +:+ name self)), w1) /\
    files w1 = files w /\ stdout w1 = stdout w /\
    Forall (fun q => exists_in w1 q = true) (session_paths self).
Proof.
  intros self Hcds Hdist Hkeys Hvals Hbase Hsplit Hpre Hd.
  destruct (ensure_dirs_effect (session_paths self) w) as (w1 & Hrun & Hf & Ho & _).
  exists w1. unfold Experiment_init. rewrite Hcds. cbv zeta. fold self.
  unfold bind at 1. rewrite (initialize_valid self w Hdist Hkeys Hvals), Hbase.
  unfold bind at 1. rewrite Hrun, Hsplit.
  rewrite require_tuned_first_missing;
    [repeat split; auto; exact (proj1 (ensure_dirs_exist _ _ _ Hrun))| |].
  - eapply Forall_impl; [exact Hpre|]. intros d' Hd'. cbv beta in Hd' |- *.
    unfold self. rewrite (param_list_after_dirs config cds d' w w1 Hrun). exact Hd'.
  - unfold self. rewrite (param_list_after_dirs config cds d w w1 Hrun). exact Hd.
Qed.

(** Building the session a second time changes nothing: the directories
    are there, and the same session object comes back. *)
Theorem init_twice (config : Config.t) (self : Experiment) (w w1 : world) :
  Experiment_init config w = (Ok self, w1) ->
  Experiment_init config w1 = (Ok self, w1).
Proof.
  unfold Experiment_init. destruct (Config.child_dists config) as [cds|]; [|discriminate].
  cbv zeta. set (s := Experiment_attrs config cds). unfold bind.
  destruct (initialize s w) as [[[]|e] w0] eqn:Hinit; [|discriminate].
  unfold ret. intros [= <- <-].
  destruct (initialize_Ok_inv _ _ _ Hinit) as (Hdist & Hkeys & Hvals & Hbase).
  rewrite (initialize_valid s w Hdist Hkeys Hvals), Hbase in Hinit.
  unfold bind in Hinit.
  destruct (for_each (session_paths s) ensure_dir w) as [[[]|e] wd] eqn:Hdirs;
    [|discriminate].
  pose proof (require_tuned_world _ _ _ _ _ Hinit) as ->.
  destruct (ensure_dirs_exist _ _ _ Hdirs) as [Hall Hmono].
  rewrite (initialize_valid s wd Hdist Hkeys Hvals), (Hmono _ Hbase).
  unfold bind. rewrite (ensure_dirs_noop _ _ Hall), Hinit. reflexivity.
Qed.

End Construction.

Lemma init_unknown_distribution_witness :
  Experiment_init (Config.init "adj" (Some Demo.grid) "basefile.json" "experiment" None)
    Demo.fresh
  = (Raise (Exception "config.distribution must be either 'vb', 'nn', 'nn.arg0', 'nn.arg1', 'nn.arg0.$y0', or 'nn.arg1.$y0'"),
     Demo.fresh).
Proof.
  apply (init_unknown_distribution
           (Config.init "adj" (Some Demo.grid) "basefile.json" "experiment" None)
           ["adj"] Demo.fresh).
  - reflexivity.
  - apply (bool_decide_unpack _). vm_compute. exact I.
Defined.

Lemma init_non_list_value_witness :
  Experiment_init
    (Config.init "nn"
       (Some [("Strength", PyList [0%Q]);
              ("Discount", PyOther "[0.  0.1]" "<class 'numpy.ndarray'>")])
       "basefile.json" "experiment" None) Demo.fresh
  = (Raise (Exception "config.input_space values must be lists"),
     World (dirs Demo.fresh) (files Demo.fresh)
       (stdout Demo.fresh ++ ["[0.  0.1]"; "<class 'numpy.ndarray'>"])).
Proof.
  apply (init_non_list_value
           (Config.init "nn"
              (Some [("Strength", PyList [0%Q]);
                     ("Discount", PyOther "[0.  0.1]" "<class 'numpy.ndarray'>")])
              "basefile.json" "experiment" None)
           ["nn"] Demo.fresh [PyList [0%Q]] []).
  - reflexivity.
  - apply (bool_decide_unpack _). vm_compute. exact I.
  - reflexivity.
  - reflexivity.
  - repeat constructor. eexists; reflexivity.
Defined.

Lemma init_missing_base_witness :
  Experiment_init (Demo.config "nn") (World ∅ ∅ [])
  = (Raise (Exception (base_file (Experiment_attrs (Demo.config "nn") ["nn"])
                       +:+ " path doesn't exist")),
     World ∅ ∅ []).
Proof.
  apply (init_missing_base (Demo.config "nn") ["nn"] (World ∅ ∅ [])).
  - reflexivity.
  - apply (bool_decide_unpack _). vm_compute. exact I.
  - reflexivity.
  - repeat constructor; eexists; reflexivity.
  - vm_compute. reflexivity.
Defined.

Lemma init_succeeds_witness :
  exists w1,
    Experiment_init (Demo.config "nn.arg0") (with_param_lists ["vb"; "nn"] Demo.fresh)
    = (Ok (Experiment_attrs (Demo.config "nn.arg0") ["nn.arg0"]), w1) /\
    files w1 = files (with_param_lists ["vb"; "nn"] Demo.fresh) /\
    stdout w1 = stdout (with_param_lists ["vb"; "nn"] Demo.fresh) /\
    Forall (fun q => exists_in w1 q = true)
      (session_paths (Experiment_attrs (Demo.config "nn.arg0") ["nn.arg0"])).
Proof.
  apply (init_succeeds (Demo.config "nn.arg0") ["nn.arg0"]
           (with_param_lists ["vb"; "nn"] Demo.fresh)).
  - reflexivity.
  - apply (bool_decide_unpack _). vm_compute. exact I.
  - reflexivity.
  - repeat constructor; eexists; reflexivity.
  - vm_compute. reflexivity.
  - repeat constructor; vm_compute; reflexivity.
Defined.

Lemma init_gate_first_missing_witness :
  exists w1,
    Experiment_init (Demo.config "nn.arg0") (with_param_lists ["vb"] Demo.fresh)
    = (Raise (Exception ("Please tune " +:+ "nn" +:+ " before "
                         +:+ name (Experiment_attrs (Demo.config "nn.arg0") ["nn.arg0"]))),
       w1) /\
    files w1 = files (with_param_lists ["vb"] Demo.fresh) /\
    stdout w1 = stdout (with_param_lists ["vb"] Demo.fresh) /\
    Forall (fun q => exists_in w1 q = true)
      (session_paths (Experiment_attrs (Demo.config "nn.arg0") ["nn.arg0"])).
Proof.
  apply (init_gate_first_missing (Demo.config "nn.arg0") ["nn.arg0"]
           (with_param_lists ["vb"] Demo.fresh) ["vb"] [] "nn").
  - reflexivity.
  - apply (bool_decide_unpack _). vm_compute. exact I.
  - reflexivity.
  - repeat constructor; eexists; reflexivity.
  - vm_compute. reflexivity.
  - vm_compute. reflexivity.
  - repeat constructor; vm_compute; reflexivity.
  - vm_compute. reflexivity.
Defined.

Lemma init_twice_witness :
  Experiment_init (Demo.config "nn") (Experiment_init (Demo.config "nn") Demo.fresh).2
  = (Ok (Demo.session "nn"), (Experiment_init (Demo.config "nn") Demo.fresh).2).
Proof.
  apply (init_twice (Demo.config "nn") (Demo.session "nn") Demo.fresh).
  vm_compute. reflexivity.
Defined.

(** ** More on the derivation *)

Lemma dict_set_keys {V} (k : string) (v : V) (m : list (string * V)) :
  dict_get String.eqb k m <> None ->
  map fst (dict_set String.eqb k v m) = map fst m.
Proof.
  induction m as [|[k0 v0] m IH]; cbn [dict_get dict_set]; [contradiction|].
  destruct (String.eqb_spec k k0) as [->|Hne]; cbn [map fst]; [reflexivity|].
  intros Hk. rewrite (IH Hk). reflexivity.
Qed.

(** A pass over one key keeps the keys of the document, in their order,
    and the values of the other keys. *)
Lemma update_items_frame (key : string) (body : json -> result json)
    (ms : list (string * json)) (doc1 : json) :
  update_items key body (JObj ms) = Ok doc1 ->
  exists ms1,
    doc1 = JObj ms1 /\ map fst ms1 = map fst ms /\
    (forall k, k <> key -> dict_get String.eqb k ms1 = dict_get String.eqb k ms).
Proof.
  intros H1. destruct (update_items_inv _ _ _ _ H1) as (ms0 & v & [= <-] & Hv).
  rewrite (update_items_obj _ _ _ _ Hv) in H1.
  destruct v; cbv beta iota in H1;
    try (apply rbind_Ok in H1 as (its & _ & H1);
         apply rbind_Ok in H1 as (r & _ & [= Hd]); subst doc1;
         exists ms; repeat split; reflexivity).
  apply rbind_Ok in H1 as (items1 & _ & [= Hd]); subst doc1.
  eexists; split; [reflexivity|]. split.
  - apply dict_set_keys. congruence.
  - intros k Hk. apply dict_get_set_other. exact Hk.
Qed.

(** The derivation keeps the keys of the template, in their order, and
    everything that is not under [distributions] or [rules]. *)
Theorem derive_frame (self : Experiment) (strength discount : Q) (doc doc' : json) :
  derive self strength discount doc = Ok doc' ->
  exists ms ms',
    doc = JObj ms /\ doc' = JObj ms' /\ map fst ms' = map fst ms /\
    (forall k, k <> "distributions" -> k <> "rules" ->
       dict_get String.eqb k ms' = dict_get String.eqb k ms).
Proof.
  unfold derive. intros Hd. apply rbind_Ok in Hd as (docA & HA & HB).
  destruct (update_items_inv _ _ _ _ HA) as (ms & v & -> & _).
  destruct (update_items_frame _ _ _ _ HA) as (msA & -> & HkA & HfA).
  destruct (update_items_frame _ _ _ _ HB) as (ms' & -> & HkB & HfB).
  exists ms, ms'. repeat split; [congruence|].
  intros k Hk1 Hk2. rewrite (HfB k Hk2). apply HfA. exact Hk1.
Qed.

Lemma set_dist_params_obj (self : Experiment) (strength discount : Q) (x x' : json) :
  set_dist_params self strength discount x = Ok x' ->
  exists ms n,
    x = JObj ms /\ dict_get String.eqb "name" ms = Some n /\
    x' = if existsb (json_eq_str n) (child_dists self)
         then JObj (dict_set String.eqb "discount" (JNum discount)
                      (dict_set String.eqb "strength" (JNum strength) ms))
         else x.
Proof.
  unfold set_dist_params, getitem. destruct x as [| | | | |ms]; try discriminate.
  destruct (dict_get String.eqb "name" ms) as [n|] eqn:Hn; [|discriminate].
  cbn [rbind]. intros Hx. exists ms, n. split; [reflexivity|]. split; [exact Hn|].
  destruct (existsb (json_eq_str n) (child_dists self));
    cbn [setitem rbind] in Hx; injection Hx as <-; reflexivity.
Qed.

(** What the derivation does to the distribution records: a record whose
    name is among the child distributions gets the pair as its strength and
    discount and keeps its other fields; any other record is left as it
    is. *)
Theorem derive_distributions (self : Experiment) (strength discount : Q)
    (doc doc' : json) (ds : list json) :
  derive self strength discount doc = Ok doc' ->
  getitem doc "distributions" = Ok (JArr ds) ->
  exists ds',
    getitem doc' "distributions" = Ok (JArr ds') /\
    Forall2 (fun x x' =>
      exists n,
        getitem x "name" = Ok n /\
        (existsb (json_eq_str n) (child_dists self) = true ->
         getitem x' "strength" = Ok (JNum strength) /\
         getitem x' "discount" = Ok (JNum discount) /\
         (forall k, k <> "strength" -> k <> "discount" ->
            getitem x' k = getitem x k)) /\
        (existsb (json_eq_str n) (child_dists self) = false -> x' = x))
      ds ds'.
Proof.
  unfold derive. intros Hd Hds. apply rbind_Ok in Hd as (docA & HA & HB).
  destruct (update_items_inv _ _ _ _ HA) as (ms & v & -> & Hv).
  unfold getitem in Hds. rewrite Hv in Hds. injection Hds as ->.
  rewrite (update_items_obj _ _ _ _ Hv) in HA.
  apply rbind_Ok in HA as (ds' & Hmap & [= <-]).
  exists ds'. split.
  - rewrite (update_items_other "rules" "distributions" _ _ _ ltac:(discriminate) HB).
    unfold getitem. rewrite dict_get_set_same. reflexivity.
  - apply rmap_Ok_Forall2 in Hmap. eapply Forall2_impl; [exact Hmap|].
    intros x x' Hx. cbv beta in Hx.
    apply set_dist_params_obj in Hx as (m & n & -> & Hn & ->).
    exists n. unfold getitem at 1. rewrite Hn. split; [reflexivity|].
    destruct (existsb (json_eq_str n) (child_dists self)); split;
      try discriminate; intros _; [|reflexivity].
    unfold getitem. split; [|split].
    + rewrite dict_get_set_other, dict_get_set_same by discriminate. reflexivity.
    + rewrite dict_get_set_same. reflexivity.
    + intros k Hk1 Hk2. rewrite !dict_get_set_other by assumption. reflexivity.
Qed.

Lemma assign_weights_other (self : Experiment) (p : json) (k : string)
    (ms : list (string * json)) :
  k <> "base_weight" ->
  dict_get String.eqb k (assign_weights self p ms) = dict_get String.eqb k ms.
Proof.
  intros Hk. unfold assign_weights, assign_weight.
  repeat match goal with
         | |- context [if ?b then _ else _] => destruct b
         end; rewrite ?dict_get_set_other by exact Hk; reflexivity.
Qed.

Lemma assign_weights_none (self : Experiment) (p : json) (ms : list (string * json)) :
  json_eq_str p ARG0_NOUN_RULE = false -> json_eq_str p ARG0_PRON_RULE = false ->
  json_eq_str p ARG1_NOUN_RULE = false -> json_eq_str p ARG1_PRON_RULE = false ->
  assign_weights self p ms = ms.
Proof.
  intros E1 E2 E3 E4. unfold assign_weights, assign_weight.
  rewrite E1, E2, E3, E4. reflexivity.
Qed.

(** What the derivation does to the rules besides the pronoun weights:
    unless the verb distribution is tuned, the entity rule gets the child
    distributions that the table [zdists] registers for the distribution;
    no other rule has its [zdists] touched; a rule with none of the five
    patterns is left as it is; and no field but [zdists] and [base_weight]
    is ever written. *)
Theorem derive_rules (self : Experiment) (strength discount : Q)
    (doc doc' : json) (rules : list json) :
  derive self strength discount doc = Ok doc' ->
  getitem doc "rules" = Ok (JArr rules) ->
  exists rules',
    getitem doc' "rules" = Ok (JArr rules') /\
    Forall2 (fun r r' =>
      exists p,
        getitem r "rule" = Ok p /\
        (dist self <> "vb" -> json_eq_str p ENTITY_RULE = true ->
         exists z, zdists_getitem (dist self) = Ok z /\ getitem r' "zdists" = Ok z) /\
        (dist self = "vb" \/ json_eq_str p ENTITY_RULE = false ->
         getitem r' "zdists" = getitem r "zdists") /\
        (dist self = "vb" \/ json_eq_str p ENTITY_RULE = false ->
         json_eq_str p ARG0_NOUN_RULE = false -> json_eq_str p ARG0_PRON_RULE = false ->
         json_eq_str p ARG1_NOUN_RULE = false -> json_eq_str p ARG1_PRON_RULE = false ->
         r' = r) /\
        (forall k, k <> "zdists" -> k <> "base_weight" -> getitem r' k = getitem r k))
      rules rules'.
Proof.
  unfold derive. intros Hd Hrules. apply rbind_Ok in Hd as (docA & HA & HB).
  rewrite <- (update_items_other "distributions" "rules" _ doc docA
                ltac:(discriminate) HA) in Hrules.
  destruct (update_items_inv _ _ _ _ HB) as (msA & v & -> & Hv).
  unfold getitem in Hrules. rewrite Hv in Hrules. injection Hrules as ->.
  rewrite (update_items_obj _ _ _ _ Hv) in HB.
  apply rbind_Ok in HB as (rules' & Hmap & [= <-]).
  exists rules'. split.
  { unfold getitem. rewrite dict_get_set_same. reflexivity. }
  apply rmap_Ok_Forall2 in Hmap. eapply Forall2_impl; [exact Hmap|].
  intros r r' Hr. cbv beta in Hr.
  destruct (set_rule_inv _ _ _ Hr) as (ms & p & -> & Hp).
  rewrite (set_rule_obj self p ms Hp) in Hr.
  apply rbind_Ok in Hr as (ms1 & Hz & [= <-]).
  exists p. unfold getitem. rewrite Hp. split; [reflexivity|].
  assert (Hvb : dist self = "vb" \/ json_eq_str p ENTITY_RULE = false -> ms1 = ms).
  { intros Hcase. unfold assign_zdists in Hz.
    destruct Hcase as [Hcase|Hcase]; rewrite Hcase in Hz;
      [|rewrite andb_false_r in Hz]; cbn in Hz; congruence. }
  split; [|split; [|split]].
  - intros Hnvb He. unfold assign_zdists in Hz.
    apply String.eqb_neq in Hnvb. rewrite Hnvb, He in Hz. cbn [negb andb] in Hz.
    apply rbind_Ok in Hz as (z & Hzd & [= <-]). exists z. split; [exact Hzd|].
    rewrite assign_weights_other, dict_get_set_same by discriminate. reflexivity.
  - intros Hcase. rewrite (Hvb Hcase), assign_weights_other by discriminate.
    reflexivity.
  - intros Hcase E1 E2 E3 E4. rewrite (Hvb Hcase), assign_weights_none by assumption.
    reflexivity.
  - intros k Hk1 Hk2. rewrite assign_weights_other by exact Hk2.
    unfold assign_zdists in Hz. destruct (_ && _) in Hz.
    + apply rbind_Ok in Hz as (z & _ & [= <-]).
      rewrite dict_get_set_other by exact Hk1. reflexivity.
    + injection Hz as <-. reflexivity.
Qed.

Lemma derive_frame_witness :
  exists ms ms',
    Demo.base = JObj ms /\ Demo.derived_vb = JObj ms' /\ map fst ms' = map fst ms /\
    (forall k, k <> "distributions" -> k <> "rules" ->
       dict_get String.eqb k ms' = dict_get String.eqb k ms).
Proof.
  apply (derive_frame (Demo.session "vb") 50%Q (Qmake 1 2) Demo.base Demo.derived_vb).
  vm_compute. reflexivity.
Defined.

Lemma derive_distributions_witness :
  exists ds',
    getitem derived_nn "distributions" = Ok (JArr ds') /\
    Forall2 (fun x x' =>
      exists n,
        getitem x "name" = Ok n /\
        (existsb (json_eq_str n) (child_dists (Demo.session "nn")) = true ->
         getitem x' "strength" = Ok (JNum 50%Q) /\
         getitem x' "discount" = Ok (JNum (Qmake 1 2)) /\
         (forall k, k <> "strength" -> k <> "discount" ->
            getitem x' k = getitem x k)) /\
        (existsb (json_eq_str n) (child_dists (Demo.session "nn")) = false -> x' = x))
      [ JObj [("name", JStr "nn"); ("strength", JNum 1); ("discount", JNum 0)];
        JObj [("name", JStr "vb"); ("strength", JNum 2); ("discount", JNum 0)] ]
      ds'.
Proof.
  apply (derive_distributions (Demo.session "nn") 50%Q (Qmake 1 2) Demo.base derived_nn).
  - vm_compute. reflexivity.
  - reflexivity.
Defined.

Lemma derive_rules_witness :
  exists rules',
    getitem derived_nn "rules" = Ok (JArr rules') /\
    Forall2 (fun r r' =>
      exists p,
        getitem r "rule" = Ok p /\
        (dist (Demo.session "nn") <> "vb" -> json_eq_str p ENTITY_RULE = true ->
         exists z, zdists_getitem (dist (Demo.session "nn")) = Ok z /\
                   getitem r' "zdists" = Ok z) /\
        (dist (Demo.session "nn") = "vb" \/ json_eq_str p ENTITY_RULE = false ->
         getitem r' "zdists" = getitem r "zdists") /\
        (dist (Demo.session "nn") = "vb" \/ json_eq_str p ENTITY_RULE = false ->
         json_eq_str p ARG0_NOUN_RULE = false -> json_eq_str p ARG0_PRON_RULE = false ->
         json_eq_str p ARG1_NOUN_RULE = false -> json_eq_str p ARG1_PRON_RULE = false ->
         r' = r) /\
        (forall k, k <> "zdists" -> k <> "base_weight" -> getitem r' k = getitem r k))
      Demo.base_rules rules'.
Proof.
  apply (derive_rules (Demo.session "nn") 50%Q (Qmake 1 2) Demo.base derived_nn).
  - vm_compute. reflexivity.
  - reflexivity.
Defined.

(** ** The configuration files *)

Section ConfigFiles.
Context `{Env}.

Lemma create_json_configs_loop_files (self : Experiment) (base : json)
    (parameters : list (Q * Q)) (doc doc' : json) (w w' : world) :
  (forall s d, derive self s d doc = derive self s d base) ->
  create_json_configs_loop self parameters doc w = (Ok doc', w') ->
  dirs w' = dirs w /\ stdout w' = stdout w /\
  (forall s d, (s, d) ∈ parameters ->
     exists s' d' derived,
       (s', d') ∈ parameters /\
       new_file_name self s' d' = new_file_name self s d /\
       derive self s' d' base = Ok derived /\
       files w' !! new_file_name self s d = Some (json_dump derived)) /\
  (forall path,
     (forall s d, (s, d) ∈ parameters -> path <> new_file_name self s d) ->
     files w' !! path = files w !! path).
Proof.
  revert doc w; induction parameters as [|[s0 d0] rest IH]; intros doc w Hdoc Hrun.
  - cbn in Hrun. injection Hrun as <- <-.
    split; [reflexivity|]. split; [reflexivity|]. split.
    + intros s d Hin. inversion Hin.
    + intros path _. reflexivity.
  - cbn [create_json_configs_loop] in Hrun. unfold bind, lift, write_file in Hrun.
    rewrite (Hdoc s0 d0) in Hrun.
    destruct (derive self s0 d0 base) as [doc1|e] eqn:Hd0; [|discriminate].
    assert (Hdoc1 : forall s d, derive self s d doc1 = derive self s d base).
    { intros s d. rewrite <- (Hdoc s d). apply (derive_overwrite self s0 d0).
      rewrite (Hdoc s0 d0). exact Hd0. }
    destruct (IH _ _ Hdoc1 Hrun) as (Hdirs & Hout & Hfiles & Hframe).
    cbn [dirs files stdout] in Hdirs, Hout, Hframe.
    split; [exact Hdirs|]. split; [exact Hout|]. split.
    + intros s d Hin.
      destruct (decide (Exists (fun q => new_file_name self (fst q) (snd q)
                                         = new_file_name self s d) rest)) as [Hlater|Hnone].
      * apply Exists_exists in Hlater as ([s1 d1] & Hin1 & Hname). cbn [fst snd] in Hname.
        destruct (Hfiles s1 d1 Hin1) as (s' & d' & derived & Hin' & Hn' & Hd' & Hf').
        exists s', d', derived. split; [right; exact Hin'|].
        split; [congruence|]. split; [exact Hd'|]. rewrite <- Hname. exact Hf'.
      * apply elem_of_cons in Hin as [[= -> ->]|Hin].
        -- exists s0, d0, doc1. split; [left|]. split; [reflexivity|].
           split; [exact Hd0|]. rewrite Hframe.
           ++ apply lookup_insert_eq.
           ++ intros s d Hin Heq. apply Hnone, Exists_exists.
              exists (s, d). split; [exact Hin|]. symmetry. exact Heq.
        -- exfalso. apply Hnone, Exists_exists. exists (s, d). split; [exact Hin|reflexivity].
    + intros path Hpath. rewrite Hframe.
      * apply lookup_insert_ne. apply not_eq_sym, (Hpath s0 d0). left.
      * intros s d Hin. apply Hpath. right. exact Hin.
Qed.

(** After the loop over the parameters every pair has its configuration
    file, and the file holds a derivation from the base as it was loaded:
    that of a pair with this file name (pairs whose truncated strength
    and discount coincide share a file).  No other file, no directory and
    no output is touched. *)
Theorem create_json_configs_loop_writes (self : Experiment) (base doc' : json)
    (parameters : list (Q * Q)) (w w' : world) :
  create_json_configs_loop self parameters base w = (Ok doc', w') ->
  dirs w' = dirs w /\ stdout w' = stdout w /\
  (forall s d, (s, d) ∈ parameters ->
     exists s' d' derived,
       (s', d') ∈ parameters /\
       new_file_name self s' d' = new_file_name self s d /\
       derive self s' d' base = Ok derived /\
       files w' !! new_file_name self s d = Some (json_dump derived)) /\
  (forall path,
     (forall s d, (s, d) ∈ parameters -> path <> new_file_name self s d) ->
     files w' !! path = files w !! path).
Proof. apply create_json_configs_loop_files. reflexivity. Qed.

End ConfigFiles.

Section SetupComposition.
Context `{Env}.

Lemma create_json_configs_loop_total (self : Experiment) (base : json)
    (parameters : list (Q * Q)) (doc : json) (w : world) :
  (forall s d, derive self s d doc = derive self s d base) ->
  (forall s d, exists derived, derive self s d base = Ok derived) ->
  exists doc' w', create_json_configs_loop self parameters doc w = (Ok doc', w').
Proof.
  intros Hdoc Htotal. revert doc w Hdoc.
  induction parameters as [|[s0 d0] rest IH]; intros doc w Hdoc.
  - eexists _, _. reflexivity.
  - cbn [create_json_configs_loop]. unfold bind, lift, write_file.
    rewrite (Hdoc s0 d0). destruct (Htotal s0 d0) as [doc1 Hd0]. rewrite Hd0.
    apply IH. intros s d. rewrite <- (Hdoc s d). apply (derive_overwrite self s0 d0).
    rewrite (Hdoc s0 d0). exact Hd0.
Qed.

(** The first two steps of [setup] compose: on a base template of the
    expected shape, with numbers that print and read back, writing the
    parameter list and then deriving the configurations succeeds, and
    every pair of the grid has its configuration file afterwards. *)
Theorem setup_writes_all_configs (self : Experiment) (S D : list Q) (w : world)
    (text : string) (ms : list (string * json)) (ds rs : list json) :
  input_space self = [("Strength", PyList S); ("Discount", PyList D)] ->
  (forall x, x ∈ S ++ D -> prints_and_reads x) ->
  dist self ∈ distributions ->
  param_path self <> base_file self ->
  files w !! base_file self = Some text ->
  json_load text = Some (JObj ms) ->
  dict_get String.eqb "distributions" ms = Some (JArr ds) ->
  dict_get String.eqb "rules" ms = Some (JArr rs) ->
  Forall (fun x => exists m n, x = JObj m /\ dict_get String.eqb "name" m = Some n) ds ->
  Forall (fun r => exists m p, r = JObj m /\ dict_get String.eqb "rule" m = Some p) rs ->
  exists w',
    (create_param_space self ;;; create_json_configs self) w = (Ok tt, w') /\
    (forall s d, s ∈ S -> d ∈ D ->
       is_Some (files w' !! new_file_name self s d)).
Proof.
  intros Hsp Hnum Hdist Hne Hbase Hload Hds Hrs Hnames Hrules.
  assert (Hgrid : Forall (fun pair => prints_and_reads (fst pair) /\
                                      prints_and_reads (snd pair)) (param_pairs S D)).
  { apply Forall_forall. intros [s d] Hin.
    apply param_pairs_elem in Hin as [Hs Hd].
    split; apply Hnum; apply elem_of_app; [left|right]; assumption. }
  assert (Htotal : forall s d, exists derived, derive self s d (JObj ms) = Ok derived).
  { intros s d. exact (derive_total self s d ms ds rs Hdist Hds Hrs Hnames Hrules). }
  unfold bind at 1. unfold create_param_space, bind, lift.
  rewrite Hsp, generate_pairs_lists. unfold write_file.
  unfold create_json_configs. unfold bind at 1.
  unfold read_parameters, bind at 1, read_file. cbn [files].
  rewrite lookup_insert_eq. unfold lift.
  rewrite (param_text_round_trip _ Hgrid).
  unfold bind at 1. unfold load_base, bind, read_file. cbn [files].
  rewrite lookup_insert_ne by exact Hne. rewrite Hbase, Hload. unfold ret at 1.
  match goal with |- context [create_json_configs_loop self _ _ ?w0] =>
    destruct (create_json_configs_loop_total self (JObj ms) (param_pairs S D)
                (JObj ms) w0 ltac:(reflexivity) Htotal) as (doc' & w' & Hloop)
  end.
  rewrite Hloop. exists w'. split; [reflexivity|].
  intros s d Hs Hd.
  destruct (create_json_configs_loop_files self (JObj ms) (param_pairs S D) (JObj ms)
              doc' _ w' ltac:(reflexivity) Hloop) as (_ & _ & Hfiles & _).
  destruct (Hfiles s d) as (s' & d' & derived & _ & _ & _ & Hf).
  - unfold param_pairs. apply list_elem_of_In, in_flat_map. exists s.
    split; [apply list_elem_of_In; exact Hs|].
    apply in_map. apply list_elem_of_In. exact Hd.
  - rewrite Hf. eauto.
Qed.

End SetupComposition.

Lemma setup_writes_all_configs_witness :
  exists w',
    (create_param_space (Demo.session "nn") ;;; create_json_configs (Demo.session "nn"))
      Demo.fresh = (Ok tt, w') /\
    (forall s d, s ∈ [0; 50]%Q -> d ∈ [0; Qmake 1 2]%Q ->
       is_Some (files w' !! new_file_name (Demo.session "nn") s d)).
Proof.
  apply (setup_writes_all_configs (Demo.session "nn") [0; 50]%Q [0; Qmake 1 2]%Q
           Demo.fresh (Demo.dump Demo.base)
           [ ("distributions",
              JArr [ JObj [("name", JStr "nn"); ("strength", JNum 1); ("discount", JNum 0)];
                     JObj [("name", JStr "vb"); ("strength", JNum 2); ("discount", JNum 0)] ]);
             ("rules", JArr Demo.base_rules) ]
           [ JObj [("name", JStr "nn"); ("strength", JNum 1); ("discount", JNum 0)];
             JObj [("name", JStr "vb"); ("strength", JNum 2); ("discount", JNum 0)] ]
           Demo.base_rules).
  - reflexivity.
  - intros x Hx.
    repeat (apply elem_of_cons in Hx as [->|Hx]);
      [split; vm_compute; reflexivity..|inversion Hx].
  - apply (bool_decide_unpack _). vm_compute. exact I.
  - vm_compute. discriminate.
  - vm_compute. reflexivity.
  - vm_compute. reflexivity.
  - reflexivity.
  - reflexivity.
  - repeat constructor; eexists _, _; split; reflexivity.
  - repeat constructor; eexists _, _; split; reflexivity.
Defined.

Lemma create_json_configs_loop_writes_witness :
  let w' := (create_json_configs_loop (Demo.session "nn")
               [(0, 0); (50, Qmake 1 2)]%Q Demo.base Demo.fresh).2 in
  dirs w' = dirs Demo.fresh /\ stdout w' = stdout Demo.fresh /\
  (forall s d, (s, d) ∈ [(0, 0); (50, Qmake 1 2)]%Q ->
     exists s' d' derived,
       (s', d') ∈ [(0, 0); (50, Qmake 1 2)]%Q /\
       new_file_name (Demo.session "nn") s' d' = new_file_name (Demo.session "nn") s d /\
       derive (Demo.session "nn") s' d' Demo.base = Ok derived /\
       files w' !! new_file_name (Demo.session "nn") s d = Some (json_dump derived)) /\
  (forall path,
     (forall s d, (s, d) ∈ [(0, 0); (50, Qmake 1 2)]%Q ->
        path <> new_file_name (Demo.session "nn") s d) ->
     files w' !! path = files Demo.fresh !! path).
Proof.
  apply (create_json_configs_loop_writes (Demo.session "nn") Demo.base derived_nn
           [(0, 0); (50, Qmake 1 2)]%Q Demo.fresh).
  vm_compute. reflexivity.
Defined.

(** ** More on [get_peranto_data] *)

Lemma read_triples_run (path : string) (w : world) :
  read_triples path w
  = (match files w !! path with
     | Some text => rmap parse_triple (readlines text)
     | None => Raise (FileNotFoundError path)
     end, w).
Proof.
  unfold read_triples, bind, read_file, lift.
  destruct (files w !! path); reflexivity.
Qed.

Lemma pair_eqb_sym (p q : Q * Q) : pair_eqb p q = pair_eqb q p.
Proof.
  unfold pair_eqb.
  assert (Hsym : forall a b, Qeq_bool a b = Qeq_bool b a).
  { intros a b. destruct (Qeq_bool a b) eqn:E1, (Qeq_bool b a) eqn:E2; try reflexivity.
    - apply Qeq_bool_iff in E1. symmetry in E1. apply Qeq_bool_iff in E1. congruence.
    - apply Qeq_bool_iff in E2. symmetry in E2. apply Qeq_bool_iff in E2. congruence. }
  rewrite (Hsym (fst p)), (Hsym (snd p)). reflexivity.
Qed.

Lemma dict_set_fresh {V} (k : Q * Q) (v : V) (m : list (Q * Q * V)) :
  dict_get pair_eqb k m = None -> dict_set pair_eqb k v m = m ++ [(k, v)].
Proof.
  induction m as [|[k0 v0] m IH]; cbn [dict_get dict_set app]; [reflexivity|].
  destruct (pair_eqb k k0); [discriminate|]. intros Hk. rewrite (IH Hk). reflexivity.
Qed.

Lemma dict_get_snoc {V} (k k' : Q * Q) (v : V) (m : list (Q * Q * V)) :
  dict_get pair_eqb k m = None -> pair_eqb k k' = false ->
  dict_get pair_eqb k (m ++ [(k', v)]) = None.
Proof.
  intros Hm Hk. induction m as [|[k0 v0] m IH]; cbn [dict_get app] in Hm |- *.
  - rewrite Hk. reflexivity.
  - destruct (pair_eqb k k0); [discriminate|]. exact (IH Hm).
Qed.

Section PerantoData.
Context `{Env}.

(** One unreadable output file is enough: if the file of some pair is
    missing, or has a line with fewer than three fields, the loop returns
    [None] for the whole grid. *)
Lemma get_peranto_data_loop_unreadable (self : Experiment)
    (parameters : list (Q * Q)) (data : list (Q * Q * list observation))
    (w : world) (strength discount : Q) (e : exn) :
  (strength, discount) ∈ parameters ->
  (read_triples (output_file self strength discount) w).1 = Raise e ->
  (get_peranto_data_loop self parameters data w).1 = Ok None.
Proof.
  revert data w; induction parameters as [|[s0 d0] rest IH]; intros data w Hin Hbad.
  - inversion Hin.
  - cbn [get_peranto_data_loop].
    unfold bind at 1. unfold try_except at 1. unfold bind at 1.
    rewrite read_triples_run.
    destruct (match files w !! output_file self s0 d0 with
              | Some text => rmap parse_triple (readlines text)
              | None => Raise (FileNotFoundError (output_file self s0 d0))
              end) as [triples|e0] eqn:Hread.
    + unfold ret at 1. unfold try_except, write_file.
      apply elem_of_cons in Hin as [[= -> ->]|Hin].
      { rewrite read_triples_run in Hbad. cbn [fst] in Hbad. congruence. }
      apply IH; [exact Hin|]. rewrite read_triples_run in Hbad |- *.
      cbn [fst files] in Hbad |- *.
      rewrite lookup_insert_ne by apply output_modified_distinct. exact Hbad.
    + destruct e0; reflexivity.
Qed.

(** A line with fewer than three fields in the output file of any pair
    makes [get_peranto_data] return [None], as a missing file does. *)
Theorem get_peranto_data_malformed (self : Experiment) (w : world)
    (parameters : list (Q * Q)) (strength discount : Q)
    (text : string) (line : string) :
  (read_parameters self w).1 = Ok parameters ->
  (strength, discount) ∈ parameters ->
  files w !! output_file self strength discount = Some text ->
  line ∈ readlines text ->
  length (split_ws line) < 3 ->
  (get_peranto_data self w).1 = Ok None.
Proof.
  intros Hread Hin Hfile Hline Hshort.
  assert (Hbad : exists e, rmap parse_triple (readlines text) = Raise e).
  { induction (readlines text) as [|l ls IH]; [inversion Hline|].
    cbn [rmap]. apply elem_of_cons in Hline as [<-|Hline].
    - exists IndexError. unfold parse_triple, index.
      destruct (split_ws line) as [|a [|b [|c rest]]]; cbn in Hshort |- *;
        [reflexivity..|lia].
    - destruct (parse_triple l) as [t|e]; [|exists e; reflexivity]. cbn [rbind].
      destruct (IH Hline) as [e ->]. exists e. reflexivity. }
  destruct Hbad as [e Hbad].
  unfold get_peranto_data, bind.
  pose proof (read_parameters_world self w) as Hw.
  destruct (read_parameters self w) as [r w0]. cbn [fst snd] in Hread, Hw. subst r w0.
  eapply get_peranto_data_loop_unreadable; [exact Hin|].
  rewrite read_triples_run, Hfile. exact Hbad.
Qed.

Lemma get_peranto_data_loop_readable (self : Experiment)
    (parameters : list (Q * Q)) (tripless : list (list triple))
    (data : list (Q * Q * list observation)) (w : world) :
  Forall2 (fun p triples =>
    (read_triples (output_file self (fst p) (snd p)) w).1 = Ok triples)
    parameters tripless ->
  distinct_pairs parameters = true ->
  (forall p, p ∈ parameters -> dict_get pair_eqb p data = None) ->
  exists w',
    get_peranto_data_loop self parameters data w
    = (Ok (Some (data ++ zip_with (fun p triples =>
                     (p, peranto_get (dist self) triples)) parameters tripless)), w') /\
    dirs w' = dirs w /\ stdout w' = stdout w /\
    (forall s d, files w' !! output_file self s d = files w !! output_file self s d).
Proof.
  intros Hall. revert data w Hall.
  induction parameters as [|[s0 d0] rest IH] in tripless |- *;
    intros data w Hall Hdistinct Hfresh.
  - inversion Hall; subst. exists w. cbn. rewrite app_nil_r. auto.
  - inversion Hall as [|p t ps ts Hhead Htail]; subst. cbn [fst snd] in Hhead.
    cbn [distinct_pairs] in Hdistinct.
    apply andb_true_iff in Hdistinct as [Hd0 Hdistinct].
    cbn [get_peranto_data_loop].
    unfold bind at 1. unfold try_except at 1. unfold bind at 1.
    rewrite read_triples_run in Hhead |- *. cbn [fst] in Hhead. rewrite Hhead.
    unfold ret at 1. unfold bind at 1. unfold try_except, write_file.
    match goal with |- context [get_peranto_data_loop self rest ?d ?w0] =>
      destruct (IH ts d w0) as (w' & Hrun & Hdirs & Hout & Hfiles)
    end.
    + eapply Forall2_impl; [exact Htail|]. intros p triples Hp. cbv beta in Hp |- *.
      rewrite read_triples_run in Hp |- *. cbn [fst files] in Hp |- *.
      rewrite lookup_insert_ne by apply output_modified_distinct. exact Hp.
    + exact Hdistinct.
    + intros p Hp. rewrite dict_set_fresh by (apply Hfresh; left).
      apply dict_get_snoc; [apply Hfresh; right; exact Hp|].
      rewrite forallb_forall in Hd0. apply negb_true_iff, Hd0.
      apply list_elem_of_In. exact Hp.
    + exists w'. rewrite Hrun. cbn [dirs files stdout] in Hdirs, Hout, Hfiles.
      rewrite dict_set_fresh by (apply Hfresh; left).
      cbn [zip_with]. rewrite <- app_assoc. split; [reflexivity|].
      split; [exact Hdirs|]. split; [exact Hout|].
      intros s d. rewrite Hfiles.
      apply lookup_insert_ne, output_modified_distinct.
Qed.

(** When the output file of every pair can be read, [get_peranto_data]
    returns one entry per pair, in the order of the parameter list: the
    pair with the projection of the triples of its file.  It creates no
    directory and leaves every output file as it was. *)
Theorem get_peranto_data_readable (self : Experiment) (w : world)
    (parameters : list (Q * Q)) (tripless : list (list triple)) :
  (read_parameters self w).1 = Ok parameters ->
  distinct_pairs parameters = true ->
  Forall2 (fun p triples =>
    (read_triples (output_file self (fst p) (snd p)) w).1 = Ok triples)
    parameters tripless ->
  exists w',
    get_peranto_data self w
    = (Ok (Some (zip_with (fun p triples =>
                   (p, peranto_get (dist self) triples)) parameters tripless)), w') /\
    dirs w' = dirs w /\
    (forall s d, files w' !! output_file self s d = files w !! output_file self s d).
Proof.
  intros Hread Hdistinct Hall.
  unfold get_peranto_data, bind.
  pose proof (read_parameters_world self w) as Hw.
  destruct (read_parameters self w) as [r w0]. cbn [fst snd] in Hread, Hw. subst r w0.
  destruct (get_peranto_data_loop_readable self parameters tripless [] w Hall Hdistinct
              ltac:(reflexivity)) as (w' & Hrun & Hdirs & _ & Hfiles).
  exists w'. auto.
Qed.

End PerantoData.

Lemma get_peranto_data_malformed_witness :
  (get_peranto_data (Demo.session "nn")
     (with_output (50, 0)%Q ("he eat" +:+ LF)
        (Demo.evaluation_world [(0, 0); (0, Qmake 1 2); (50, Qmake 1 2)]%Q))).1
  = Ok None.
Proof.
  apply (get_peranto_data_malformed (Demo.session "nn")
           (with_output (50, 0)%Q ("he eat" +:+ LF)
              (Demo.evaluation_world [(0, 0); (0, Qmake 1 2); (50, Qmake 1 2)]%Q))
           [(0, 0); (0, Qmake 1 2); (50, 0); (50, Qmake 1 2)]%Q 50%Q 0%Q
           ("he eat" +:+ LF) ("he eat" +:+ LF)).
  - vm_compute. reflexivity.
  - apply list_elem_of_further, list_elem_of_further, list_elem_of_here.
  - vm_compute. reflexivity.
  - vm_compute. apply list_elem_of_here.
  - vm_compute. lia.
Defined.

Lemma get_peranto_data_readable_witness :
  exists w',
    get_peranto_data (Demo.session "nn")
      (Demo.evaluation_world [(0, 0); (0, Qmake 1 2); (50, 0); (50, Qmake 1 2)]%Q)
    = (Ok (Some (zip_with (fun p triples =>
                   (p, peranto_get (dist (Demo.session "nn")) triples))
                   [(0, 0); (0, Qmake 1 2); (50, 0); (50, Qmake 1 2)]%Q
                   (replicate 4 Demo.treebank))), w') /\
    dirs w' = dirs (Demo.evaluation_world
                      [(0, 0); (0, Qmake 1 2); (50, 0); (50, Qmake 1 2)]%Q) /\
    (forall s d,
       files w' !! output_file (Demo.session "nn") s d
       = files (Demo.evaluation_world
                  [(0, 0); (0, Qmake 1 2); (50, 0); (50, Qmake 1 2)]%Q)
           !! output_file (Demo.session "nn") s d).
Proof.
  apply (get_peranto_data_readable (Demo.session "nn")
           (Demo.evaluation_world [(0, 0); (0, Qmake 1 2); (50, 0); (50, Qmake 1 2)]%Q)
           [(0, 0); (0, Qmake 1 2); (50, 0); (50, Qmake 1 2)]%Q
           (replicate 4 Demo.treebank)).
  - vm_compute. reflexivity.
  - vm_compute. reflexivity.
  - repeat constructor; vm_compute; reflexivity.
Defined.

(** ** More on the singleton-proportion curve *)

Lemma rmap_raise {A B} (f : A -> result B) (l : list A) (x : A) (e : exn) :
  (forall y e', f y = Raise e' -> e' = e) ->
  x ∈ l -> f x = Raise e -> rmap f l = Raise e.
Proof.
  intros Honly Hin Hx. induction l as [|y l IH]; [inversion Hin|].
  cbn [rmap]. destruct (f y) as [b|e'] eqn:Hy.
  - cbn [rbind]. apply elem_of_cons in Hin as [->|Hin]; [congruence|].
    rewrite (IH Hin). reflexivity.
  - cbn [rbind]. f_equal. exact (Honly y e' Hy).
Qed.

Lemma size_list_to_set_map (g : observation -> item * item) (l : list observation) :
  (forall x y, x ∈ l -> y ∈ l -> g x = g y -> x = y) ->
  size (list_to_set (map g l) : gset (item * item))
  = size (list_to_set l : gset observation).
Proof.
  induction l as [|x l IH]; intros Hinj; [reflexivity|].
  cbn [map list_to_set].
  assert (IH' : size (list_to_set (map g l) : gset (item * item))
                = size (list_to_set l : gset observation)).
  { apply IH. intros a b Ha Hb. apply Hinj; right; assumption. }
  destruct (decide (x ∈ l)) as [Hx|Hx].
  - assert (Hgx : g x ∈ map g l) by (apply list_elem_of_fmap; exists x; auto).
    replace ({[g x]} ∪ list_to_set (map g l) : gset (item * item))
      with (list_to_set (map g l) : gset (item * item)) by set_solver.
    replace ({[x]} ∪ list_to_set l : gset observation)
      with (list_to_set l : gset observation) by set_solver.
    exact IH'.
  - assert (Hgx : g x ∉ map g l).
    { intros Hgx. apply list_elem_of_fmap in Hgx as (y & Hy & Hyl).
      apply Hx. rewrite (Hinj x y); [exact Hyl|left|right; exact Hyl|exact Hy]. }
    assert (Hd1 : ({[g x]} : gset (item * item)) ## list_to_set (map g l)) by set_solver.
    assert (Hd2 : ({[x]} : gset observation) ## list_to_set l) by set_solver.
    rewrite (size_union _ _ Hd1), (size_union _ _ Hd2), !size_singleton, IH'.
    reflexivity.
Qed.

(** The condition under which the unpacking of [get_prop] goes through:
    the first observation has one token, or every observation has two. *)
Lemma unpack_pairs_defined (lst : list observation) (first : observation) :
  lst !! 0 = Some first ->
  length first = 1 \/ Forall (fun x => length x = 2) lst ->
  exists g : observation -> item * item,
    unpack_pairs lst = Ok (map g lst) /\
    (forall x y, x ∈ lst -> y ∈ lst -> g x = g y -> x = y).
Proof.
  intros Hfirst [Hone|Htwo].
  - destruct lst as [|x rest]; [discriminate|]. injection Hfirst as ->.
    exists (fun x => (Tup x, Tup x)). split.
    + unfold unpack_pairs. cbn [index nth_error rbind]. rewrite Hone. reflexivity.
    + intros x y _ _ [= ->]. reflexivity.
  - apply (unpack_pairs_arity lst 2); [|right; reflexivity|exact Htwo].
    intros ->. discriminate.
Qed.

(** [get_prop] counts the distinct observations, not the observations
    that occur once: the value at position [i] is the number of different
    observations among the first [i + 1], over [i + 1].  The curve is
    defined when the first observation has one token, whatever the others
    have, or when every observation has two. *)
Theorem get_prop_counts_distinct (lst : list observation) (first : observation) :
  lst !! 0 = Some first ->
  length first = 1 \/ Forall (fun x => length x = 2) lst ->
  exists curve,
    get_prop lst = Ok curve /\
    length curve = length lst /\
    (forall i, i < length lst ->
       curve !! i
       = Some (Qnat (size (list_to_set (take (S i) lst) : gset observation))
               / Qnat (S i))%Q).
Proof.
  intros Hfirst Hshape.
  destruct (unpack_pairs_defined lst first Hfirst Hshape) as (g & Hg & Hinj).
  unfold get_prop. rewrite Hg. cbn [rbind].
  rewrite count_singletons_spec. rewrite length_map.
  eexists; split; [reflexivity|split].
  - unfold array_div. rewrite length_zip_with, !length_map, length_seq. lia.
  - intros i Hi. unfold array_div.
    rewrite lookup_zip_with, !list_lookup_fmap, lookup_seq_lt by exact Hi.
    cbn. rewrite difference_empty_L, firstn_map.
    rewrite size_list_to_set_map.
    + do 3 f_equal. lia.
    + intros x y Hx Hy.
      apply elem_of_take in Hx as (jx & Hx & _). apply elem_of_take in Hy as (jy & Hy & _).
      apply Hinj; eapply list_elem_of_lookup_2; eassumption.
Qed.

(** When the first observation has not exactly one token, [get_prop]
    unpacks every observation as a pair: one observation that has not
    exactly two tokens makes it raise ValueError. *)
Theorem get_prop_arity_mismatch (lst : list observation) (first x : observation) :
  lst !! 0 = Some first -> length first <> 1 ->
  x ∈ lst -> length x <> 2 ->
  get_prop lst = Raise ValueError.
Proof.
  intros Hfirst Hone Hx Htwo.
  destruct lst as [|y rest]; [discriminate|]. injection Hfirst as ->.
  unfold get_prop, unpack_pairs. cbn [index nth_error rbind].
  apply Nat.eqb_neq in Hone. rewrite Hone.
  rewrite (rmap_raise _ (first :: rest) x ValueError); [reflexivity| |exact Hx|].
  - intros y e'. destruct y as [|a [|b [|c y]]]; congruence.
  - destruct x as [|a [|b [|c x]]]; try reflexivity. contradiction Htwo. reflexivity.
Qed.

Lemma get_prop_counts_distinct_witness :
  exists curve,
    get_prop [["he"]; ["she"; "eat"]; ["he"]] = Ok curve /\
    length curve = 3 /\
    (forall i, i < 3 ->
       curve !! i
       = Some (Qnat (size (list_to_set (take (S i) [["he"]; ["she"; "eat"]; ["he"]])
                            : gset observation))
               / Qnat (S i))%Q).
Proof.
  apply (get_prop_counts_distinct [["he"]; ["she"; "eat"]; ["he"]] ["he"]).
  - reflexivity.
  - left. reflexivity.
Defined.

Lemma get_prop_arity_mismatch_witness :
  get_prop [["he"; "eat"]; ["she"]] = Raise ValueError.
Proof.
  apply (get_prop_arity_mismatch [["he"; "eat"]; ["she"]] ["he"; "eat"] ["she"]).
  - reflexivity.
  - cbn. lia.
  - apply list_elem_of_further, list_elem_of_here.
  - cbn. lia.
Defined.

(** ** More on the ranking *)

Lemma Qsum_nonneg (l : list Q) : Forall (fun q => (0 <= q)%Q) l -> (0 <= Qsum l)%Q.
Proof.
  induction 1 as [|q l Hq _ IH]; cbn [Qsum fold_right]; [apply Qle_refl|].
  fold (Qsum l). rewrite <- (Qplus_0_l 0). apply Qplus_le_compat; assumption.
Qed.

Lemma Qsum_zero (l : list Q) :
  Forall (fun q => (0 <= q)%Q) l -> (Qsum l == 0)%Q -> Forall (fun q => (q == 0)%Q) l.
Proof.
  induction 1 as [|q l Hq Hl IH]; cbn [Qsum fold_right]; [constructor|].
  fold (Qsum l). intros Hsum.
  pose proof (Qsum_nonneg l Hl) as Hs.
  assert (Hq0 : (q == 0)%Q).
  { apply Qle_antisym; [|exact Hq].
    rewrite <- Hsum. rewrite <- (Qplus_0_r q) at 1.
    apply Qplus_le_compat; [apply Qle_refl|exact Hs]. }
  constructor; [exact Hq0|]. apply IH.
  rewrite Hq0, Qplus_0_l in Hsum. exact Hsum.
Qed.

Lemma Qsquare_nonneg (a : Q) : (0 <= a * a)%Q.
Proof. unfold Qle, Qmult; simpl. rewrite Z.mul_1_r. apply Z.square_nonneg. Qed.

Lemma Qsquare_zero (a b : Q) : ((a - b) * (a - b) == 0)%Q <-> (a == b)%Q.
Proof.
  split.
  - intros Hz. apply Qmult_integral in Hz.
    assert (Hd : (a - b == 0)%Q) by (destruct Hz; assumption).
    rewrite <- (Qplus_0_l b), <- Hd. ring.
  - intros ->. ring.
Qed.

Lemma squared_diffs_nonneg (x y : list Q) :
  Forall (fun q => (0 <= q)%Q) (squared_diffs x y).
Proof.
  unfold squared_diffs. revert y; induction x as [|a x IH]; intros [|b y];
    cbn [zip_with]; constructor; [apply Qsquare_nonneg|apply IH].
Qed.

Lemma squared_diffs_zero (x y : list Q) :
  length y = length x ->
  Forall (fun q => (q == 0)%Q) (squared_diffs x y) <-> Forall2 Qeq x y.
Proof.
  unfold squared_diffs. revert y; induction x as [|a x IH]; intros [|b y] Hlen;
    try discriminate; cbn [zip_with].
  - split; constructor.
  - injection Hlen as Hlen. split.
    + intros Hall. inversion Hall as [|? ? Hab Hrest]; subst.
      constructor; [apply Qsquare_zero; exact Hab|apply IH; assumption].
    + intros Hall. inversion Hall as [|? ? ? ? Hab Hrest]; subst.
      constructor; [apply Qsquare_zero; exact Hab|apply IH; assumption].
Qed.

Lemma Qsum_squared_diffs_sym (x y : list Q) :
  (Qsum (squared_diffs x y) == Qsum (squared_diffs y x))%Q.
Proof.
  unfold squared_diffs. revert y; induction x as [|a x IH]; intros [|b y];
    cbn [zip_with Qsum fold_right]; try reflexivity.
  fold (Qsum (zip_with (fun a b => ((a - b) * (a - b))%Q) x y)).
  fold (Qsum (zip_with (fun a b => ((a - b) * (a - b))%Q) y x)).
  rewrite IH. ring.
Qed.

Lemma squared_diffs_length (x y : list Q) :
  length y = length x -> length (squared_diffs x y) = length x.
Proof. intros Hlen. unfold squared_diffs. rewrite length_zip_with. lia. Qed.

Lemma Qnat_pos (n : nat) : 0 < n -> (0 < Qnat n)%Q.
Proof. intros Hn. unfold Qnat, Qlt; simpl. lia. Qed.

(** The score of [get_top_k] is a distance between curves of one length:
    it does not depend on the order of its arguments, it is never
    negative, and it is zero exactly when the two curves are equal. *)
Theorem mse_distance (x y : list Q) :
  x <> [] -> length y = length x ->
  exists a b,
    mse x y = Ok (Fin a) /\ mse y x = Ok (Fin b) /\
    (a == b)%Q /\ (0 <= a)%Q /\ ((a == 0)%Q <-> Forall2 Qeq x y).
Proof.
  intros Hne Hlen.
  assert (Hney : y <> []) by (intros ->; destruct x; [contradiction|discriminate]).
  exists (mean (squared_diffs x y)), (mean (squared_diffs y x)).
  split; [apply mse_same_length; assumption|].
  split; [apply mse_same_length; [assumption|symmetry; assumption]|].
  assert (Hpos : (0 < Qnat (length x))%Q).
  { apply Qnat_pos. destruct x; [contradiction|cbn; lia]. }
  unfold mean. rewrite !squared_diffs_length by congruence. rewrite Hlen.
  split; [|split].
  - rewrite Qsum_squared_diffs_sym. reflexivity.
  - apply Qle_shift_div_l; [exact Hpos|]. rewrite Qmult_0_l.
    apply Qsum_nonneg, squared_diffs_nonneg.
  - rewrite <- (squared_diffs_zero x y Hlen). split.
    + intros Hz. apply Qsum_zero; [apply squared_diffs_nonneg|].
      assert (Hn0 : ~ (Qnat (length x) == 0)%Q).
      { intros E. rewrite E in Hpos. exact (Qlt_irrefl _ Hpos). }
      rewrite <- (Qmult_div_r (Qsum (squared_diffs x y)) (Qnat (length x)) Hn0).
      rewrite Hz. ring.
    + intros Hall.
      assert (Hs : (Qsum (squared_diffs x y) == 0)%Q).
      { clear -Hall. induction Hall as [|q l Hq _ IH]; cbn [Qsum fold_right];
          [reflexivity|]. fold (Qsum l). rewrite Hq, IH. ring. }
      rewrite Hs. unfold Qdiv. ring.
Qed.

Lemma mse_distance_witness :
  exists a b,
    mse [1; Qmake 1 2]%Q [1; 1]%Q = Ok (Fin a) /\
    mse [1; 1]%Q [1; Qmake 1 2]%Q = Ok (Fin b) /\
    (a == b)%Q /\ (0 <= a)%Q /\
    ((a == 0)%Q <-> Forall2 Qeq [1; Qmake 1 2]%Q [1; 1]%Q).
Proof.
  apply (mse_distance [1; Qmake 1 2]%Q [1; 1]%Q).
  - discriminate.
  - reflexivity.
Defined.

Lemma mse_raises_ValueError (x y : list Q) (e : exn) :
  mse x y = Raise e -> e = ValueError.
Proof.
  unfold mse, broadcast. destruct (Nat.eqb (length x) (length y)).
  - cbn [rbind fst snd]. destruct (squared_diffs x y); discriminate.
  - destruct x as [|a [|a' x]], y as [|b [|b' y]]; cbn [rbind fst snd];
      try (intros [= <-]; reflexivity);
      match goal with |- context [match ?sq with [] => _ | _ :: _ => _ end] =>
        destruct sq; discriminate
      end.
Qed.

Section Ranking.
Context `{Env}.

(** A curve whose length differs from the reference's, neither being a
    single value, stops the ranking: [get_top_k] raises ValueError before
    it writes the report, whatever the other curves are. *)
Theorem get_top_k_length_mismatch (self : Experiment)
    (singleton_prop : list (Q * Q * list Q)) (treebank_prop : list Q)
    (k : Z) (w : world) (kv : Q * Q * list Q) :
  kv ∈ singleton_prop ->
  length (snd kv) <> length treebank_prop ->
  length (snd kv) <> 1 -> length treebank_prop <> 1 ->
  get_top_k self singleton_prop treebank_prop k w = (Raise ValueError, w).
Proof.
  intros Hin Hlen Hkv Htp. unfold get_top_k, get_top_k_by, bind, lift.
  rewrite (rmap_raise _ singleton_prop kv ValueError); [reflexivity| |exact Hin|].
  - intros y e'. destruct (mse treebank_prop (snd y)) as [m|e] eqn:Hm;
      cbn [rbind]; [discriminate|].
    intros [= <-]. exact (mse_raises_ValueError _ _ _ Hm).
  - unfold mse, broadcast.
    assert (Hneq : Nat.eqb (length treebank_prop) (length (snd kv)) = false)
      by (apply Nat.eqb_neq; congruence).
    rewrite Hneq.
    destruct treebank_prop as [|a [|a' tp]], (snd kv) as [|b [|b' c]];
      cbn [length] in Hkv, Htp, Hneq |- *; try reflexivity; try lia; discriminate.
Qed.



(** Without the parameter list there is no evaluation: the list is read
    outside the [try] of [get_peranto_data], so [run] raises
    FileNotFoundError for it and leaves the world as it was. *)
Theorem run_needs_parameter_list (self : Experiment) (k : Z) (w : world) :
  files w !! param_path self = None ->
  run self k w = (Raise (FileNotFoundError (param_path self)), w).
Proof.
  intros Hnone.
  unfold run, get_singleton_prop, get_peranto_data, read_parameters, bind, read_file.
  rewrite Hnone. reflexivity.
Qed.

End Ranking.

Lemma get_top_k_length_mismatch_witness :
  get_top_k (Demo.session "nn")
    [ (0%Q, 0%Q, [1%Q; 1%Q; 1%Q]); (50%Q, 0%Q, [1%Q; 1%Q]) ] [1%Q; 1%Q; 1%Q] 1
    Demo.fresh
  = (Raise ValueError, Demo.fresh).
Proof.
  apply (get_top_k_length_mismatch (Demo.session "nn")
           [ (0%Q, 0%Q, [1%Q; 1%Q; 1%Q]); (50%Q, 0%Q, [1%Q; 1%Q]) ] [1%Q; 1%Q; 1%Q] 1
           Demo.fresh (50%Q, 0%Q, [1%Q; 1%Q])).
  - apply list_elem_of_further, list_elem_of_here.
  - cbn. lia.
  - cbn. lia.
  - cbn. lia.
Defined.



Lemma run_needs_parameter_list_witness :
  run (Demo.session "nn") 3 Demo.fresh
  = (Raise (FileNotFoundError (param_path (Demo.session "nn"))), Demo.fresh).
Proof.
  apply (run_needs_parameter_list (Demo.session "nn") 3 Demo.fresh).
  vm_compute. reflexivity.
Defined.

(** ** The tree of generator files *)

Lemma dict_set_nat_fresh {V} (k : nat) (v : V) (d : list (nat * V)) :
  Forall (fun kv => fst kv < k) d -> dict_set Nat.eqb k v d = d ++ [(k, v)].
Proof.
  induction 1 as [|[k0 v0] d Hk _ IH]; cbn [dict_set app]; [reflexivity|].
  cbn [fst] in Hk. destruct (Nat.eqb k k0) eqn:E.
  - apply Nat.eqb_eq in E. lia.
  - rewrite IH. reflexivity.
Qed.

(** A dict built from an enumeration has the positions as its keys, in
    their order. *)
Lemma dict_of_enumerate_from {V} (l : list V) (k : nat) (acc : list (nat * V)) :
  Forall (fun kv => fst kv < k) acc ->
  fold_left (fun d kv => dict_set Nat.eqb (fst kv) (snd kv) d)
    (combine (seq k (length l)) l) acc
  = acc ++ combine (seq k (length l)) l.
Proof.
  revert k acc; induction l as [|x l IH]; intros k acc Hacc;
    cbn [length seq combine fold_left].
  - rewrite app_nil_r. reflexivity.
  - cbn [fst snd]. rewrite (dict_set_nat_fresh k x acc Hacc).
    rewrite IH.
    + rewrite <- app_assoc. reflexivity.
    + apply Forall_app. split.
      * eapply Forall_impl; [exact Hacc|]. cbv beta. intros kv Hkv. lia.
      * constructor; [cbn; lia|constructor].
Qed.

Lemma dict_of_enumerate {V} (l : list V) :
  dict_of_items (enumerate l) = enumerate l.
Proof.
  unfold dict_of_items, enumerate.
  rewrite dict_of_enumerate_from by constructor. reflexivity.
Qed.

Lemma dict_get_enumerate_from {V} (l : list V) (k i : nat) :
  dict_get Nat.eqb (k + i) (combine (seq k (length l)) l) = l !! i.
Proof.
  revert k i; induction l as [|x l IH]; intros k i;
    cbn [length seq combine dict_get]; [destruct i; reflexivity|].
  destruct i as [|i].
  - rewrite Nat.add_0_r, Nat.eqb_refl. reflexivity.
  - assert (E : Nat.eqb (k + S i) k = false) by (apply Nat.eqb_neq; lia).
    rewrite E. replace (k + S i) with (S k + i) by lia. rewrite IH. reflexivity.
Qed.

Lemma dict_get_enumerate {V} (l : list V) (i : nat) :
  dict_get Nat.eqb i (enumerate l) = l !! i.
Proof. exact (dict_get_enumerate_from l 0 i). Qed.

(** Every language file stands in the tree twice, the second time for the
    identity mapping: with [n] language files, the paths at the positions
    [i] and [n + i] are the path of file [i]; and with [m] names,
    [file_order] gives position [i] the name [i] and position [m + i] the
    same name followed by 1. *)
Theorem PerantoTree_identity_copies (json_path : string)
    (amr_files middleman_files language_files names : list string)
    (i : nat) (lang_file name : string) :
  language_files !! i = Some lang_file -> names !! i = Some name ->
  let self := PerantoTree.init json_path amr_files middleman_files language_files names in
  let path := json_path +:+ "/language_files/" +:+ lang_file +:+ ".json" in
  PerantoTree.get self !! 2 = Some (PerantoTree.lang_paths self) /\
  PerantoTree.lang_paths self !! i = Some path /\
  PerantoTree.lang_paths self !! (length language_files + i) = Some path /\
  dict_get Nat.eqb i (PerantoTree.file_order self) = Some name /\
  dict_get Nat.eqb (length names + i) (PerantoTree.file_order self)
  = Some (name +:+ "1").
Proof.
  intros Hfile Hname self path.
  assert (Hpath : map (fun lang_file =>
                         json_path +:+ "/language_files/" +:+ lang_file +:+ ".json")
                    language_files !! i = Some path).
  { change (map ?f ?l) with (f <$> l). rewrite list_lookup_fmap, Hfile. reflexivity. }
  split; [reflexivity|].
  unfold self, PerantoTree.init. cbn [PerantoTree.lang_paths PerantoTree.file_order].
  rewrite dict_of_enumerate, !dict_get_enumerate.
  split; [|split; [|split]].
  - rewrite lookup_app_l; [exact Hpath|]. eapply lookup_lt_Some. exact Hpath.
  - rewrite <- (length_map (fun lang_file =>
        json_path +:+ "/language_files/" +:+ lang_file +:+ ".json") language_files).
    rewrite lookup_app_r by lia.
    replace (_ + i - _) with i by lia. exact Hpath.
  - rewrite lookup_app_l; [exact Hname|]. eapply lookup_lt_Some. exact Hname.
  - rewrite lookup_app_r by lia.
    replace (length names + i - length names) with i by lia.
    change (map ?f ?l) with (f <$> l). rewrite list_lookup_fmap, Hname. reflexivity.
Qed.

(** The sizes of the tree: [num_paths] is twice the product of the numbers
    of files of the three kinds, and [file_order] has a name for the
    positions below twice the number of names and for no other. *)
Theorem PerantoTree_sizes (json_path : string)
    (amr_files middleman_files language_files names : list string) (i : nat) :
  let self := PerantoTree.init json_path amr_files middleman_files language_files names in
  PerantoTree.num_paths self
  = 2 * (length amr_files * length middleman_files * length language_files) /\
  length (PerantoTree.lang_paths self) = 2 * length language_files /\
  (is_Some (dict_get Nat.eqb i (PerantoTree.file_order self)) <-> i < 2 * length names).
Proof.
  intros self. unfold self, PerantoTree.init.
  cbn [PerantoTree.num_paths PerantoTree.lang_paths PerantoTree.file_order].
  rewrite dict_of_enumerate, dict_get_enumerate, !length_app, !length_map.
  split; [lia|]. split; [lia|].
  rewrite lookup_lt_is_Some, length_app, length_map. lia.
Qed.

Lemma PerantoTree_identity_copies_witness :
  let self := PerantoTree.init "/tp/peranto_files" ["amr"] ["middleman"]
                ["englishSVO"; "englishSOV"] ["SVO"; "SOV"] in
  let path := "/tp/peranto_files" +:+ "/language_files/" +:+ "englishSOV" +:+ ".json" in
  PerantoTree.get self !! 2 = Some (PerantoTree.lang_paths self) /\
  PerantoTree.lang_paths self !! 1 = Some path /\
  PerantoTree.lang_paths self !! (length ["englishSVO"; "englishSOV"] + 1) = Some path /\
  dict_get Nat.eqb 1 (PerantoTree.file_order self) = Some "SOV" /\
  dict_get Nat.eqb (length ["SVO"; "SOV"] + 1) (PerantoTree.file_order self)
  = Some ("SOV" +:+ "1").
Proof.
  apply (PerantoTree_identity_copies "/tp/peranto_files" ["amr"] ["middleman"]
           ["englishSVO"; "englishSOV"] ["SVO"; "SOV"] 1 "englishSOV" "SOV").
  - reflexivity.
  - reflexivity.
Defined.

(** ** The constructor and the next stage *)

Section Stages.
Context `{Env}.

(** The parameter [child_dists] of [Config] cannot be used: the
    configuration keeps it only when it is left out, so a session built
    from a configuration that was given child distributions raises
    AttributeError before any check, and leaves the world as it was. *)
Theorem explicit_child_dists_rejected (distribution : string)
    (input_space : option (list (string * pyval))) (base_file data_folder : string)
    (child_dists : list string) (w : world) :
  Experiment_init
    (Config.init distribution input_space base_file data_folder (Some child_dists)) w
  = (Raise AttributeError, w) /\
  Config.child_dists (Config.init distribution input_space base_file data_folder None)
  = Some [distribution].
Proof. split; reflexivity. Qed.

(** The parameter list that [create_param_space] writes for a distribution
    of level 1 or 2 is the file the gate of a later session of the same
    data folder looks for; and what existed before still exists. *)
Theorem create_param_space_unlocks (config config' : Config.t)
    (cds cds' : list string) (w w1 : world) :
  let tuned := Experiment_attrs config cds in
  let next := Experiment_attrs config' cds' in
  Config.data_folder config' = Config.data_folder config ->
  Config.distribution config ∈ lvl1_dist ++ lvl2_dist ->
  create_param_space tuned w = (Ok tt, w1) ->
  exists_in w1 (get_param_path next (Config.distribution config)) = true /\
  (forall p, exists_in w p = true -> exists_in w1 p = true).
Proof.
  intros tuned next Hfolder Hd Hrun.
  assert (Hpath : param_path tuned = get_param_path next (Config.distribution config)).
  { unfold tuned, next, get_param_path, Experiment_attrs.
    cbn [param_path data_path name]. rewrite Hfolder.
    assert (Hname : remove_char "$"%char (Config.distribution config)
                    = Config.distribution config).
    { repeat (apply elem_of_cons in Hd as [-> | Hd]; [vm_compute; reflexivity|]).
      inversion Hd. }
    rewrite Hname. reflexivity. }
  unfold create_param_space, bind, lift in Hrun.
  destruct (generate_pairs (input_space tuned)) as [pairs|e]; [|discriminate].
  unfold write_file in Hrun. injection Hrun as <-.
  unfold exists_in. cbn [dirs files]. split.
  - rewrite <- Hpath, lookup_insert_eq.
    rewrite (bool_decide_eq_true_2 (is_Some (Some _))) by eauto.
    apply orb_true_r.
  - intros p Hp. apply orb_true_iff in Hp as [Hp|Hp]; [rewrite Hp; reflexivity|].
    apply bool_decide_eq_true_1 in Hp.
    rewrite (bool_decide_eq_true_2 (is_Some _)); [apply orb_true_r|].
    destruct (decide (p = param_path tuned)) as [->|Hne].
    + rewrite lookup_insert_eq. eauto.
    + rewrite lookup_insert_ne by (intros E; apply Hne; symmetry; exact E). exact Hp.
Qed.

End Stages.

Lemma create_param_space_unlocks_witness :
  exists_in (create_param_space (Demo.session "vb") Demo.fresh).2
    (get_param_path (Demo.session "nn.arg0") "vb") = true /\
  (forall p, exists_in Demo.fresh p = true ->
     exists_in (create_param_space (Demo.session "vb") Demo.fresh).2 p = true).
Proof.
  apply (create_param_space_unlocks (Demo.config "vb") (Demo.config "nn.arg0")
           ["vb"] ["nn.arg0"] Demo.fresh
           (create_param_space (Demo.session "vb") Demo.fresh).2).
  - reflexivity.
  - apply list_elem_of_here.
  - vm_compute. reflexivity.
Defined.

(** ** The whole evaluation *)


Section WholeEvaluation.
Context `{Env}.


End WholeEvaluation.


(** ** The filtered copies *)

Section FilteredCopies.
Context `{Env}.

Lemma get_peranto_data_loop_step (self : Experiment) (strength discount : Q)
    (rest : list (Q * Q)) (data : list (Q * Q * list observation)) (w : world)
    (triples : list triple) :
  (read_triples (output_file self strength discount) w).1 = Ok triples ->
  get_peranto_data_loop self ((strength, discount) :: rest) data w
  = get_peranto_data_loop self rest
      (dict_set pair_eqb (strength, discount) (peranto_get (dist self) triples) data)
      (World (dirs w)
         (<[modified_file self strength discount :=
              modified_text (peranto_get (dist self) triples)]> (files w))
         (stdout w)).
Proof.
  intros Hread. cbn [get_peranto_data_loop].
  unfold bind at 1. unfold try_except at 1. unfold bind at 1.
  rewrite read_triples_run in Hread |- *. cbn [fst] in Hread. rewrite Hread.
  unfold ret at 1. unfold bind at 1. unfold try_except, write_file. reflexivity.
Qed.

Lemma get_peranto_data_loop_copies (self : Experiment)
    (parameters : list (Q * Q)) (tripless : list (list triple))
    (data : list (Q * Q * list observation)) (w : world) (path : string) :
  Forall2 (fun p triples =>
    (read_triples (output_file self (fst p) (snd p)) w).1 = Ok triples)
    parameters tripless ->
  let w' := (get_peranto_data_loop self parameters data w).2 in
  ((forall p, p ∈ parameters -> modified_file self (fst p) (snd p) <> path) /\
   files w' !! path = files w !! path) \/
  (exists j p triples,
     parameters !! j = Some p /\ tripless !! j = Some triples /\
     modified_file self (fst p) (snd p) = path /\
     files w' !! path = Some (modified_text (peranto_get (dist self) triples))).
Proof.
  intros Hall. revert data w Hall.
  induction parameters as [|[s0 d0] rest IH] in tripless |- *; intros data w Hall w'.
  - left. split; [intros p Hp; inversion Hp|reflexivity].
  - inversion Hall as [|p t ps ts Hhead Htail]; subst. cbn [fst snd] in Hhead.
    unfold w'. rewrite (get_peranto_data_loop_step self s0 d0 rest data w t Hhead).
    match goal with |- context [get_peranto_data_loop self rest ?d ?w0] =>
      destruct (IH ts d w0) as [[Hnone Hsame]|(j & p & triples & Hp & Ht & Hname & Hfile)]
    end.
    + eapply Forall2_impl; [exact Htail|]. intros p triples Hp. cbv beta in Hp |- *.
      rewrite read_triples_run in Hp |- *. cbn [fst files] in Hp |- *.
      rewrite lookup_insert_ne by apply output_modified_distinct. exact Hp.
    + cbn [files] in Hsame.
      destruct (decide (modified_file self s0 d0 = path)) as [Heq|Hne].
      * right. exists 0, (s0, d0), t. split; [reflexivity|]. split; [reflexivity|].
        split; [exact Heq|]. rewrite Hsame, Heq, lookup_insert_eq. reflexivity.
      * left. split.
        -- intros p Hp. apply elem_of_cons in Hp as [->|Hp]; [exact Hne|auto].
        -- rewrite Hsame. apply lookup_insert_ne. exact Hne.
    + right. exists (S j), p, triples. auto.
Qed.

(** The docstring of [get_peranto_data] speaks of overwriting the output
    files; the code writes a filtered copy beside them.  When every output
    file can be read, each pair has its copy afterwards, holding the
    projection of the triples of an output file of that name, and a file
    that is no such copy is as it was. *)
Theorem get_peranto_data_writes_copies (self : Experiment) (w : world)
    (parameters : list (Q * Q)) (tripless : list (list triple)) :
  (read_parameters self w).1 = Ok parameters ->
  Forall2 (fun p triples =>
    (read_triples (output_file self (fst p) (snd p)) w).1 = Ok triples)
    parameters tripless ->
  let w' := (get_peranto_data self w).2 in
  (forall strength discount, (strength, discount) ∈ parameters ->
     exists j p triples,
       parameters !! j = Some p /\ tripless !! j = Some triples /\
       modified_file self (fst p) (snd p) = modified_file self strength discount /\
       files w' !! modified_file self strength discount
       = Some (modified_text (peranto_get (dist self) triples))) /\
  (forall path,
     (forall p, p ∈ parameters -> modified_file self (fst p) (snd p) <> path) ->
     files w' !! path = files w !! path).
Proof.
  intros Hread Hall w'.
  assert (Hw' : w' = (get_peranto_data_loop self parameters [] w).2).
  { unfold w', get_peranto_data, bind.
    pose proof (read_parameters_world self w) as Hw.
    destruct (read_parameters self w) as [r w0]. cbn [fst snd] in Hread, Hw.
    subst r w0. reflexivity. }
  rewrite Hw'. split.
  - intros strength discount Hin.
    destruct (get_peranto_data_loop_copies self parameters tripless [] w
                (modified_file self strength discount) Hall)
      as [[Hnone _]|Hsome]; [|exact Hsome].
    exfalso. exact (Hnone (strength, discount) Hin eq_refl).
  - intros path Hpath.
    destruct (get_peranto_data_loop_copies self parameters tripless [] w path Hall)
      as [[_ Hsame]|(j & p & triples & Hp & _ & Hname & _)]; [exact Hsame|].
    exfalso. apply (Hpath p); [eapply list_elem_of_lookup_2; exact Hp|exact Hname].
Qed.

End FilteredCopies.

Lemma get_peranto_data_writes_copies_witness :
  let w := Demo.evaluation_world [(0, 0); (0, Qmake 1 2); (50, 0); (50, Qmake 1 2)]%Q in
  let parameters := [(0, 0); (0, Qmake 1 2); (50, 0); (50, Qmake 1 2)]%Q in
  let w' := (get_peranto_data (Demo.session "nn") w).2 in
  (forall strength discount, (strength, discount) ∈ parameters ->
     exists j p triples,
       parameters !! j = Some p /\ replicate 4 Demo.treebank !! j = Some triples /\
       modified_file (Demo.session "nn") (fst p) (snd p)
       = modified_file (Demo.session "nn") strength discount /\
       files w' !! modified_file (Demo.session "nn") strength discount
       = Some (modified_text (peranto_get (dist (Demo.session "nn")) triples))) /\
  (forall path,
     (forall p, p ∈ parameters ->
        modified_file (Demo.session "nn") (fst p) (snd p) <> path) ->
     files w' !! path = files w !! path).
Proof.
  apply (get_peranto_data_writes_copies (Demo.session "nn")
           (Demo.evaluation_world [(0, 0); (0, Qmake 1 2); (50, 0); (50, Qmake 1 2)]%Q)
           [(0, 0); (0, Qmake 1 2); (50, 0); (50, Qmake 1 2)]%Q
           (replicate 4 Demo.treebank)).
  - vm_compute. reflexivity.
  - repeat constructor; vm_compute; reflexivity.
Defined.
